(** * StewardAI: response sanitisation, plan generation, credential check,
      chat history and application state

    A shallow embedding of the logic of [geminiService.ts], [AgentChat.tsx]
    and [app.tsx], with the properties of the specification stated and
    settled against it; and of the credential dialog ([ApiKeyModal.tsx]),
    the screen of the application, the advisor session and the profile
    form ([InputForm.tsx]), with further properties of the code.

    Conventions of the embedding:
    - a JavaScript string is the list of its UTF-16 code units;
    - a JavaScript value is a term of [value]; numbers are IEEE 754
      binary64 values ([spec_float] at precision 53, maximal exponent 1024);
    - code that can throw returns a [result]; [try]/[catch] is [try_catch];
    - the external model service is a function handed to the code that
      calls it, and the calls made are recorded in a trace;
    - local storage is a finite map from keys to strings. *)

From Stdlib Require Import ZArith NArith List String Ascii Bool Lia.
From Stdlib Require Import SpecFloat.
From stdpp Require Import gmap.
Import ListNotations.

Open Scope string_scope.
Open Scope list_scope.

(* ===================================================================== *)
(** * JavaScript strings *)
(* ===================================================================== *)

(** A string is its sequence of UTF-16 code units. *)
Definition jsstring := list N.

(** A source literal, character by character (source literals of this
    program are ASCII). *)
Definition lit (s : string) : jsstring :=
  map N_of_ascii (list_ascii_of_string s).

Coercion lit : string >-> jsstring.

Arguments lit : simpl never.

Fixpoint jsstring_eqb (a b : jsstring) : bool :=
  match a, b with
  | [], [] => true
  | x :: a', y :: b' => N.eqb x y && jsstring_eqb a' b'
  | _, _ => false
  end.

(* ===================================================================== *)
(** * JavaScript values *)
(* ===================================================================== *)

Definition number := spec_float.

(** An object is the list of its own properties in creation order; an
    array is the list of its elements. *)
#[warnings="-register-all"]
Inductive value : Type :=
| VUndefined
| VNull
| VBool (b : bool)
| VNumber (n : number)
| VString (s : jsstring)
| VArray (elems : list value)
| VObject (props : list (jsstring * value)).

(** Exceptions. [Error msg] is [new Error(msg)]. *)
Inductive exn : Type :=
| TypeError
| SyntaxError
| Error (msg : jsstring).

Inductive result (A : Type) : Type :=
| Ok (a : A)
| Throw (e : exn).

Arguments Ok {A} a.
Arguments Throw {A} e.

Definition bind {A B : Type} (r : result A) (k : A -> result B) : result B :=
  match r with
  | Ok a => k a
  | Throw e => Throw e
  end.

Notation "x <- r ;; k" := (bind r (fun x => k))
  (at level 100, r at next level, right associativity).

(** [try { body } catch (e) { handler }] *)
Definition try_catch {A : Type} (body : result A) (handler : exn -> result A)
  : result A :=
  match body with
  | Ok a => Ok a
  | Throw e => handler e
  end.

(** [typeof v] *)
Definition typeof (v : value) : jsstring :=
  match v with
  | VUndefined => "undefined"
  | VNull => "object"
  | VBool _ => "boolean"
  | VNumber _ => "number"
  | VString _ => "string"
  | VArray _ => "object"
  | VObject _ => "object"
  end.

(** ToBoolean: [undefined], [null], [false], [+0], [-0], [NaN] and the
    empty string are falsy; everything else is truthy. *)
Definition truthy (v : value) : bool :=
  match v with
  | VUndefined => false
  | VNull => false
  | VBool b => b
  | VNumber (S754_zero _) => false
  | VNumber S754_nan => false
  | VNumber _ => true
  | VString [] => false
  | VString _ => true
  | VArray _ => true
  | VObject _ => true
  end.

(** [Array.isArray(v)] *)
Definition isArray (v : value) : bool :=
  match v with
  | VArray _ => true
  | _ => false
  end.

(** The own property [k] of a property list, [undefined] when there is
    none. *)
Fixpoint lookup_prop (k : jsstring) (props : list (jsstring * value)) : value :=
  match props with
  | [] => VUndefined
  | (k', v) :: rest => if jsstring_eqb k k' then v else lookup_prop k rest
  end.

(** The property read [v.k]. Reading a property of [undefined] or [null]
    throws a TypeError. On primitives and arrays the read falls through to
    the built-in prototypes: the names this program reads through [get]
    are neither [length], nor an index, nor defined on a built-in
    prototype, so the read yields [undefined] there. *)
Definition get (v : value) (k : jsstring) : result value :=
  match v with
  | VUndefined => Throw TypeError
  | VNull => Throw TypeError
  | VObject props => Ok (lookup_prop k props)
  | _ => Ok VUndefined
  end.

(** [a || b] and [a && b] on values already evaluated. *)
Definition js_or (a b : value) : value := if truthy a then a else b.
Definition js_and (a b : value) : value := if truthy a then b else a.

(** [Array.prototype.filter] with a callback that may throw: the callback
    runs on the elements in order and the first exception aborts the
    call. *)
Fixpoint filterM (f : value -> result value) (l : list value)
  : result (list value) :=
  match l with
  | [] => Ok []
  | x :: rest =>
      keep <- f x ;;
      kept <- filterM f rest ;;
      Ok (if truthy keep then x :: kept else kept)
  end.

(** [Array.prototype.map], likewise. *)
Fixpoint mapM (f : value -> result value) (l : list value)
  : result (list value) :=
  match l with
  | [] => Ok []
  | x :: rest =>
      y <- f x ;;
      ys <- mapM f rest ;;
      Ok (y :: ys)
  end.

(* ===================================================================== *)
(** * The declared types ([types.ts]) *)
(* ===================================================================== *)

Module Types.

(** The types of the declarations: strings, numbers, unions of string
    literals, arrays, and interfaces, whose fields are required or
    optional. *)
#[warnings="-register-all"]
Inductive ty : Type :=
| TyString
| TyNumber
| TyLiterals (options : list jsstring)
| TyArray (elem : ty)
| TyInterface (fields : list (jsstring * (ty * bool))).

Definition required (name : string) (t : ty) : jsstring * (ty * bool) :=
  (lit name, (t, false)).

Definition optional (name : string) (t : ty) : jsstring * (ty * bool) :=
  (lit name, (t, true)).

(** [v] is a value of type [t]. An optional field may be missing or
    [undefined]. *)
Fixpoint conforms (t : ty) (v : value) : bool :=
  match t with
  | TyString => match v with VString _ => true | _ => false end
  | TyNumber => match v with VNumber _ => true | _ => false end
  | TyLiterals options =>
      match v with
      | VString s => existsb (jsstring_eqb s) options
      | _ => false
      end
  | TyArray elem =>
      match v with
      | VArray elems => forallb (conforms elem) elems
      | _ => false
      end
  | TyInterface fields =>
      match v with
      | VObject props =>
          forallb
            (fun field =>
               match lookup_prop (fst field) props with
               | VUndefined => snd (snd field)
               | x => conforms (fst (snd field)) x
               end)
            fields
      | _ => false
      end
  end.

(** Lines 18-23. *)
Definition TechnicalAnalysis : ty :=
  TyInterface [ required "summary" TyString; required "support" TyString;
                required "resistance" TyString;
                required "indicatorSignal" TyString ].

(** Lines 25-29. *)
Definition MarketSentiment : ty :=
  TyInterface
    [ required "score"
        (TyLiterals [lit "Very Bullish"; lit "Bullish"; lit "Neutral";
                     lit "Bearish"; lit "Very Bearish"]);
      required "summary" TyString; required "analystRating" TyString ].

(** Lines 31-42. *)
Definition AllocationItem : ty :=
  TyInterface
    [ required "ticker" TyString; required "name" TyString;
      required "sector" TyString; required "percentage" TyNumber;
      required "type"
        (TyLiterals [lit "Stock"; lit "ETF"; lit "Bond"; lit "REIT";
                     lit "Crypto"]);
      required "rationale" TyString;
      required "accountType"
        (TyLiterals [lit "Roth IRA"; lit "Brokerage"; lit "Both"]);
      optional "dividendYield" TyNumber;
      required "technicalAnalysis" TechnicalAnalysis;
      required "marketSentiment" MarketSentiment ].

(** Lines 44-51. *)
Definition ProjectionData : ty :=
  TyInterface
    [ required "year" TyNumber; required "conservative" TyNumber;
      required "expected" TyNumber; required "aggressive" TyNumber;
      required "inflationAdjusted" TyNumber;
      required "totalContributions" TyNumber ].

(** Lines 53-56. *)
Definition GroundingSource : ty :=
  TyInterface [ required "title" TyString; required "url" TyString ].

(** Lines 58-64. *)
Definition SecEvent : ty :=
  TyInterface
    [ required "ticker" TyString; required "type" TyString;
      required "date" TyString; required "summary" TyString;
      required "sentiment"
        (TyLiterals [lit "positive"; lit "negative"; lit "neutral"]) ].

(** Lines 66-71. *)
Definition SectorTrend : ty :=
  TyInterface
    [ required "sector" TyString;
      required "trend" (TyLiterals [lit "accumulate"; lit "hold"; lit "reduce"]);
      required "performance" TyNumber; required "reasoning" TyString ].

(** Lines 73-77. *)
Definition MarketAnalysis : ty :=
  TyInterface
    [ required "macroOutlook" TyString; required "inflationForecast" TyString;
      required "interestRateView" TyString ].

(** Lines 79-84. *)
Definition RebalancingOrder : ty :=
  TyInterface
    [ required "ticker" TyString;
      required "action" (TyLiterals [lit "BUY"; lit "SELL"; lit "HOLD"]);
      required "amount" TyString; required "reason" TyString ].

(** Lines 86-90. *)
Definition PortfolioAnalysis : ty :=
  TyInterface
    [ required "currentScore" TyNumber; required "analysis" TyString;
      required "rebalancingOrders" (TyArray RebalancingOrder) ].

(** Lines 92-97. *)
Definition SWOTAnalysis : ty :=
  TyInterface
    [ required "strengths" (TyArray TyString);
      required "weaknesses" (TyArray TyString);
      required "opportunities" (TyArray TyString);
      required "threats" (TyArray TyString) ].

(** Lines 105-117. *)
Definition InvestmentPlan : ty :=
  TyInterface
    [ required "summary" TyString; required "riskAnalysis" TyString;
      required "actionableSteps" (TyArray TyString);
      required "swot" SWOTAnalysis;
      required "allocations" (TyArray AllocationItem);
      required "projections" (TyArray ProjectionData);
      required "sources" (TyArray GroundingSource);
      required "marketAnalysis" MarketAnalysis;
      required "secEvents" (TyArray SecEvent);
      required "sectorTrends" (TyArray SectorTrend);
      optional "portfolioAnalysis" PortfolioAnalysis ].

End Types.

(* ===================================================================== *)
(** * The response sanitizer ([geminiService.ts], lines 57-90) *)
(* ===================================================================== *)

Module Sanitizer.

(** Line 71. *)
Definition placeholderTechnicalAnalysis : value :=
  VObject [ ("summary" : jsstring, VString "No technical analysis provided.");
            ("support" : jsstring, VString "-");
            ("resistance" : jsstring, VString "-");
            ("indicatorSignal" : jsstring, VString "-") ].

(** Line 74. *)
Definition placeholderMarketSentiment : value :=
  VObject [ ("score" : jsstring, VString "Neutral");
            ("summary" : jsstring, VString "No sentiment analysis provided.");
            ("analystRating" : jsstring, VString "-") ].

(** Line 81. *)
Definition defaultSwot : value :=
  VObject [ ("strengths" : jsstring, VArray []);
            ("weaknesses" : jsstring, VArray []);
            ("opportunities" : jsstring, VArray []);
            ("threats" : jsstring, VArray []) ].

(** Line 85. *)
Definition defaultMarketAnalysis : value :=
  VObject [ ("macroOutlook" : jsstring, VString "");
            ("inflationForecast" : jsstring, VString "");
            ("interestRateView" : jsstring, VString "") ].

(** [typeof v === 'object'] *)
Definition typeof_object (v : value) : bool :=
  jsstring_eqb (typeof v) "object".

(** Line 59: [(a) => typeof a === 'object' && a.ticker] *)
Definition allocationGuard (a : value) : result value :=
  if typeof_object a then get a "ticker" else Ok (VBool false).

(** Line 83: [p => typeof p === 'object' && p.year] *)
Definition projectionGuard (p : value) : result value :=
  if typeof_object p then get p "year" else Ok (VBool false).

(** Lines 86 and 87: [e => typeof e === 'object'] *)
Definition objectGuard (e : value) : result value :=
  Ok (VBool (typeof_object e)).

(** Lines 69-71 and 72-74: [(typeof x === 'object' && x) ? x : d] *)
Definition objectOr (x d : value) : value :=
  if truthy (js_and (VBool (typeof_object x)) x) then x else d.

(** Lines 60-75: the callback of [map]. *)
Definition sanitizeAllocation (a : value) : result value :=
  ticker <- get a "ticker" ;;
  name <- get a "name" ;;
  sector <- get a "sector" ;;
  percentage <- get a "percentage" ;;
  type <- get a "type" ;;
  rationale <- get a "rationale" ;;
  accountType <- get a "accountType" ;;
  dividendYield <- get a "dividendYield" ;;
  technicalAnalysis <- get a "technicalAnalysis" ;;
  marketSentiment <- get a "marketSentiment" ;;
  Ok (VObject
    [ ("ticker" : jsstring, js_or ticker (VString "N/A"));
      ("name" : jsstring, js_or name (VString "N/A"));
      ("sector" : jsstring, js_or sector (VString "N/A"));
      ("percentage" : jsstring, js_or percentage (VNumber (S754_zero false)));
      ("type" : jsstring, js_or type (VString "ETF"));
      ("rationale" : jsstring, js_or rationale (VString "No rationale provided."));
      ("accountType" : jsstring, js_or accountType (VString "Brokerage"));
      ("dividendYield" : jsstring, dividendYield);
      ("technicalAnalysis" : jsstring,
         objectOr technicalAnalysis placeholderTechnicalAnalysis);
      ("marketSentiment" : jsstring,
         objectOr marketSentiment placeholderMarketSentiment) ]).

(** Lines 58-75: [data.allocations.filter(...).map(...)] on the elements
    of the array. *)
Definition sanitizeAllocations (elems : list value) : result (list value) :=
  kept <- filterM allocationGuard elems ;;
  mapM sanitizeAllocation kept.

(** [Array.isArray(x) ? x.filter(guard) : []] *)
Definition filteredArray (guard : value -> result value) (x : value)
  : result value :=
  match x with
  | VArray elems => kept <- filterM guard elems ;; Ok (VArray kept)
  | _ => Ok (VArray [])
  end.

(** Lines 57-90. *)
Definition validateAndSanitizePlan (data : value) (summary : jsstring)
  : result value :=
  allocationsField <- get data "allocations" ;;
  allocations <-
    match allocationsField with
    | VArray elems => sane <- sanitizeAllocations elems ;; Ok (VArray sane)
    | _ => Ok (VArray [])
    end ;;
  riskAnalysis <- get data "riskAnalysis" ;;
  actionableSteps <- get data "actionableSteps" ;;
  swot <- get data "swot" ;;
  projectionsField <- get data "projections" ;;
  projections <- filteredArray projectionGuard projectionsField ;;
  marketAnalysis <- get data "marketAnalysis" ;;
  secEventsField <- get data "secEvents" ;;
  secEvents <- filteredArray objectGuard secEventsField ;;
  sectorTrendsField <- get data "sectorTrends" ;;
  sectorTrends <- filteredArray objectGuard sectorTrendsField ;;
  portfolioAnalysis <- get data "portfolioAnalysis" ;;
  Ok (VObject
    [ ("summary" : jsstring,
         js_or (VString summary) (VString "No summary provided."));
      ("riskAnalysis" : jsstring, js_or riskAnalysis (VString ""));
      ("actionableSteps" : jsstring,
         if isArray actionableSteps then actionableSteps else VArray []);
      ("swot" : jsstring,
         js_or (js_and (VBool (typeof_object swot)) swot) defaultSwot);
      ("allocations" : jsstring, allocations);
      ("projections" : jsstring, projections);
      ("sources" : jsstring, VArray []);
      ("marketAnalysis" : jsstring,
         js_or (js_and (VBool (typeof_object marketAnalysis)) marketAnalysis)
               defaultMarketAnalysis);
      ("secEvents" : jsstring, secEvents);
      ("sectorTrends" : jsstring, sectorTrends);
      ("portfolioAnalysis" : jsstring,
         if typeof_object portfolioAnalysis then portfolioAnalysis
         else VUndefined) ]).

End Sanitizer.

(* ===================================================================== *)
(** * String operations of the platform *)
(* ===================================================================== *)

Module Str.

(** [s] begins with [pat]. *)
Fixpoint starts_with (pat s : jsstring) : bool :=
  match pat, s with
  | [], _ => true
  | p :: pat', c :: s' => N.eqb p c && starts_with pat' s'
  | _ :: _, [] => false
  end.

(** Position of the first occurrence of [pat] in [s]. *)
Fixpoint find_first (pat s : jsstring) : option nat :=
  if starts_with pat s then Some 0%nat
  else match s with
       | [] => None
       | _ :: s' => option_map S (find_first pat s')
       end.

(** Position of the last occurrence of [pat] in [s]. *)
Fixpoint find_last (pat s : jsstring) : option nat :=
  match s with
  | [] => if starts_with pat [] then Some 0%nat else None
  | _ :: s' =>
      match find_last pat s' with
      | Some i => Some (S i)
      | None => if starts_with pat s then Some 0%nat else None
      end
  end.

(** [s.indexOf(pat)]: the first position, or [-1]. *)
Definition indexOf (s pat : jsstring) : Z :=
  match find_first pat s with
  | Some i => Z.of_nat i
  | None => (-1)%Z
  end.

(** [s.substring(start, end)]: both arguments are clamped to
    [0 .. s.length] and swapped when [start > end]. *)
Definition substring (s : jsstring) (start end_ : Z) : jsstring :=
  let clamp z := Z.to_nat (Z.min (Z.max z 0) (Z.of_nat (length s))) in
  let a := clamp start in
  let b := clamp end_ in
  let lo := Nat.min a b in
  let hi := Nat.max a b in
  firstn (hi - lo) (skipn lo s).

(** WhiteSpace and LineTerminator code units of ECMAScript: the characters
    removed by [trim]. *)
Definition is_whitespace (c : N) : bool :=
  match c with
  | 9 | 10 | 11 | 12 | 13 | 32 | 160 | 5760
  | 8192 | 8193 | 8194 | 8195 | 8196 | 8197 | 8198 | 8199 | 8200 | 8201 | 8202
  | 8232 | 8233 | 8239 | 8287 | 12288 | 65279 => true
  | _ => false
  end%N.

Fixpoint trimStart (s : jsstring) : jsstring :=
  match s with
  | c :: s' => if is_whitespace c then trimStart s' else s
  | [] => []
  end.

Definition trimEnd (s : jsstring) : jsstring :=
  rev (trimStart (rev s)).

(** [s.trim()] *)
Definition trim (s : jsstring) : jsstring :=
  trimEnd (trimStart s).

(** The two delimiters of the pattern of line 190. *)
Definition fenceOpen : jsstring := "```json".
Definition fenceClose : jsstring := "```".

(** The [match] of line 190, as its capture group 1, [None] when there is
    no match. The pattern is the opening delimiter, a greedy star over a
    class that accepts every code unit (the captured group), and the
    closing delimiter.
    The match is the leftmost one, so it starts at the first occurrence
    of the opening delimiter; the star is greedy, so the group runs up to
    the last occurrence of the closing delimiter behind it. (A later
    start cannot succeed when the first fails: the closing delimiter it
    needs lies behind the first opening delimiter as well.) *)
Definition matchJsonBlock (text : jsstring) : option jsstring :=
  match find_first fenceOpen text with
  | None => None
  | Some i =>
      let rest := skipn (i + length fenceOpen) text in
      match find_last fenceClose rest with
      | None => None
      | Some j => Some (firstn j rest)
      end
  end.

End Str.

(* ===================================================================== *)
(** * JSON text: [JSON.parse] and [JSON.stringify] *)
(* ===================================================================== *)

Module Json.

(** ** Numbers *)

(** The binary64 value nearest to [m * 10^e] (ties to even), with sign
    [neg]: the numeric value of a JSON number literal. For a negative
    exponent the quotient is computed with enough extra bits and the
    position of the remainder is handed to the rounding. *)
Definition number_of_decimal (neg : bool) (m : Z) (e : Z) : number :=
  if (m <=? 0)%Z then S754_zero neg
  else if (0 <=? e)%Z then
    match (m * 10 ^ e)%Z with
    | Zpos p => binary_round 53 1024 neg p 0
    | _ => S754_zero neg
    end
  else
    let d := (10 ^ (- e))%Z in
    let s := Z.max 0 (56 + Z.log2 d - Z.log2 m) in
    let n := (m * 2 ^ s)%Z in
    let q := (n / d)%Z in
    let r := (n mod d)%Z in
    let loc := if (r =? 0)%Z then loc_Exact
               else loc_Inexact (Z.compare (2 * r) d) in
    binary_round_aux 53 1024 neg q (- s) loc.

(** ** Tokens *)

Inductive token : Type :=
| TLBrace | TRBrace | TLBracket | TRBracket | TColon | TComma
| TTrue | TFalse | TNull
| TNum (n : number)
| TStr (s : jsstring).

(** JSON white space: tab, line feed, carriage return, space. *)
Definition is_json_ws (c : N) : bool :=
  match c with
  | 9 | 10 | 13 | 32 => true
  | _ => false
  end%N.

Definition is_digit (c : N) : bool := (48 <=? c)%N && (c <=? 57)%N.

Definition hex_value (c : N) : option N :=
  if (48 <=? c)%N && (c <=? 57)%N then Some (c - 48)%N
  else if (97 <=? c)%N && (c <=? 102)%N then Some (c - 87)%N
  else if (65 <=? c)%N && (c <=? 70)%N then Some (c - 55)%N
  else None.

Definition hex4 (h1 h2 h3 h4 : N) : option N :=
  match hex_value h1, hex_value h2, hex_value h3, hex_value h4 with
  | Some a, Some b, Some c, Some d => Some (((a * 16 + b) * 16 + c) * 16 + d)%N
  | _, _, _, _ => None
  end.

Definition prepend (c : N) (r : option (jsstring * jsstring))
  : option (jsstring * jsstring) :=
  match r with
  | Some (body, rest) => Some (c :: body, rest)
  | None => None
  end.

(** The characters of a string literal behind its opening quote: the
    string denoted and the text behind the closing quote. Control
    characters must be escaped. *)
Fixpoint lex_string (s : jsstring) : option (jsstring * jsstring) :=
  match s with
  | [] => None
  | c :: rest =>
      if (c =? 34)%N then Some ([], rest)                 (* closing quote *)
      else if (c =? 92)%N then                            (* backslash *)
        match rest with
        | 34%N :: rest' => prepend 34 (lex_string rest')  (* quote *)
        | 92%N :: rest' => prepend 92 (lex_string rest')  (* backslash *)
        | 47%N :: rest' => prepend 47 (lex_string rest')  (* solidus *)
        | 98%N :: rest' => prepend 8 (lex_string rest')   (* b: backspace *)
        | 102%N :: rest' => prepend 12 (lex_string rest') (* f: form feed *)
        | 110%N :: rest' => prepend 10 (lex_string rest') (* n: line feed *)
        | 114%N :: rest' => prepend 13 (lex_string rest') (* r: return *)
        | 116%N :: rest' => prepend 9 (lex_string rest')  (* t: tab *)
        | 117%N :: h1 :: h2 :: h3 :: h4 :: rest' =>       (* u, four digits *)
            match hex4 h1 h2 h3 h4 with
            | Some u => prepend u (lex_string rest')
            | None => None
            end
        | _ => None
        end
      else if (c <? 32)%N then None
      else prepend c (lex_string rest)
  end.

(** The longest prefix of decimal digits, as digit values. *)
Fixpoint take_digits (s : jsstring) : list Z * jsstring :=
  match s with
  | c :: rest =>
      if is_digit c then
        let '(ds, rest') := take_digits rest in
        ((Z.of_N c - 48)%Z :: ds, rest')
      else ([], s)
  | [] => ([], [])
  end.

Definition digits_value (ds : list Z) : Z :=
  fold_left (fun acc d => (acc * 10 + d)%Z) ds 0%Z.

(** The integer part: [0], or a non-zero digit and more digits. *)
Definition lex_int (s : jsstring) : option (list Z * jsstring) :=
  match s with
  | c :: rest =>
      if (c =? 48)%N then Some ([0%Z], rest)
      else if is_digit c then Some (take_digits s)
      else None
  | [] => None
  end.

(** At least one digit. *)
Definition lex_digits (s : jsstring) : option (list Z * jsstring) :=
  match take_digits s with
  | ([], _) => None
  | (ds, rest) => Some (ds, rest)
  end.

(** An optional fraction: a point and at least one digit. *)
Definition lex_frac (s : jsstring) : option (list Z * jsstring) :=
  match s with
  | c :: rest => if (c =? 46)%N then lex_digits rest else Some ([], s)
  | [] => Some ([], s)
  end.

(** An optional exponent: [e] or [E], an optional sign and at least one
    digit. *)
Definition lex_exp (s : jsstring) : option (Z * jsstring) :=
  match s with
  | c :: t =>
      if (c =? 101)%N || (c =? 69)%N then
        let '(neg, t') :=
          match t with
          | d :: t'' =>
              if (d =? 43)%N then (false, t'')
              else if (d =? 45)%N then (true, t'')
              else (false, t)
          | [] => (false, t)
          end in
        match lex_digits t' with
        | Some (ds, rest) =>
            Some (if neg then (- digits_value ds)%Z else digits_value ds, rest)
        | None => None
        end
      else Some (0%Z, s)
  | [] => Some (0%Z, s)
  end.

(** A number literal at the head of [s]. *)
Definition lex_number (s : jsstring) : option (number * jsstring) :=
  let '(neg, s1) :=
    match s with
    | c :: t => if (c =? 45)%N then (true, t) else (false, s)
    | [] => (false, s)
    end in
  match lex_int s1 with
  | None => None
  | Some (ints, s2) =>
      match lex_frac s2 with
      | None => None
      | Some (fracs, s3) =>
          match lex_exp s3 with
          | None => None
          | Some (e, s4) =>
              Some (number_of_decimal neg (digits_value (ints ++ fracs))
                                      (e - Z.of_nat (length fracs)),
                    s4)
          end
      end
  end.

(** The token at the head of [c :: rest], with the text behind it. *)
Definition next_token (c : N) (rest : jsstring) : option (token * jsstring) :=
  if (c =? 123)%N then Some (TLBrace, rest)
  else if (c =? 125)%N then Some (TRBrace, rest)
  else if (c =? 91)%N then Some (TLBracket, rest)
  else if (c =? 93)%N then Some (TRBracket, rest)
  else if (c =? 58)%N then Some (TColon, rest)
  else if (c =? 44)%N then Some (TComma, rest)
  else if (c =? 34)%N then
    match lex_string rest with
    | Some (str, rest') => Some (TStr str, rest')
    | None => None
    end
  else if (c =? 116)%N then                                (* true *)
    match rest with
    | 114%N :: 117%N :: 101%N :: rest' => Some (TTrue, rest')
    | _ => None
    end
  else if (c =? 102)%N then                                (* false *)
    match rest with
    | 97%N :: 108%N :: 115%N :: 101%N :: rest' => Some (TFalse, rest')
    | _ => None
    end
  else if (c =? 110)%N then                                (* null *)
    match rest with
    | 117%N :: 108%N :: 108%N :: rest' => Some (TNull, rest')
    | _ => None
    end
  else
    match lex_number (c :: rest) with
    | Some (n, rest') => Some (TNum n, rest')
    | None => None
    end.

(** The tokens of a text. Each step consumes at least one code unit, so
    fuel above the length of the text is never exhausted. *)
Fixpoint lex (fuel : nat) (s : jsstring) : option (list token) :=
  match fuel with
  | O => None
  | S fuel' =>
      match s with
      | [] => Some []
      | c :: rest =>
          if is_json_ws c then lex fuel' rest
          else
            match next_token c rest with
            | Some (t, rest') =>
                match lex fuel' rest' with
                | Some ts => Some (t :: ts)
                | None => None
                end
            | None => None
            end
      end
  end.

(** ** Values from tokens *)

(** Defining property [k] of an object under construction: a repeated key
    keeps its place and takes the later value. (The engine enumerates
    integer-like keys first; that order is not modelled. Properties are
    read by name, and no name read by this program is integer-like.) *)
Fixpoint set_prop (k : jsstring) (v : value) (props : list (jsstring * value))
  : list (jsstring * value) :=
  match props with
  | [] => [(k, v)]
  | (k', v') :: rest =>
      if jsstring_eqb k k' then (k, v) :: rest
      else (k', v') :: set_prop k v rest
  end.

Definition object_of_members (members : list (jsstring * value)) : value :=
  VObject (fold_left (fun props m => set_prop (fst m) (snd m) props) members []).

(** A value at the head of the tokens; every recursive call is made
    behind at least one consumed token. [parse_elements] reads what
    follows an array element up to the closing bracket, [parse_members]
    what follows an object member up to the closing brace. *)
Fixpoint parse_value (fuel : nat) (ts : list token)
  : option (value * list token) :=
  match fuel with
  | O => None
  | S fuel' =>
      match ts with
      | TNull :: r => Some (VNull, r)
      | TTrue :: r => Some (VBool true, r)
      | TFalse :: r => Some (VBool false, r)
      | TNum n :: r => Some (VNumber n, r)
      | TStr s :: r => Some (VString s, r)
      | TLBracket :: TRBracket :: r => Some (VArray [], r)
      | TLBracket :: r =>
          match parse_value fuel' r with
          | Some (v, r1) =>
              match parse_elements fuel' r1 with
              | Some (vs, r2) => Some (VArray (v :: vs), r2)
              | None => None
              end
          | None => None
          end
      | TLBrace :: TRBrace :: r => Some (VObject [], r)
      | TLBrace :: TStr k :: TColon :: r =>
          match parse_value fuel' r with
          | Some (v, r1) =>
              match parse_members fuel' r1 with
              | Some (ms, r2) => Some (object_of_members ((k, v) :: ms), r2)
              | None => None
              end
          | None => None
          end
      | _ => None
      end
  end
with parse_elements (fuel : nat) (ts : list token)
  : option (list value * list token) :=
  match fuel with
  | O => None
  | S fuel' =>
      match ts with
      | TRBracket :: r => Some ([], r)
      | TComma :: r =>
          match parse_value fuel' r with
          | Some (v, r1) =>
              match parse_elements fuel' r1 with
              | Some (vs, r2) => Some (v :: vs, r2)
              | None => None
              end
          | None => None
          end
      | _ => None
      end
  end
with parse_members (fuel : nat) (ts : list token)
  : option (list (jsstring * value) * list token) :=
  match fuel with
  | O => None
  | S fuel' =>
      match ts with
      | TRBrace :: r => Some ([], r)
      | TComma :: TStr k :: TColon :: r =>
          match parse_value fuel' r with
          | Some (v, r1) =>
              match parse_members fuel' r1 with
              | Some (ms, r2) => Some ((k, v) :: ms, r2)
              | None => None
              end
          | None => None
          end
      | _ => None
      end
  end.

(** [JSON.parse(text)]: the value denoted, or a SyntaxError. *)
Definition JSON_parse (text : jsstring) : result value :=
  match lex (S (length text)) text with
  | Some ts =>
      match parse_value (S (length ts)) ts with
      | Some (v, []) => Ok v
      | _ => Throw SyntaxError
      end
  | None => Throw SyntaxError
  end.

(** ** [JSON.stringify] *)

Definition hex_digit (n : N) : N :=
  if (n <? 10)%N then (48 + n)%N else (87 + n)%N.

(** Backslash, [u] and four lower-case hexadecimal digits. *)
Definition unicode_escape (c : N) : jsstring :=
  [ 92%N; 117%N;
    hex_digit ((c / 4096) mod 16); hex_digit ((c / 256) mod 16);
    hex_digit ((c / 16) mod 16); hex_digit (c mod 16) ].

Definition is_high_surrogate (c : N) : bool :=
  (55296 <=? c)%N && (c <=? 56319)%N.

Definition is_low_surrogate (c : N) : bool :=
  (56320 <=? c)%N && (c <=? 57343)%N.

(** The characters of a quoted string between its quotes: the quote, the
    backslash and the control characters are escaped, and so is a
    surrogate that is not part of a pair. *)
Fixpoint quote_body (s : jsstring) : jsstring :=
  match s with
  | [] => []
  | c :: rest =>
      if (c =? 8)%N then 92%N :: 98%N :: quote_body rest
      else if (c =? 9)%N then 92%N :: 116%N :: quote_body rest
      else if (c =? 10)%N then 92%N :: 110%N :: quote_body rest
      else if (c =? 12)%N then 92%N :: 102%N :: quote_body rest
      else if (c =? 13)%N then 92%N :: 114%N :: quote_body rest
      else if (c =? 34)%N then 92%N :: 34%N :: quote_body rest
      else if (c =? 92)%N then 92%N :: 92%N :: quote_body rest
      else if (c <? 32)%N then unicode_escape c ++ quote_body rest
      else if is_high_surrogate c then
        match rest with
        | d :: rest' =>
            if is_low_surrogate d then c :: d :: quote_body rest'
            else unicode_escape c ++ quote_body rest
        | [] => unicode_escape c
        end
      else if is_low_surrogate c then unicode_escape c ++ quote_body rest
      else c :: quote_body rest
  end.

Definition quote (s : jsstring) : jsstring :=
  34%N :: quote_body s ++ [34%N].

(** The pieces joined with commas. *)
Fixpoint join_comma (parts : list jsstring) : jsstring :=
  match parts with
  | [] => []
  | [p] => p
  | p :: more => p ++ 44%N :: join_comma more
  end.

Definition is_finite (n : number) : bool :=
  match n with
  | S754_zero _ => true
  | S754_finite _ _ _ => true
  | _ => false
  end.

Section Stringify.

(** The decimal text of a finite number ([Number::toString]); the
    serialisation is stated for any such function. *)
Variable numberToString : number -> jsstring.

(** The text of a value, [None] where JavaScript yields [undefined]. An
    [undefined] element of an array is written [null]; a property whose
    value is [undefined] is left out. *)
Fixpoint serialize (v : value) : option jsstring :=
  match v with
  | VUndefined => None
  | VNull => Some ("null" : jsstring)
  | VBool true => Some ("true" : jsstring)
  | VBool false => Some ("false" : jsstring)
  | VNumber n => Some (if is_finite n then numberToString n else "null")
  | VString s => Some (quote s)
  | VArray elems =>
      let element e :=
        match serialize e with
        | Some text => text
        | None => ("null" : jsstring)
        end in
      Some (91%N :: join_comma (map element elems) ++ [93%N])
  | VObject props =>
      let member (p : jsstring * value) :=
        match serialize (snd p) with
        | Some text => [quote (fst p) ++ 58%N :: text]
        | None => []
        end in
      Some (123%N :: join_comma (flat_map member props) ++ [125%N])
  end.

(** [JSON.stringify(v)] *)
Definition JSON_stringify (v : value) : option jsstring := serialize v.

End Stringify.

End Json.

(* ===================================================================== *)
(** * The AI gateway ([geminiService.ts]) *)
(* ===================================================================== *)

Module Gemini.

Import Str Json Sanitizer.

(** A request to the external generation endpoint: the model identifier,
    the prompt, and whether the search tool is enabled. *)
Record Request : Type := mkRequest {
  model : jsstring;
  contents : jsstring;
  googleSearch : bool
}.

(** A call on the network: the credential of the client and the request. *)
Definition Call : Type := (value * Request)%type.

(** A computation that may throw and that records the network calls it
    made, in order. *)
Definition io (A : Type) : Type := (result A * list Call)%type.

Definition io_ret {A : Type} (a : A) : io A := (Ok a, []).

Definition io_throw {A : Type} (e : exn) : io A := (Throw e, []).

Definition io_lift {A : Type} (r : result A) : io A := (r, []).

Definition io_bind {A B : Type} (m : io A) (k : A -> io B) : io B :=
  match m with
  | (Ok a, calls) => let '(r, calls') := k a in (r, calls ++ calls')
  | (Throw e, calls) => (Throw e, calls)
  end.

Notation "x <~ m ;; k" := (io_bind m (fun x => k))
  (at level 100, m at next level, right associativity).

(** [try { body } catch (e) { handler }] for such computations. *)
Definition io_try {A : Type} (body : io A) (handler : exn -> io A) : io A :=
  match body with
  | (Ok a, calls) => (Ok a, calls)
  | (Throw e, calls) => let '(r, calls') := handler e in (r, calls ++ calls')
  end.

(** Lines 4-9. The client carries the credential. *)
Definition getClient (apiKey : value) : result value :=
  if negb (truthy apiKey)
  then Throw (Error "API_KEY is missing. Please provide a valid key.")
  else Ok apiKey.

(** [x?.k] *)
Definition get_opt (x : value) (k : jsstring) : result value :=
  match x with
  | VUndefined => Ok VUndefined
  | VNull => Ok VUndefined
  | _ => get x k
  end.

(** [x?.[0]] *)
Definition get_opt_first (x : value) : result value :=
  match x with
  | VUndefined => Ok VUndefined
  | VNull => Ok VUndefined
  | VArray (e :: _) => Ok e
  | VString (c :: _) => Ok (VString [c])
  | VObject props => Ok (lookup_prop "0" props)
  | _ => Ok VUndefined
  end.

(** Lines 215-217 (and [AgentChat.tsx], lines 97-99): one citation entry;
    it is kept when it carries both a URL and a title. [mk] builds the
    source record from the URL and the title. *)
Definition sourceOfChunk (mk : value -> value -> value) (chunk : value)
  : result (list value) :=
  web <- get chunk "web" ;;
  uri <- get_opt web "uri" ;;
  if truthy uri then
    web' <- get chunk "web" ;;
    title <- get_opt web' "title" ;;
    if truthy title then Ok [mk uri title] else Ok []
  else Ok [].

Fixpoint sourcesOfChunks (mk : value -> value -> value) (chunks : list value)
  : result (list value) :=
  match chunks with
  | [] => Ok []
  | chunk :: rest =>
      here <- sourceOfChunk mk chunk ;;
      more <- sourcesOfChunks mk rest ;;
      Ok (here ++ more)
  end.

(** Lines 211-219 (and [AgentChat.tsx], lines 93-101). *)
Definition groundingSourcesWith (mk : value -> value -> value)
    (response : value) : result (list value) :=
  candidates <- get response "candidates" ;;
  first <- get_opt_first candidates ;;
  metadata <- get_opt first "groundingMetadata" ;;
  groundingChunks <- get_opt metadata "groundingChunks" ;;
  if truthy groundingChunks then
    match groundingChunks with
    | VArray chunks => sourcesOfChunks mk chunks
    | _ => Throw TypeError
    end
  else Ok [].

(** Line 216: [{ url: chunk.web.uri, title: chunk.web.title }] *)
Definition groundingSources : value -> result (list value) :=
  groundingSourcesWith
    (fun uri title =>
       VObject [("url" : jsstring, uri); ("title" : jsstring, title)]).

Definition emptyResponseError : exn :=
  Error "Received an empty response from the AI. The model may be overloaded or the prompt was blocked.".

Definition noJsonBlockError : exn :=
  Error "Failed to find a valid JSON block in the AI response. Please try regenerating.".

Definition malformedJsonError : exn :=
  Error "The AI returned a malformed data structure. Please try regenerating.".

(** [obj.k = v]. Module code is strict: the assignment throws on a
    primitive as it does on [null] and [undefined]. (On an array the
    property would sit beside the elements, which [value] does not
    represent; the code assigns to the plan, an object.) *)
Definition assign (obj : value) (k : jsstring) (v : value) : result value :=
  match obj with
  | VObject props => Ok (VObject (set_prop k v props))
  | VArray _ => Ok obj
  | _ => Throw TypeError
  end.

(** Lines 182-225: from the response of the model to the plan. *)
Definition planOfResponse (response : value) : result value :=
  responseText <- get response "text" ;;
  if negb (truthy responseText) then Throw emptyResponseError
  else
    match responseText with
    | VString text =>
        let summary :=
          trim (substring text 0 (indexOf text fenceOpen)) in
        match matchJsonBlock text with
        | None => Throw noJsonBlockError
        | Some [] => Throw noJsonBlockError
        | Some group =>
            let jsonString := trim group in
            parsedJson <-
              try_catch (JSON_parse jsonString)
                        (fun _ => Throw malformedJsonError) ;;
            sources <- groundingSources response ;;
            sanitizedPlan <- validateAndSanitizePlan parsedJson summary ;;
            assign sanitizedPlan "sources" (VArray sources)
        end
    | _ => Throw TypeError
    end.

Section Service.

(** The external service: what a call returns or throws. *)
Variable generateContent : Call -> result value.

Definition call (c : Call) : io value := (generateContent c, [c]).

(** Lines 21-50. *)
Definition verifyApiKey (apiKey : value) : io bool :=
  if negb (truthy apiKey)
     || negb (jsstring_eqb (typeof apiKey) "string")
     || match apiKey with
        | VString s => (length (trim s) =? 0)%nat
        | _ => false
        end
  then io_ret false
  else
    io_try
      (ai <~ io_lift (getClient apiKey) ;;
       result <~ call (ai, mkRequest "gemini-2.5-flash" "validation test" false) ;;
       if truthy result then
         text <~ io_lift (get result "text") ;;
         match text with
         | VString s => io_ret (0 <? length s)%nat
         | _ => io_ret false
         end
       else io_ret false)
      (fun _ => io_ret false).

(** The profile and the prompt built from it (lines 95-172): a text
    template over the fields of the profile. *)
Variable UserProfile : Type.
Variable promptOf : UserProfile -> jsstring.

(** Lines 92-225. *)
Definition generateInvestmentStrategy (profile : UserProfile) (apiKey : value)
  : io value :=
  ai <~ io_lift (getClient apiKey) ;;
  response <~ call (ai, mkRequest "gemini-2.5-flash" (promptOf profile) true) ;;
  io_lift (planOfResponse response).

End Service.

End Gemini.

(* ===================================================================== *)
(** * The advisory chat ([AgentChat.tsx]) *)
(* ===================================================================== *)

Module Chat.

Import Str Json Gemini.

(** Local storage: string keys, string values. *)
Abbreviation Storage := (gmap jsstring jsstring).

Definition CHAT_KEY : jsstring := "steward_ai_chat_history".

(** ** Chat messages ([types.ts], lines 53-56 and 99-103) *)

Inductive Role : Type := user | model.

Record GroundingSource : Type := mkSource {
  title : jsstring;
  url : jsstring
}.

Record ChatMessage : Type := mkMessage {
  role : Role;
  text : jsstring;
  sources : option (list GroundingSource)
}.

Definition role_value (r : Role) : value :=
  match r with
  | user => VString "user"
  | model => VString "model"
  end.

(** Line 98: [{ title: chunk.web.title, url: chunk.web.uri }] *)
Definition source_value (s : GroundingSource) : value :=
  VObject [("title" : jsstring, VString (title s));
           ("url" : jsstring, VString (url s))].

(** The object of a message, as the literals of lines 49, 85, 103 and 106
    build it: [sources] is a property only where it is given. *)
Definition message_value (m : ChatMessage) : value :=
  VObject
    (("role" : jsstring, role_value (role m))
     :: ("text" : jsstring, VString (text m))
     :: match sources m with
        | Some l => [("sources" : jsstring, VArray (map source_value l))]
        | None => []
        end).

(** Lines 49 and 52. *)
Definition greeting : value :=
  VObject [("role" : jsstring, VString "model");
           ("text" : jsstring, VString "I have reviewed your legacy plan. The principles are sound and the strategy is aligned with your long-term goals. How may I provide clarity or guidance?")].

(** Line 106. *)
Definition apology : value :=
  VObject [("role" : jsstring, VString "model");
           ("text" : jsstring, VString "Apologies, there was a data stream interruption. Please re-submit your query.")].

(** ** The component *)

(** Lines 41-54: the history a new chat panel starts from. The state is a
    list of messages; a stored text that parses to something other than
    an array would make it something else, and yields [None] here. *)
Definition loadHistory (st : Storage) : option (list value) :=
  match st !! CHAT_KEY with
  | Some storedHistory =>
      if truthy (VString storedHistory) then
        match JSON_parse storedHistory with
        | Ok (VArray parsed) => Some parsed
        | Ok _ => None
        | Throw _ => Some [greeting]
        end
      else Some [greeting]
  | None => Some [greeting]
  end.

(** The state of a mounted chat panel (lines 25-26): its messages, and
    whether a chat session has been created (lines 63-70). *)
Record ChatState : Type := mkChat {
  messages : list value;
  hasSession : bool
}.

Section Component.

Variable numberToString : number -> jsstring.

(** Lines 57-61: runs after every render in which [messages] changed. *)
Definition saveEffect (msgs : list value) (st : Storage) : Storage :=
  if (0 <? length msgs)%nat then
    match JSON_stringify numberToString (VArray msgs) with
    | Some text => <[CHAT_KEY := text]> st
    | None => <[CHAT_KEY := ("undefined" : jsstring)]> st
    end
  else st.

(** [setMessages(prev => [...prev, m])], and the save effect of the
    render it causes. *)
Definition appendMessage (m : value) (c : ChatState) (st : Storage)
  : ChatState * Storage :=
  let msgs := messages c ++ [m] in
  (mkChat msgs (hasSession c), saveEffect msgs st).

(** Mounting the panel: the load effect sets the messages; the save
    effect first sees the empty initial state and then the loaded one.
    [None] as for [loadHistory]. *)
Definition mount (session : bool) (st : Storage)
  : option (ChatState * Storage) :=
  match loadHistory st with
  | Some msgs => Some (mkChat msgs session, saveEffect msgs (saveEffect [] st))
  | None => None
  end.

(** The reply of the chat session to a message: what [sendMessage]
    returns or throws. *)
Variable sendMessage : jsstring -> result value.

(** Lines 89-103: the message built from a reply. *)
Definition modelMessage (reply : value) : result value :=
  responseText <- get reply "text" ;;
  sources <-
    groundingSourcesWith
      (fun uri title =>
         VObject [("title" : jsstring, title); ("url" : jsstring, uri)])
      reply ;;
  Ok (VObject [("role" : jsstring, VString "model");
               ("text" : jsstring, responseText);
               ("sources" : jsstring, VArray sources)]).

(** Lines 80-110. *)
Definition handleSend (input : jsstring) (c : ChatState) (st : Storage)
  : ChatState * Storage :=
  if negb (truthy (VString (trim input))) || negb (hasSession c) then (c, st)
  else
    let userMsg := input in
    let '(c1, st1) :=
      appendMessage (VObject [("role" : jsstring, VString "user");
                              ("text" : jsstring, VString userMsg)]) c st in
    match try_catch (reply <- sendMessage userMsg ;; modelMessage reply)
                    (fun _ => Ok apology) with
    | Ok m => appendMessage m c1 st1
    | Throw _ => (c1, st1)
    end.

End Component.

End Chat.

(* ===================================================================== *)
(** * The application ([app.tsx]) *)
(* ===================================================================== *)

Module App.

Import Str Json Gemini Chat.

Definition API_KEY : jsstring := "steward_ai_api_key".

(** The state of [App] (lines 10-13), the local storage, and the state of
    the chat panel while it is mounted. *)
Record AppState : Type := mkApp {
  apiKey : option jsstring;
  plan : option value;
  loading : bool;
  error : option jsstring;
  localStorage : Storage;
  chat : option ChatState
}.

(** Lines 62-66. *)
Definition resetApp (s : AppState) : AppState :=
  mkApp (apiKey s) None false None (localStorage s) (chat s).

(** Lines 22-25. *)
Definition handleApiKeySave (key : jsstring) (s : AppState) : AppState :=
  mkApp (Some key) (plan s) (loading s) (error s)
        (<[API_KEY := key]> (localStorage s)) (chat s).

(** Lines 27-31. *)
Definition handleApiKeyClear (s : AppState) : AppState :=
  resetApp
    (mkApp None (plan s) (loading s) (error s)
           (delete API_KEY (localStorage s)) (chat s)).

(** Lines 15-20: the effect of the first render. *)
Definition loadApiKey (s : AppState) : AppState :=
  match localStorage s !! API_KEY with
  | Some savedKey =>
      if truthy (VString savedKey)
      then mkApp (Some savedKey) (plan s) (loading s) (error s)
                 (localStorage s) (chat s)
      else s
  | None => s
  end.

(** [!apiKey] fails. *)
Definition hasApiKey (s : AppState) : bool :=
  match apiKey s with
  | Some key => truthy (VString key)
  | None => false
  end.

(** Lines 34-40: a submitted profile, up to the call of the gateway.
    [true] when the call is issued. *)
Definition handleGenerateStart (s : AppState) : AppState * bool :=
  if negb (hasApiKey s) then
    (mkApp (apiKey s) (plan s) (loading s)
           (Some ("API Key is not set. Please configure your API Key." : jsstring))
           (localStorage s) (chat s), false)
  else
    (mkApp (apiKey s) (Some (VObject [])) true None (localStorage s) (chat s),
     true).

Section Render.

Variable numberToString : number -> jsstring.

(** The message of an exception thrown by the engine itself. *)
Variable engineMessage : exn -> jsstring.

Definition messageOf (e : exn) : jsstring :=
  match e with
  | Error msg => msg
  | _ => engineMessage e
  end.

(** Lines 46-54. *)
Definition errorMessage (e : exn) : jsstring :=
  match find_first "[400 bad request]" (messageOf e) with
  | Some _ =>
      "Your API Key seems to be invalid. Please reset and enter a valid key."
  | None => ("An error occurred: " : jsstring) ++ messageOf e
  end.

(** Lines 43-59: the call of the gateway settles with [outcome]. *)
Definition handleGenerateSettle (outcome : result value) (s : AppState)
  : AppState :=
  match outcome with
  | Ok finalPlan =>
      mkApp (apiKey s) (Some finalPlan) false (error s) (localStorage s) (chat s)
  | Throw e =>
      mkApp (apiKey s) (plan s) false (Some (errorMessage e))
            (localStorage s) (chat s)
  end.

(** [Object.keys(plan).length] *)
Definition keyCount (p : value) : nat :=
  match p with
  | VObject props => length props
  | VArray elems => length elems
  | VString text => length text
  | _ => 0%nat
  end.

(** Whether the chat panel is on screen: [App] renders the dashboard only
    with a credential (line 68) and a plan (line 154), and the dashboard
    renders the panel, on its overview tab, for a plan with more than two
    keys ([StrategyView.tsx], line 360). *)
Definition chatVisible (overview : bool) (s : AppState) : bool :=
  overview && hasApiKey s &&
  match plan s with
  | Some p => truthy p && (2 <? keyCount p)%nat
  | None => false
  end.

(** A render: the panel is unmounted, and its state dropped, when it is
    not on screen; it is mounted, from local storage, when it enters. *)
Definition render (overview : bool) (s : AppState) : AppState :=
  if chatVisible overview s then
    match chat s with
    | Some _ => s
    | None =>
        match mount numberToString true (localStorage s) with
        | Some (c, st) =>
            mkApp (apiKey s) (plan s) (loading s) (error s) st (Some c)
        | None => s
        end
    end
  else mkApp (apiKey s) (plan s) (loading s) (error s) (localStorage s) None.

(** A message sent in the mounted panel. *)
Definition sendChat (sendMessage : jsstring -> result value)
    (input : jsstring) (s : AppState) : AppState :=
  match chat s with
  | Some c =>
      let '(c', st) :=
        handleSend numberToString sendMessage input c (localStorage s) in
      mkApp (apiKey s) (plan s) (loading s) (error s) st (Some c')
  | None => s
  end.

End Render.

End App.

(* ===================================================================== *)
(** * The credential dialog ([ApiKeyModal.tsx]) *)
(* ===================================================================== *)

Module Modal.

Import Str Gemini App.

(** The state of the dialog (lines 10-12). *)
Record ModalState : Type := mkModal {
  key : jsstring;
  error : option jsstring;
  isLoading : bool
}.

Definition initialModal : ModalState := mkModal "" None false.

(** Line 66: the button is disabled. *)
Definition saveDisabled (m : ModalState) : bool :=
  negb (truthy (VString (trim (key m)))) || isLoading m.

Section Dialog.

(** The external service behind [onVerify]. *)
Variable generateContent : Call -> result value.

(** Lines 14-32, with the [onVerify] and the [onSave] that [App] hands to
    the dialog ([app.tsx], line 69): [verifyApiKey] and
    [handleApiKeySave]. The result is the state of the dialog, the state
    of the application, and the requests made. Were the check to throw,
    the handler would stop there, with the dialog still loading. *)
Definition handleSave (m : ModalState) (s : AppState)
  : (ModalState * AppState) * list Call :=
  if negb (truthy (VString (trim (key m)))) then
    ((mkModal (key m) (Some ("API Key cannot be empty." : jsstring))
              (isLoading m), s), [])
  else
    let verifying := mkModal (key m) None true in
    match verifyApiKey generateContent (VString (trim (key m))) with
    | (Ok true, calls) =>
        ((verifying, handleApiKeySave (trim (key m)) s), calls)
    | (Ok false, calls) =>
        ((mkModal (key m)
                  (Some ("Invalid API Key. Please check the key and try again."
                         : jsstring))
                  false, s), calls)
    | (Throw _, calls) => ((verifying, s), calls)
    end.

End Dialog.

End Modal.

(* ===================================================================== *)
(** * The screen of the application ([app.tsx], lines 68-171) *)
(* ===================================================================== *)

Module Screen.

Import Gemini Chat App.

(** [plan] and [error] as conditions. *)
Definition planTruthy (s : AppState) : bool :=
  match plan s with
  | Some p => truthy p
  | None => false
  end.

Definition errorTruthy (s : AppState) : bool :=
  match error s with
  | Some message => truthy (VString message)
  | None => false
  end.

(** [Object.keys(plan).length], for the plan of the state: [Object.keys]
    throws on [null] and [undefined]. *)
Definition keysLength (p : option value) : result nat :=
  match p with
  | None => Throw TypeError
  | Some VNull => Throw TypeError
  | Some VUndefined => Throw TypeError
  | Some q => Ok (keyCount q)
  end.

(** What [App] renders: the credential dialog (line 69), or the main
    page with its parts: the introduction (line 99), the error banner
    with its text (line 139), the form, hidden or not (line 149), and the
    dashboard with the [isLoading] it is given (lines 154 and 167). *)
Inductive Page : Type :=
| DialogPage
| MainPage (introduction : bool) (banner : option jsstring)
           (formHidden : bool) (dashboard : option bool).

Definition view (s : AppState) : result Page :=
  if negb (hasApiKey s) then Ok DialogPage
  else
    let introduction := negb (planTruthy s) && negb (loading s) in
    let banner := if errorTruthy s && planTruthy s then error s else None in
    let formHidden := planTruthy s || loading s in
    dashboard <-
      (if planTruthy s || loading s then
         isLoading <-
           (if loading s
            then n <- keysLength (plan s) ;; Ok (n =? 0)%nat
            else Ok false) ;;
         Ok (Some isLoading)
       else Ok None) ;;
    Ok (MainPage introduction banner formHidden dashboard).

(** ** The events of a session *)

Inductive Event : Type :=
| SaveKey (key : jsstring)          (* the dialog saves a key *)
| ClearKey                          (* Reset API Key *)
| Submit                            (* the form is submitted *)
| Settle (outcome : result value)   (* the request of a generation settles *)
| StartOver                         (* Start Over *)
| Render (overview : bool)          (* a render, on the given tab *)
| Ask (input : jsstring).           (* a message is sent in the chat panel *)

Section Session.

Variable numberToString : number -> jsstring.
Variable engineMessage : exn -> jsstring.
Variable sendMessage : jsstring -> result value.

Definition step (s : AppState) (e : Event) : AppState :=
  match e with
  | SaveKey key => handleApiKeySave key s
  | ClearKey => handleApiKeyClear s
  | Submit => fst (handleGenerateStart s)
  | Settle outcome => handleGenerateSettle engineMessage outcome s
  | StartOver => resetApp s
  | Render overview => render numberToString overview s
  | Ask input => sendChat numberToString sendMessage input s
  end.

(** The state after the events, in order. *)
Definition run (events : list Event) (s : AppState) : AppState :=
  fold_left step events s.

End Session.

End Screen.

(* ===================================================================== *)
(** * The advisory chat session ([geminiService.ts], lines 228-259, and
      [AgentChat.tsx], lines 25-70) *)
(* ===================================================================== *)

Module Advisor.

Import Str Json Gemini Chat.

(** The line feed of a template. *)
Definition nl : jsstring := [10%N].

(** [parts.join(sep)] on strings. *)
Fixpoint join (sep : jsstring) (parts : list jsstring) : jsstring :=
  match parts with
  | [] => []
  | [p] => p
  | p :: more => p ++ sep ++ join sep more
  end.

(** The object has an own property named [k]. *)
Definition hasOwn (k : jsstring) (props : list (jsstring * value)) : bool :=
  existsb (fun p => jsstring_eqb k (fst p)) props.

Section Text.

(** The decimal text of a finite number ([Number::toString]). *)
Variable numberToString : number -> jsstring.

Definition numberText (n : number) : jsstring :=
  match n with
  | S754_nan => "NaN"
  | S754_infinity false => "Infinity"
  | S754_infinity true => "-Infinity"
  | _ => numberToString n
  end.

(** ToString, as a template applies it to a substitution. An array is
    joined with commas, [null] and [undefined] elements giving the empty
    string. An object of the data of this program has no callable
    property: with an own property named [toString] there is no method to
    convert it and the conversion throws a TypeError; without one the
    inherited method gives the fixed text. *)
Fixpoint toString (v : value) : result jsstring :=
  match v with
  | VUndefined => Ok ("undefined" : jsstring)
  | VNull => Ok ("null" : jsstring)
  | VBool true => Ok ("true" : jsstring)
  | VBool false => Ok ("false" : jsstring)
  | VNumber n => Ok (numberText n)
  | VString s => Ok s
  | VArray elems =>
      parts <-
        (fix each (l : list value) : result (list jsstring) :=
           match l with
           | [] => Ok []
           | e :: rest =>
               p <- match e with
                    | VUndefined => Ok []
                    | VNull => Ok []
                    | _ => toString e
                    end ;;
               ps <- each rest ;;
               Ok (p :: ps)
           end) elems ;;
      Ok (join "," parts)
  | VObject props =>
      if hasOwn "toString" props then Throw TypeError
      else Ok ("[object Object]" : jsstring)
  end.

(** The text of an element in [Array.prototype.join]. *)
Definition elementText (e : value) : result jsstring :=
  match e with
  | VUndefined => Ok []
  | VNull => Ok []
  | _ => toString e
  end.

Fixpoint elementTexts (l : list value) : result (list jsstring) :=
  match l with
  | [] => Ok []
  | e :: rest =>
      p <- elementText e ;;
      ps <- elementTexts rest ;;
      Ok (p :: ps)
  end.

(** [x.join(sep)]: [x] must be an array. *)
Definition joinOf (x : value) (sep : jsstring) : result jsstring :=
  match x with
  | VArray elems => parts <- elementTexts elems ;; Ok (join sep parts)
  | _ => Throw TypeError
  end.

(** Line 244: the template of one allocation. *)
Definition allocationLine (a : value) : result jsstring :=
  ticker <- get a "ticker" ;;
  tickerText <- toString ticker ;;
  percentage <- get a "percentage" ;;
  percentageText <- toString percentage ;;
  Ok (tickerText ++ (": " : jsstring) ++ percentageText ++ ("%" : jsstring)).

Fixpoint allocationLines (l : list value) : result (list jsstring) :=
  match l with
  | [] => Ok []
  | a :: rest =>
      line <- allocationLine a ;;
      lines <- allocationLines rest ;;
      Ok (line :: lines)
  end.

(** The configuration of a chat session (lines 249-256). *)
Record ChatConfig : Type := mkChatConfig {
  chatModel : jsstring;
  systemInstruction : jsstring;
  chatSearch : bool;
  chatHistory : list value
}.

(** A chat session: the credential of its client and its
    configuration. *)
Definition Session : Type := (value * ChatConfig)%type.

(** Lines 231-247. *)
Definition instruction (summary riskAnalysis allocations steps : jsstring)
  : jsstring :=
  nl ++ ("    You are " : jsstring) ++ [34%N] ++ ("The Steward," : jsstring)
     ++ [34%N] ++ (" an expert AI Financial Advisor." : jsstring)
  ++ nl ++ ("    Your role is to provide clarifying, data-driven, and educational answers about the user's generated investment plan." : jsstring)
  ++ nl ++ ("    You are helpful, encouraging, and an expert in financial markets, portfolio management, and economic principles." : jsstring)
  ++ nl ++ ("    Your personality is that of a wise, patient, and timeless advisor. Avoid hype and focus on long-term, evidence-based principles." : jsstring)
  ++ nl ++ ("    You MUST ground your answers in the context of the user's provided plan. Refer to their allocations, goals, and risk profile." : jsstring)
  ++ nl ++ ("    You have access to Google Search to provide up-to-the-minute data to support your answers." : jsstring)
  ++ nl ++ ("    NEVER provide direct financial advice or tell the user to buy/sell a specific security. Instead, educate them on the principles so they can make their own informed decisions." : jsstring)
  ++ nl
  ++ nl ++ ("    Here is the user's investment plan for context:" : jsstring)
  ++ nl ++ ("    ---" : jsstring)
  ++ nl ++ ("    SUMMARY: " : jsstring) ++ summary
  ++ nl ++ ("    RISK ANALYSIS: " : jsstring) ++ riskAnalysis
  ++ nl ++ ("    ALLOCATIONS: " : jsstring) ++ allocations
  ++ nl ++ ("    ACTIONABLE STEPS: " : jsstring) ++ steps
  ++ nl ++ ("    ---" : jsstring)
  ++ nl ++ ("  " : jsstring).

(** Lines 228-259. Creating the session makes no request. *)
Definition createAdvisorChat (plan apiKey : value) (history : list value)
  : result Session :=
  ai <- getClient apiKey ;;
  summary <- get plan "summary" ;;
  summaryText <- toString summary ;;
  riskAnalysis <- get plan "riskAnalysis" ;;
  riskText <- toString riskAnalysis ;;
  allocations <- get plan "allocations" ;;
  lines <-
    match allocations with
    | VArray elems => allocationLines elems
    | _ => Throw TypeError
    end ;;
  actionableSteps <- get plan "actionableSteps" ;;
  stepsText <- joinOf actionableSteps "; " ;;
  Ok (ai,
      mkChatConfig "gemini-2.5-flash"
        (instruction summaryText riskText (join ", " lines) stepsText)
        true history).

End Text.

(** ** The session of the panel *)





Section Mount.

Variable numberToString : number -> jsstring.



End Mount.

End Advisor.

(* ===================================================================== *)
(** * The profile form ([InputForm.tsx]) *)
(* ===================================================================== *)

Module Form.

Import Advisor.

(** A field that holds a number or the text of an input ([types.ts],
    lines 2-10). *)
Inductive NumberOrString : Type :=
| NumberField (n : number)
| TextField (s : jsstring).

(** [types.ts], lines 1-16. *)
Record UserProfile : Type := mkProfile {
  age : NumberOrString;
  retirementAge : NumberOrString;
  annualIncome : NumberOrString;
  cash : NumberOrString;
  brokerageBalance : NumberOrString;
  rothBalance : NumberOrString;
  monthlyContribution : NumberOrString;
  riskTolerance : jsstring;
  taxFilingStatus : jsstring;
  goals : list jsstring;
  geographicFocus : list jsstring;
  currentPortfolio : jsstring
}.








End Form.

(* ===================================================================== *)
(** * The prompt of a plan generation ([geminiService.ts], lines 95-172) *)
(* ===================================================================== *)

Module Prompt.

Import Str Json Advisor Form.

(** ** [Number(x)] *)

(** The radix of the prefix of a non-decimal literal: [x], [o] or [b], in
    either case. *)
Definition radixOf (c : N) : option N :=
  if (c =? 120)%N || (c =? 88)%N then Some 16%N
  else if (c =? 111)%N || (c =? 79)%N then Some 8%N
  else if (c =? 98)%N || (c =? 66)%N then Some 2%N
  else None.

Definition digitIn (radix c : N) : option N :=
  match hex_value c with
  | Some d => if (d <? radix)%N then Some d else None
  | None => None
  end.

(** The value of the digits of [s] in the radix, [None] when one of the
    characters is not a digit of the radix. *)
Fixpoint radixValue (radix acc : N) (s : jsstring) : option N :=
  match s with
  | [] => Some acc
  | c :: rest =>
      match digitIn radix c with
      | Some d => radixValue radix (acc * radix + d)%N rest
      | None => None
      end
  end.

(** An unsigned decimal literal that is the whole of [s]: [Infinity], or
    digits with an optional fraction, or a fraction alone, each with an
    optional exponent. Anything else is [NaN]. *)
Definition unsignedDecimal (neg : bool) (s : jsstring) : number :=
  if jsstring_eqb s "Infinity" then S754_infinity neg
  else
    let '(ints, r1) := take_digits s in
    let '(fracs, r2) :=
      match r1 with
      | c :: t => if (c =? 46)%N then take_digits t else ([], r1)
      | [] => ([], r1)
      end in
    match ints, fracs with
    | [], [] => S754_nan
    | _, _ =>
        match lex_exp r2 with
        | Some (e, []) =>
            number_of_decimal neg (digits_value (ints ++ fracs))
                              (e - Z.of_nat (length fracs))
        | _ => S754_nan
        end
    end.

(** A decimal literal: an optional sign and an unsigned literal. *)
Definition signedDecimal (s : jsstring) : number :=
  match s with
  | c :: t =>
      if (c =? 43)%N then unsignedDecimal false t
      else if (c =? 45)%N then unsignedDecimal true t
      else unsignedDecimal false s
  | [] => S754_nan
  end.

(** The number a string denotes: white space around the literal is
    dropped; the empty string is [0]; a literal with the prefix of a
    radix is an integer in that radix; what is no literal is [NaN]. *)
Definition stringToNumber (text : jsstring) : number :=
  match trim text with
  | [] => S754_zero false
  | 48%N :: p :: d :: rest =>
      match radixOf p with
      | Some radix =>
          match radixValue radix 0 (d :: rest) with
          | Some m => number_of_decimal false (Z.of_N m) 0
          | None => S754_nan
          end
      | None => signedDecimal (48%N :: p :: d :: rest)
      end
  | s => signedDecimal s
  end.

(** [Number(x)] on a field of the profile. *)
Definition Number (x : NumberOrString) : number :=
  match x with
  | NumberField n => n
  | TextField s => stringToNumber s
  end.

(** [Number(x) || d] *)
Definition numberOr (x : NumberOrString) (d : number) : number :=
  if truthy (VNumber (Number x)) then Number x else d.

(** [a + b] *)
Definition add (a b : number) : number := SFadd 53 1024 a b.

Definition thirty : number := number_of_decimal false 30 0.
Definition sixtyFive : number := number_of_decimal false 65 0.
Definition zero : number := S754_zero false.

(** ** The numbers of the prompt *)

(** Lines 95-103. *)
Record Snapshot : Type := mkSnapshot {
  cashOf : number;
  brokerageOf : number;
  rothOf : number;
  incomeOf : number;
  monthlyOf : number;
  ageOf : number;
  retirementAgeOf : number;
  totalCurrentAssets : number
}.

Definition snapshot (profile : UserProfile) : Snapshot :=
  let cash := numberOr (cash profile) zero in
  let brokerage := numberOr (brokerageBalance profile) zero in
  let roth := numberOr (rothBalance profile) zero in
  let income := numberOr (annualIncome profile) zero in
  let monthly := numberOr (monthlyContribution profile) zero in
  let age := numberOr (age profile) thirty in
  let retirementAge := numberOr (retirementAge profile) sixtyFive in
  mkSnapshot cash brokerage roth income monthly age retirementAge
             (add (add cash brokerage) roth).

(** Line 121: [profile.geographicFocus.join(', ') || 'Global
    Diversification'] *)
Definition geographicFocusOf (profile : UserProfile) : jsstring :=
  match join ", " (geographicFocus profile) with
  | [] => "Global Diversification"
  | text => text
  end.

(** Line 124. *)
Definition portfolioOf (profile : UserProfile) : jsstring :=
  match currentPortfolio profile with
  | [] => "No existing portfolio data provided."
  | text => text
  end.

(** Lines 105-172: the template, over the texts of its substitutions. *)
Definition template
    (ageText retirementAgeText incomeText cashText brokerageText rothText
     totalText monthlyText riskToleranceText taxFilingStatusText goalsText
     geographicFocusText portfolioText : jsstring) : jsstring :=
  nl ++ ("    Act as a " : jsstring) ++ [34%N] ++ ("Certified Financial Planner (CFP) and Financial Wellness Coach" : jsstring) ++ [34%N] ++ ("." : jsstring)
  ++ nl ++ ("    Your philosophy is centered on empowering individuals to build a healthy relationship with money and achieve long-term financial well-being. Your tone is encouraging, educational, empathetic, and clear. You demystify complex topics and focus on actionable, habit-forming advice." : jsstring)
  ++ nl
  ++ nl ++ ("    Client's Financial Snapshot:" : jsstring)
  ++ nl ++ ("    - Age: " : jsstring) ++ ageText ++ (" (Target Retirement: " : jsstring) ++ retirementAgeText ++ (")" : jsstring)
  ++ nl ++ ("    - Annual Income: $" : jsstring) ++ incomeText
  ++ nl ++ ("    - FINANCIAL HEALTH PROFILE:" : jsstring)
  ++ nl ++ ("       - Cash / Emergency Fund: $" : jsstring) ++ cashText
  ++ nl ++ ("       - Taxable Investments: $" : jsstring) ++ brokerageText
  ++ nl ++ ("       - Retirement Accounts (Roth/401k): $" : jsstring) ++ rothText
  ++ nl ++ ("    - Total Net Worth Snapshot: $" : jsstring) ++ totalText
  ++ nl ++ ("    - Monthly Savings Rate: $" : jsstring) ++ monthlyText
  ++ nl ++ ("    - Stated Risk Tolerance: " : jsstring) ++ riskToleranceText
  ++ nl ++ ("    - Tax Status: " : jsstring) ++ taxFilingStatusText
  ++ nl ++ ("    - Financial Goals: " : jsstring) ++ goalsText
  ++ nl ++ ("    - Geographic Focus: " : jsstring) ++ geographicFocusText
  ++ nl
  ++ nl ++ ("    CLIENT'S CURRENT INVESTMENTS (Raw Import):" : jsstring)
  ++ nl ++ ("    " : jsstring) ++ [34%N] ++ portfolioText ++ [34%N]
  ++ nl
  ++ nl ++ ("    CORE TASKS (Utilize Google Search for current data):" : jsstring)
  ++ nl ++ ("    " : jsstring)
  ++ nl ++ ("    1. **Financial Health Summary**: Write an encouraging and clear executive summary titled " : jsstring) ++ [34%N] ++ ("Your Financial Wellness Plan" : jsstring) ++ [34%N] ++ (". Structure this summary using clear Markdown with the following H3 headings for maximum readability:" : jsstring)
  ++ nl ++ ("        - ### Your Financial Snapshot & Key Strengths" : jsstring)
  ++ nl ++ ("        - ### Opportunities for Growth & Improvement" : jsstring)
  ++ nl ++ ("        - ### A Clear Path Forward" : jsstring)
  ++ nl ++ ("        Use bullet points or numbered lists. Your goal is to build confidence and provide clarity. This summary MUST be the first part of your response." : jsstring)
  ++ nl
  ++ nl ++ ("    2. **Mindful Macro-Economic View**: Explain the current economic environment in simple terms. Focus on what it means for a long-term investor and how to remain disciplined, avoiding fear or greed." : jsstring)
  ++ nl
  ++ nl ++ ("    3. **Building Your Wealth Engine**: Recommend a core investment strategy based on the client's profile. Emphasize the principles of low-cost, diversified investing as the most reliable path to wealth creation." : jsstring)
  ++ nl
  ++ nl ++ ("    4. **Understanding Your Investments**: For each recommended holding, explain its purpose in simple terms." : jsstring)
  ++ nl ++ ("       - **Why this investment?** What role does it play in your plan (e.g., " : jsstring) ++ [34%N] ++ ("This is your engine for growth," : jsstring) ++ [34%N] ++ (" or " : jsstring) ++ [34%N] ++ ("This helps protect against inflation" : jsstring) ++ [34%N] ++ (")." : jsstring)
  ++ nl ++ ("       - **Staying the Course:** Briefly mention current market sentiment or technicals not as a reason to trade, but as an educational point on market volatility. For example: " : jsstring) ++ [34%N] ++ ("Markets are currently optimistic on tech, but our goal with this ETF is to hold it for decades, capturing long-term innovation regardless of short-term noise." : jsstring) ++ [34%N]
  ++ nl
  ++ nl ++ ("    5. **Financial Health Check-Up (CRITICAL)**:" : jsstring)
  ++ nl ++ ("       - Analyze the client's " : jsstring) ++ [34%N] ++ ("Current Investments" : jsstring) ++ [34%N] ++ ("." : jsstring)
  ++ nl ++ ("       - **If no portfolio is provided**: State this clearly. The first " : jsstring) ++ [34%N] ++ ("actionableStep" : jsstring) ++ [34%N] ++ (" must be " : jsstring) ++ [34%N] ++ ("Let's get a full picture! Please import your current portfolio so we can do a complete financial health check-up." : jsstring) ++ [34%N] ++ (" The " : jsstring) ++ [34%N] ++ ("portfolioAnalysis" : jsstring) ++ [34%N] ++ (" field in the final JSON MUST be `null`." : jsstring)
  ++ nl ++ ("       - **If portfolio data IS provided**:" : jsstring)
  ++ nl ++ ("         - Assign a " : jsstring) ++ [34%N] ++ ("Financial Health Score" : jsstring) ++ [34%N] ++ (" (0-100) based on diversification, cost-efficiency, and alignment with their goals." : jsstring)
  ++ nl ++ ("         - Provide specific " : jsstring) ++ [34%N] ++ ("Rebalancing & Habit Recommendations" : jsstring) ++ [34%N] ++ (": e.g., " : jsstring) ++ [34%N] ++ ("Your portfolio is healthy but a bit too focused on one area. Let's improve diversification by..." : jsstring) ++ [34%N] ++ (" or " : jsstring) ++ [34%N] ++ ("A great next step would be to automate your monthly savings." : jsstring) ++ [34%N]
  ++ nl
  ++ nl ++ ("    6. **Financial Wellness SWOT & Actionable Steps**:" : jsstring)
  ++ nl ++ ("       - Perform a SWOT analysis on the client's financial health." : jsstring)
  ++ nl ++ ("       - Provide 3-5 clear, encouraging, and actionable steps. The first step should always be the most important habit to build (e.g., " : jsstring) ++ [34%N] ++ ("Build your emergency fund to 6 months of expenses." : jsstring) ++ [34%N] ++ (")." : jsstring)
  ++ nl
  ++ nl ++ ("    7. **Financial Growth Projection**: Calculate a 30-year wealth projection (Conservative 4%, Expected 7%, Aggressive 10%), adjusting for 2.5% long-term average inflation. Frame this as a demonstration of the power of consistent saving and compounding." : jsstring)
  ++ nl
  ++ nl ++ ("    OUTPUT FORMAT:" : jsstring)
  ++ nl ++ ("    - Start with the formatted Financial Health Summary." : jsstring)
  ++ nl ++ ("    - END with a strict JSON block wrapped in ```json ... ```. Do not add any text after the JSON block." : jsstring)
  ++ nl ++ ("    " : jsstring)
  ++ nl ++ ("    JSON SCHEMA:" : jsstring)
  ++ nl ++ ("    {" : jsstring)
  ++ nl ++ ("      " : jsstring) ++ [34%N] ++ ("actionableSteps" : jsstring) ++ [34%N] ++ (": [" : jsstring) ++ [34%N] ++ ("..." : jsstring) ++ [34%N] ++ ("]," : jsstring)
  ++ nl ++ ("      " : jsstring) ++ [34%N] ++ ("swot" : jsstring) ++ [34%N] ++ (": { " : jsstring) ++ [34%N] ++ ("strengths" : jsstring) ++ [34%N] ++ (": [" : jsstring) ++ [34%N] ++ ("..." : jsstring) ++ [34%N] ++ ("], " : jsstring) ++ [34%N] ++ ("weaknesses" : jsstring) ++ [34%N] ++ (": [" : jsstring) ++ [34%N] ++ ("..." : jsstring) ++ [34%N] ++ ("], " : jsstring) ++ [34%N] ++ ("opportunities" : jsstring) ++ [34%N] ++ (": [" : jsstring) ++ [34%N] ++ ("..." : jsstring) ++ [34%N] ++ ("], " : jsstring) ++ [34%N] ++ ("threats" : jsstring) ++ [34%N] ++ (": [" : jsstring) ++ [34%N] ++ ("..." : jsstring) ++ [34%N] ++ ("] }," : jsstring)
  ++ nl ++ ("      " : jsstring) ++ [34%N] ++ ("allocations" : jsstring) ++ [34%N] ++ (": [{ " : jsstring)
  ++ nl ++ ("          " : jsstring) ++ [34%N] ++ ("ticker" : jsstring) ++ [34%N] ++ (": " : jsstring) ++ [34%N] ++ ("..." : jsstring) ++ [34%N] ++ (", " : jsstring) ++ [34%N] ++ ("name" : jsstring) ++ [34%N] ++ (": " : jsstring) ++ [34%N] ++ ("..." : jsstring) ++ [34%N] ++ (", " : jsstring) ++ [34%N] ++ ("sector" : jsstring) ++ [34%N] ++ (": " : jsstring) ++ [34%N] ++ ("..." : jsstring) ++ [34%N] ++ (", " : jsstring) ++ [34%N] ++ ("percentage" : jsstring) ++ [34%N] ++ (": 0, " : jsstring) ++ [34%N] ++ ("type" : jsstring) ++ [34%N] ++ (": " : jsstring) ++ [34%N] ++ ("..." : jsstring) ++ [34%N] ++ (", " : jsstring) ++ [34%N] ++ ("rationale" : jsstring) ++ [34%N] ++ (": " : jsstring) ++ [34%N] ++ ("..." : jsstring) ++ [34%N] ++ (", " : jsstring) ++ [34%N] ++ ("accountType" : jsstring) ++ [34%N] ++ (": " : jsstring) ++ [34%N] ++ ("..." : jsstring) ++ [34%N] ++ (", " : jsstring) ++ [34%N] ++ ("dividendYield" : jsstring) ++ [34%N] ++ (": 0, " : jsstring) ++ [34%N] ++ ("technicalAnalysis" : jsstring) ++ [34%N] ++ (": {" : jsstring) ++ [34%N] ++ ("summary" : jsstring) ++ [34%N] ++ (": " : jsstring) ++ [34%N] ++ ("..." : jsstring) ++ [34%N] ++ (", " : jsstring) ++ [34%N] ++ ("support" : jsstring) ++ [34%N] ++ (": " : jsstring) ++ [34%N] ++ ("..." : jsstring) ++ [34%N] ++ (", " : jsstring) ++ [34%N] ++ ("resistance" : jsstring) ++ [34%N] ++ (": " : jsstring) ++ [34%N] ++ ("..." : jsstring) ++ [34%N] ++ (", " : jsstring) ++ [34%N] ++ ("indicatorSignal" : jsstring) ++ [34%N] ++ (": " : jsstring) ++ [34%N] ++ ("..." : jsstring) ++ [34%N] ++ ("}, " : jsstring) ++ [34%N] ++ ("marketSentiment" : jsstring) ++ [34%N] ++ (": {" : jsstring) ++ [34%N] ++ ("score" : jsstring) ++ [34%N] ++ (": " : jsstring) ++ [34%N] ++ ("..." : jsstring) ++ [34%N] ++ (", " : jsstring) ++ [34%N] ++ ("summary" : jsstring) ++ [34%N] ++ (": " : jsstring) ++ [34%N] ++ ("..." : jsstring) ++ [34%N] ++ (", " : jsstring) ++ [34%N] ++ ("analystRating" : jsstring) ++ [34%N] ++ (": " : jsstring) ++ [34%N] ++ ("..." : jsstring) ++ [34%N] ++ ("} " : jsstring)
  ++ nl ++ ("      }]," : jsstring)
  ++ nl ++ ("      " : jsstring) ++ [34%N] ++ ("projections" : jsstring) ++ [34%N] ++ (": [{" : jsstring) ++ [34%N] ++ ("year" : jsstring) ++ [34%N] ++ (": 0, " : jsstring) ++ [34%N] ++ ("conservative" : jsstring) ++ [34%N] ++ (": 0, " : jsstring) ++ [34%N] ++ ("expected" : jsstring) ++ [34%N] ++ (": 0, " : jsstring) ++ [34%N] ++ ("aggressive" : jsstring) ++ [34%N] ++ (": 0, " : jsstring) ++ [34%N] ++ ("inflationAdjusted" : jsstring) ++ [34%N] ++ (": 0, " : jsstring) ++ [34%N] ++ ("totalContributions" : jsstring) ++ [34%N] ++ (": 0}]," : jsstring)
  ++ nl ++ ("      " : jsstring) ++ [34%N] ++ ("marketAnalysis" : jsstring) ++ [34%N] ++ (": {" : jsstring) ++ [34%N] ++ ("macroOutlook" : jsstring) ++ [34%N] ++ (": " : jsstring) ++ [34%N] ++ ("..." : jsstring) ++ [34%N] ++ (", " : jsstring) ++ [34%N] ++ ("inflationForecast" : jsstring) ++ [34%N] ++ (": " : jsstring) ++ [34%N] ++ ("..." : jsstring) ++ [34%N] ++ (", " : jsstring) ++ [34%N] ++ ("interestRateView" : jsstring) ++ [34%N] ++ (": " : jsstring) ++ [34%N] ++ ("..." : jsstring) ++ [34%N] ++ ("}," : jsstring)
  ++ nl ++ ("      " : jsstring) ++ [34%N] ++ ("secEvents" : jsstring) ++ [34%N] ++ (": [{" : jsstring) ++ [34%N] ++ ("ticker" : jsstring) ++ [34%N] ++ (": " : jsstring) ++ [34%N] ++ ("..." : jsstring) ++ [34%N] ++ (", " : jsstring) ++ [34%N] ++ ("type" : jsstring) ++ [34%N] ++ (": " : jsstring) ++ [34%N] ++ ("..." : jsstring) ++ [34%N] ++ (", " : jsstring) ++ [34%N] ++ ("date" : jsstring) ++ [34%N] ++ (": " : jsstring) ++ [34%N] ++ ("..." : jsstring) ++ [34%N] ++ (", " : jsstring) ++ [34%N] ++ ("summary" : jsstring) ++ [34%N] ++ (": " : jsstring) ++ [34%N] ++ ("..." : jsstring) ++ [34%N] ++ (", " : jsstring) ++ [34%N] ++ ("sentiment" : jsstring) ++ [34%N] ++ (": " : jsstring) ++ [34%N] ++ ("..." : jsstring) ++ [34%N] ++ ("}]," : jsstring)
  ++ nl ++ ("      " : jsstring) ++ [34%N] ++ ("sectorTrends" : jsstring) ++ [34%N] ++ (": [{" : jsstring) ++ [34%N] ++ ("sector" : jsstring) ++ [34%N] ++ (": " : jsstring) ++ [34%N] ++ ("..." : jsstring) ++ [34%N] ++ (", " : jsstring) ++ [34%N] ++ ("trend" : jsstring) ++ [34%N] ++ (": " : jsstring) ++ [34%N] ++ ("..." : jsstring) ++ [34%N] ++ (", " : jsstring) ++ [34%N] ++ ("performance" : jsstring) ++ [34%N] ++ (": 0, " : jsstring) ++ [34%N] ++ ("reasoning" : jsstring) ++ [34%N] ++ (": " : jsstring) ++ [34%N] ++ ("..." : jsstring) ++ [34%N] ++ ("}]," : jsstring)
  ++ nl ++ ("      " : jsstring) ++ [34%N] ++ ("portfolioAnalysis" : jsstring) ++ [34%N] ++ (": {" : jsstring) ++ [34%N] ++ ("currentScore" : jsstring) ++ [34%N] ++ (": 0, " : jsstring) ++ [34%N] ++ ("analysis" : jsstring) ++ [34%N] ++ (": " : jsstring) ++ [34%N] ++ ("..." : jsstring) ++ [34%N] ++ (", " : jsstring) ++ [34%N] ++ ("rebalancingOrders" : jsstring) ++ [34%N] ++ (": [{" : jsstring) ++ [34%N] ++ ("ticker" : jsstring) ++ [34%N] ++ (": " : jsstring) ++ [34%N] ++ ("..." : jsstring) ++ [34%N] ++ (", " : jsstring) ++ [34%N] ++ ("action" : jsstring) ++ [34%N] ++ (": " : jsstring) ++ [34%N] ++ ("..." : jsstring) ++ [34%N] ++ (", " : jsstring) ++ [34%N] ++ ("amount" : jsstring) ++ [34%N] ++ (": " : jsstring) ++ [34%N] ++ ("..." : jsstring) ++ [34%N] ++ (", " : jsstring) ++ [34%N] ++ ("reason" : jsstring) ++ [34%N] ++ (": " : jsstring) ++ [34%N] ++ ("..." : jsstring) ++ [34%N] ++ ("}]}" : jsstring)
  ++ nl ++ ("    }" : jsstring)
  ++ nl ++ ("  " : jsstring).

Section Text.

Variable numberToString : number -> jsstring.

(** Lines 105-172. *)
Definition prompt (profile : UserProfile) : jsstring :=
  let s := snapshot profile in
  template (numberText numberToString (ageOf s))
           (numberText numberToString (retirementAgeOf s))
           (numberText numberToString (incomeOf s))
           (numberText numberToString (cashOf s))
           (numberText numberToString (brokerageOf s))
           (numberText numberToString (rothOf s))
           (numberText numberToString (totalCurrentAssets s))
           (numberText numberToString (monthlyOf s))
           (riskTolerance profile) (taxFilingStatus profile)
           (join ", " (goals profile))
           (geographicFocusOf profile) (portfolioOf profile).

End Text.

End Prompt.

(* ===================================================================== *)
(** * Vocabulary of the properties *)
(* ===================================================================== *)

Module SanitizerSpec.

Import Sanitizer.

Definition isNull (v : value) : bool :=
  match v with
  | VNull => true
  | _ => false
  end.

(** [v] is not an array with a [null] element. *)
Definition noNullElement (v : value) : bool :=
  match v with
  | VArray elems => forallb (fun e => negb (isNull e)) elems
  | _ => true
  end.

(** The payloads on which the sanitizer returns: anything but [null] and
    [undefined], with no [null] among the elements of [allocations] and
    of [projections]. *)
Definition sanitizable (data : value) : bool :=
  match data with
  | VUndefined => false
  | VNull => false
  | VObject props =>
      noNullElement (lookup_prop "allocations" props)
      && noNullElement (lookup_prop "projections" props)
  | _ => true
  end.

(** An allocation entry that passes the guard of line 59: an object (or
    array) whose [ticker] is truthy. *)
Definition keepAllocation (a : value) : bool :=
  match a with
  | VObject props => truthy (lookup_prop "ticker" props)
  | _ => false
  end.

(** A projection entry that passes the guard of line 83. *)
Definition keepProjection (p : value) : bool :=
  match p with
  | VObject props => truthy (lookup_prop "year" props)
  | _ => false
  end.

(** The entry has no technical-analysis record: the property is missing,
    or holds [undefined], [null] or a primitive. *)
Definition lacksTechnicalAnalysis (a : value) : bool :=
  match a with
  | VObject props =>
      match lookup_prop "technicalAnalysis" props with
      | VObject _ => false
      | VArray _ => false
      | _ => true
      end
  | _ => true
  end.

(** The sanitized form of an entry that passed the guard. *)
Definition cleanAllocation (a : value) : value :=
  match sanitizeAllocation a with
  | Ok out => out
  | Throw _ => VUndefined
  end.

(** The [allocations] of the plan, for a field without [null] element. *)
Definition allocationsOf (field : value) : value :=
  match field with
  | VArray elems =>
      VArray (map cleanAllocation (List.filter keepAllocation elems))
  | _ => VArray []
  end.

(** Payloads the sanitizer mishandles. *)
Definition payloadNullAllocation : value :=
  VObject [("allocations" : jsstring, VArray [VNull])].

Definition payloadNullAmongAllocations : value :=
  VObject [("allocations" : jsstring,
            VArray [VNull; VObject [("ticker" : jsstring, VString "VTI")]])].

Definition payloadNullProjection : value :=
  VObject [("projections" : jsstring, VArray [VNull])].

Definition payloadNumericRisk : value :=
  VObject [("riskAnalysis" : jsstring,
            VNumber (Json.number_of_decimal false 5 0))].

Definition payloadSwotArray : value :=
  VObject [("swot" : jsstring, VArray [])].


Definition isObject (v : value) : bool :=
  match v with
  | VObject _ => true
  | _ => false
  end.

End SanitizerSpec.

Module StrSpec.
Import Str.

(** [text] holds the pattern of line 190 behind the prefix [pre], with
    the group [group] between the delimiters. *)
Definition matchesAt (text pre group : jsstring) : Prop :=
  exists post, text = pre ++ fenceOpen ++ group ++ fenceClose ++ post.

(** [s] holds [pat] behind the prefix [pre]. *)
Definition occursAt (pat s pre : jsstring) : Prop :=
  exists post, s = pre ++ pat ++ post.

End StrSpec.

Module GeminiSpec.
Import Str Json Sanitizer Gemini.

(** Line 28-31: the request of the credential check. *)
Definition verificationRequest : Request :=
  mkRequest "gemini-2.5-flash" "validation test" false.

(** The response carries a [text] that is a non-empty string. *)
Definition hasNonEmptyText (response : value) : bool :=
  match get response "text" with
  | Ok (VString (_ :: _)) => true
  | _ => false
  end.


(** The payload entry and the allocation of the scenario of C9. *)
Definition sixty : number := number_of_decimal false 60 0.

Definition vtiEntry : value :=
  VObject [("ticker" : jsstring, VString "VTI");
           ("percentage" : jsstring, VNumber sixty)].

Definition vtiAllocation : value :=
  VObject
    [ ("ticker" : jsstring, VString "VTI");
      ("name" : jsstring, VString "N/A");
      ("sector" : jsstring, VString "N/A");
      ("percentage" : jsstring, VNumber sixty);
      ("type" : jsstring, VString "ETF");
      ("rationale" : jsstring, VString "No rationale provided.");
      ("accountType" : jsstring, VString "Brokerage");
      ("dividendYield" : jsstring, VUndefined);
      ("technicalAnalysis" : jsstring, placeholderTechnicalAnalysis);
      ("marketSentiment" : jsstring, placeholderMarketSentiment) ].

(** A source text in which each apostrophe stands for a double quote. *)
Definition dq (s : string) : jsstring :=
  map (fun c => if (c =? 39)%N then 34%N else c) (lit s).

(** The request of a plan generation (lines 174-180). *)
Definition generationRequest (prompt : jsstring) : Request :=
  mkRequest "gemini-2.5-flash" prompt true.

(** A response with an empty text. *)
Definition emptyTextResponse : value :=
  VObject [("text" : jsstring, VString "")].

(** The response of the scenario of C9. *)
Definition vtiText : jsstring :=
  dq "Your Financial Wellness Plan ```json {'allocations':[{'ticker':'VTI','percentage':60}]} ```".

Definition vtiResponse : value :=
  VObject [("text" : jsstring, VString vtiText)].


(** Responses whose block is well-formed JSON of another shape than the
    schema. *)
Definition numberBlockResponse : value :=
  VObject [("text" : jsstring, VString "Plan. ```json 42 ```")].

Definition nullBlockResponse : value :=
  VObject [("text" : jsstring, VString "Plan. ```json null ```")].

End GeminiSpec.


Module JsonSpec.
Import Json.

Fixpoint distinct (keys : list jsstring) : bool :=
  match keys with
  | [] => true
  | k :: rest => negb (existsb (jsstring_eqb k) rest) && distinct rest
  end.

(** The values made of [null], booleans, strings, arrays, and objects
    with distinct keys: what a chat history is made of. *)
Fixpoint textual (v : value) : bool :=
  match v with
  | VUndefined => false
  | VNumber _ => false
  | VNull => true
  | VBool _ => true
  | VString _ => true
  | VArray elems => forallb textual elems
  | VObject props =>
      forallb (fun p => textual (snd p)) props && distinct (map fst props)
  end.

(** Token lists joined with commas. *)
Definition join_tokens (parts : list (list token)) : list token :=
  match parts with
  | [] => []
  | first :: more => first ++ flat_map (fun ts => TComma :: ts) more
  end.

(** The tokens of the text of such a value. *)
Fixpoint tokens_of (v : value) : list token :=
  match v with
  | VUndefined => []
  | VNumber n => [TNum n]
  | VNull => [TNull]
  | VBool true => [TTrue]
  | VBool false => [TFalse]
  | VString s => [TStr s]
  | VArray elems =>
      TLBracket :: join_tokens (map tokens_of elems) ++ [TRBracket]
  | VObject props =>
      TLBrace
      :: join_tokens
           (map (fun p => TStr (fst p) :: TColon :: tokens_of (snd p)) props)
      ++ [TRBrace]
  end.

(** With any fuel above the length of the text, [s] lexes to [ts]. *)
Definition lexes (s : jsstring) (ts : list token) : Prop :=
  forall fuel, (length s < fuel)%nat -> lex fuel s = Some ts.

(** [text] spells the tokens [toks]: put before any text that lexes, it
    lexes to [toks] followed by the tokens of that text. *)
Definition spells (text : jsstring) (toks : list token) : Prop :=
  forall rest ts, lexes rest ts -> lexes (text ++ rest) (toks ++ ts).

(** With any fuel above their number, the tokens of [v] before [rest]
    parse to [v] and leave [rest]. *)
Definition parses (v : value) : Prop :=
  forall rest f,
    (length (tokens_of v ++ rest) < f)%nat ->
    parse_value f (tokens_of v ++ rest) = Some (v, rest).

End JsonSpec.


Module ChatSpec.
Import Json Chat.

(** The greeting as a message. *)
Definition greetingMessage : ChatMessage :=
  mkMessage model
    "I have reviewed your legacy plan. The principles are sound and the strategy is aligned with your long-term goals. How may I provide clarity or guidance?"
    None.

(** Messages appended one by one, each append with its save effect. *)
Definition appendAll (numberToString : number -> jsstring)
    (ms : list value) (panel : ChatState * Storage) : ChatState * Storage :=
  fold_left (fun p m => appendMessage numberToString m (fst p) (snd p)) ms panel.

(** The messages of a first conversation. *)
Definition firstQuestion : ChatMessage :=
  mkMessage user "What is the role of bonds in this portfolio?" None.

Definition firstAnswer : ChatMessage :=
  mkMessage model "Bonds dampen the swings of the stock funds."
    (Some [mkSource "Bond basics" "https://example.org/bonds"]).

End ChatSpec.

Module AppSpec.
Import Json Gemini Chat ChatSpec App.

(** The state of a first run: nothing stored, nothing on screen. *)
Definition initialState : AppState :=
  mkApp None None false None ∅ None.

(** A plan as the sanitizer returns it for an empty payload. *)
Definition somePlan : value :=
  match Sanitizer.validateAndSanitizePlan (VObject []) "Your plan." with
  | Ok p => p
  | Throw _ => VUndefined
  end.

(** A session: the user enters a credential, generates a plan, and asks
    a question in the chat panel, which the service answers. *)
Definition afterConversation : AppState :=
  let render := render (fun _ => []) true in
  let s1 := render (handleApiKeySave "first key" (render (loadApiKey initialState))) in
  let s2 := render (fst (handleGenerateStart s1)) in
  let s3 := render (handleGenerateSettle (fun _ => []) (Ok somePlan) s2) in
  render (sendChat (fun _ => [])
            (fun _ => Ok (VObject [("text" : jsstring,
                                    VString "Bonds dampen the swings.")]))
            "What about bonds?" s3).




End AppSpec.

(* ===================================================================== *)
(** * Vocabulary of the further properties *)
(* ===================================================================== *)

Module SanitizerShape.
Import Types Sanitizer SanitizerSpec.

(** The properties of an object. A primitive, an array of the payload
    and a function have none of the names the sanitizer reads. *)
Definition propsOf (data : value) : list (jsstring * value) :=
  match data with
  | VObject props => props
  | _ => []
  end.

(** The [projections] of the plan, for a field without [null] element. *)
Definition projectionsOf (field : value) : value :=
  match field with
  | VArray elems => VArray (List.filter keepProjection elems)
  | _ => VArray []
  end.

(** The [secEvents] and the [sectorTrends] of the plan. *)
Definition objectsOf (field : value) : value :=
  match field with
  | VArray elems => VArray (List.filter typeof_object elems)
  | _ => VArray []
  end.

(** The plan the sanitizer returns for a payload with the properties
    [props]. *)
Definition planOf (props : list (jsstring * value)) (summary : jsstring)
  : value :=
  VObject
    [ ("summary" : jsstring,
         js_or (VString summary) (VString "No summary provided."));
      ("riskAnalysis" : jsstring,
         js_or (lookup_prop "riskAnalysis" props) (VString ""));
      ("actionableSteps" : jsstring,
         if isArray (lookup_prop "actionableSteps" props)
         then lookup_prop "actionableSteps" props else VArray []);
      ("swot" : jsstring,
         js_or (js_and (VBool (typeof_object (lookup_prop "swot" props)))
                       (lookup_prop "swot" props))
               defaultSwot);
      ("allocations" : jsstring,
         allocationsOf (lookup_prop "allocations" props));
      ("projections" : jsstring,
         projectionsOf (lookup_prop "projections" props));
      ("sources" : jsstring, VArray []);
      ("marketAnalysis" : jsstring,
         js_or (js_and (VBool (typeof_object
                                 (lookup_prop "marketAnalysis" props)))
                       (lookup_prop "marketAnalysis" props))
               defaultMarketAnalysis);
      ("secEvents" : jsstring, objectsOf (lookup_prop "secEvents" props));
      ("sectorTrends" : jsstring,
         objectsOf (lookup_prop "sectorTrends" props));
      ("portfolioAnalysis" : jsstring,
         if typeof_object (lookup_prop "portfolioAnalysis" props)
         then lookup_prop "portfolioAnalysis" props else VUndefined) ].

Fixpoint keys_eqb (a b : list jsstring) : bool :=
  match a, b with
  | [], [] => true
  | x :: a', y :: b' => jsstring_eqb x y && keys_eqb a' b'
  | _, _ => false
  end.

(** The names of the properties of an object, in order. *)
Definition hasKeys (v : value) (keys : list jsstring) : bool :=
  match v with
  | VObject props => keys_eqb (map fst props) keys
  | _ => false
  end.

(** An object or an array: a value whose [typeof] is ['object'] and
    that is not [null]. *)
Definition isRecord (v : value) : bool :=
  match v with
  | VObject _ => true
  | VArray _ => true
  | _ => false
  end.

(** Truthy, or the number [0]. *)
Definition truthyOrZero (v : value) : bool :=
  truthy v || match v with VNumber (S754_zero false) => true | _ => false end.

(** Truthy, or the empty string. *)
Definition truthyOrEmpty (v : value) : bool :=
  truthy v || match v with VString [] => true | _ => false end.

(** An allocation as the dashboard reads it: the ten properties; a
    truthy ticker, name, sector, type, rationale and account type; a
    percentage that is truthy or [0]; records for the technical analysis
    and the market sentiment. *)
Definition shapedAllocation (a : value) : bool :=
  hasKeys a [ "ticker" : jsstring; "name" : jsstring; "sector" : jsstring;
              "percentage" : jsstring; "type" : jsstring;
              "rationale" : jsstring; "accountType" : jsstring;
              "dividendYield" : jsstring; "technicalAnalysis" : jsstring;
              "marketSentiment" : jsstring ]
  && truthy (lookup_prop "ticker" (propsOf a))
  && truthy (lookup_prop "name" (propsOf a))
  && truthy (lookup_prop "sector" (propsOf a))
  && truthyOrZero (lookup_prop "percentage" (propsOf a))
  && truthy (lookup_prop "type" (propsOf a))
  && truthy (lookup_prop "rationale" (propsOf a))
  && truthy (lookup_prop "accountType" (propsOf a))
  && isRecord (lookup_prop "technicalAnalysis" (propsOf a))
  && isRecord (lookup_prop "marketSentiment" (propsOf a)).

Definition arrayOf (p : value -> bool) (v : value) : bool :=
  match v with
  | VArray elems => forallb p elems
  | _ => false
  end.

Definition isEmptyArray (v : value) : bool :=
  match v with
  | VArray [] => true
  | _ => false
  end.

(** A plan as the dashboard reads it. *)
Definition shapedPlan (plan : value) : bool :=
  hasKeys plan [ "summary" : jsstring; "riskAnalysis" : jsstring;
                 "actionableSteps" : jsstring; "swot" : jsstring;
                 "allocations" : jsstring; "projections" : jsstring;
                 "sources" : jsstring; "marketAnalysis" : jsstring;
                 "secEvents" : jsstring; "sectorTrends" : jsstring;
                 "portfolioAnalysis" : jsstring ]
  && match lookup_prop "summary" (propsOf plan) with
     | VString (_ :: _) => true
     | _ => false
     end
  && truthyOrEmpty (lookup_prop "riskAnalysis" (propsOf plan))
  && isArray (lookup_prop "actionableSteps" (propsOf plan))
  && isRecord (lookup_prop "swot" (propsOf plan))
  && arrayOf shapedAllocation (lookup_prop "allocations" (propsOf plan))
  && arrayOf keepProjection (lookup_prop "projections" (propsOf plan))
  && isEmptyArray (lookup_prop "sources" (propsOf plan))
  && isRecord (lookup_prop "marketAnalysis" (propsOf plan))
  && arrayOf typeof_object (lookup_prop "secEvents" (propsOf plan))
  && arrayOf typeof_object (lookup_prop "sectorTrends" (propsOf plan))
  && match lookup_prop "portfolioAnalysis" (propsOf plan) with
     | VUndefined => true
     | pa => typeof_object pa
     end.

(** A string, a number, a boolean or [undefined]. *)
Definition isPrimitive (v : value) : bool :=
  match v with
  | VUndefined => true
  | VBool _ => true
  | VNumber _ => true
  | VString _ => true
  | _ => false
  end.

(** The payload of the schema of the prompt (lines 160-171), with the
    declared type of each field; a field may be missing. *)
Definition Payload : ty :=
  TyInterface
    [ optional "riskAnalysis" TyString;
      optional "actionableSteps" (TyArray TyString);
      optional "swot" SWOTAnalysis;
      optional "allocations" (TyArray AllocationItem);
      optional "projections" (TyArray ProjectionData);
      optional "marketAnalysis" MarketAnalysis;
      optional "secEvents" (TyArray SecEvent);
      optional "sectorTrends" (TyArray SectorTrend);
      optional "portfolioAnalysis" PortfolioAnalysis ].

(** A field of an interface accepts the value read from it: a value of
    the type of the field, or [undefined] where the field is optional. *)
Definition accepts (t : ty) (isOptional : bool) (x : value) : bool :=
  match x with
  | VUndefined => isOptional
  | VNull => conforms t VNull
  | VBool b => conforms t (VBool b)
  | VNumber n => conforms t (VNumber n)
  | VString s => conforms t (VString s)
  | VArray elems => conforms t (VArray elems)
  | VObject props => conforms t (VObject props)
  end.

End SanitizerShape.

Module GeminiShape.
Import Sanitizer Gemini.

(** A citation built by [mk] from a URL and a title that are both
    truthy. *)
Definition cited (mk : value -> value -> value) (s : value) : Prop :=
  exists uri title,
    s = mk uri title /\ truthy uri = true /\ truthy title = true.

(** The names of the properties of a plan, in order. *)
Definition planKeys : list jsstring :=
  [ "summary" : jsstring; "riskAnalysis" : jsstring;
    "actionableSteps" : jsstring; "swot" : jsstring;
    "allocations" : jsstring; "projections" : jsstring;
    "sources" : jsstring; "marketAnalysis" : jsstring;
    "secEvents" : jsstring; "sectorTrends" : jsstring;
    "portfolioAnalysis" : jsstring ].

(** Line 216: the citation record of a plan. *)
Definition planSource (uri title : value) : value :=
  VObject [("url" : jsstring, uri); ("title" : jsstring, title)].

End GeminiShape.

Module AppShape.
Import Gemini Chat App.

(** The state of [App] when the page is loaded over a local storage
    (lines 10-13), before its first effect. *)
Definition freshApp (st : Storage) : AppState :=
  mkApp None None false None st None.

(** The page is loaded again: a new [App] over the local storage of the
    old one, and the effect of its first render (lines 15-20). *)
Definition reload (s : AppState) : AppState :=
  loadApiKey (freshApp (localStorage s)).


End AppShape.

Module AdvisorShape.
Import SanitizerShape Chat Advisor.

(** A value that a template can spell out: not an object with an own
    property named [toString], nor an array with such an element. *)
Fixpoint plain (v : value) : bool :=
  match v with
  | VArray elems => forallb plain elems
  | VObject props => negb (hasOwn "toString" props)
  | _ => true
  end.

(** The ticker and the percentage of an allocation can be spelt out. *)
Definition plainAllocation (a : value) : bool :=
  plain (lookup_prop "ticker" (propsOf a))
  && plain (lookup_prop "percentage" (propsOf a)).

(** The values of a plan that the instruction of a session spells out
    can be: the risk analysis, the ticker and the percentage of each
    allocation, and the steps. *)
Definition speakable (plan : value) : bool :=
  plain (lookup_prop "riskAnalysis" (propsOf plan))
  && arrayOf plainAllocation (lookup_prop "allocations" (propsOf plan))
  && arrayOf plain (lookup_prop "actionableSteps" (propsOf plan)).



End AdvisorShape.

Module ChatShape.
Import Chat.

(** Line 85: the message of the user. *)
Definition userMessage (input : jsstring) : value :=
  VObject [("role" : jsstring, VString "user");
           ("text" : jsstring, VString input)].

(** The stored history cannot be read: there is none, or it is empty, or
    it is not JSON text. *)
Definition unreadable (st : Storage) : Prop :=
  st !! CHAT_KEY = None
  \/ st !! CHAT_KEY = Some ([] : jsstring)
  \/ exists text e, st !! CHAT_KEY = Some text /\ Json.JSON_parse text = Throw e.

End ChatShape.

Module PromptShape.
Import Str Form Prompt.



End PromptShape.

(* ===================================================================== *)
(** * Properties of the sanitizer *)
(* ===================================================================== *)

Module SanitizerFacts.

Import Types Sanitizer SanitizerSpec.

Lemma jsstring_eqb_eq (a b : jsstring) : jsstring_eqb a b = true <-> a = b.
Proof.
  revert b; induction a as [|x a IH]; intros [|y b]; simpl; split;
    try congruence; try reflexivity.
  - intros H. apply andb_true_iff in H as [Hx Hab].
    apply N.eqb_eq in Hx. apply IH in Hab. congruence.
  - intros H. injection H as -> ->. rewrite N.eqb_refl. simpl. now apply IH.
Qed.

Lemma typeof_object_spec (v : value) :
  typeof_object v = true <->
  match v with
  | VNull => True
  | VArray _ => True
  | VObject _ => True
  | _ => False
  end.
Proof. destruct v; vm_compute; intuition congruence. Qed.

(** The guard of line 59 on an entry that is not [null]. *)
Lemma allocationGuard_not_null (a : value) :
  isNull a = false ->
  exists keep, allocationGuard a = Ok keep /\ truthy keep = keepAllocation a.
Proof.
  intros Hn. destruct a; try discriminate Hn;
    (eexists; split; [reflexivity | reflexivity]).
Qed.

Lemma projectionGuard_not_null (p : value) :
  isNull p = false ->
  exists keep, projectionGuard p = Ok keep /\ truthy keep = keepProjection p.
Proof.
  intros Hn. destruct p; try discriminate Hn;
    (eexists; split; [reflexivity | reflexivity]).
Qed.

(** A filter whose callback returns on every element is the pure filter. *)
Lemma filterM_pure (f : value -> result value) (keep : value -> bool)
    (elems : list value) :
  Forall (fun e => exists b, f e = Ok b /\ truthy b = keep e) elems ->
  filterM f elems = Ok (List.filter keep elems).
Proof.
  induction 1 as [|e rest (b & Hf & Hb) _ IH]; simpl; [reflexivity|].
  rewrite Hf. simpl. rewrite IH. simpl. now rewrite Hb.
Qed.

Lemma noNull_Forall (elems : list value) :
  forallb (fun e => negb (isNull e)) elems = true ->
  Forall (fun e => isNull e = false) elems.
Proof.
  intros H. apply List.Forall_forall. intros e He.
  rewrite forallb_forall in H. specialize (H e He).
  now apply negb_true_iff in H.
Qed.

Lemma filterM_allocationGuard (elems : list value) :
  forallb (fun e => negb (isNull e)) elems = true ->
  filterM allocationGuard elems = Ok (List.filter keepAllocation elems).
Proof.
  intros H. apply filterM_pure.
  eapply List.Forall_impl; [|apply noNull_Forall, H].
  intros a Ha. now apply allocationGuard_not_null.
Qed.

Lemma filterM_projectionGuard (elems : list value) :
  forallb (fun e => negb (isNull e)) elems = true ->
  filterM projectionGuard elems = Ok (List.filter keepProjection elems).
Proof.
  intros H. apply filterM_pure.
  eapply List.Forall_impl; [|apply noNull_Forall, H].
  intros a Ha. now apply projectionGuard_not_null.
Qed.

Lemma filterM_objectGuard (elems : list value) :
  filterM objectGuard elems = Ok (List.filter typeof_object elems).
Proof.
  apply filterM_pure. apply List.Forall_forall. intros e _.
  eexists; split; reflexivity.
Qed.

(** A [null] element makes the filter of line 59 throw. *)
Lemma filterM_allocationGuard_null (elems : list value) :
  forallb (fun e => negb (isNull e)) elems = false ->
  filterM allocationGuard elems = Throw TypeError.
Proof.
  induction elems as [|e rest IH]; simpl; [discriminate|].
  intros H. apply andb_false_iff in H as [H|H].
  - destruct e; try discriminate H. reflexivity.
  - destruct (isNull e) eqn:He.
    + destruct e; try discriminate He. reflexivity.
    + destruct (allocationGuard_not_null e He) as (k & -> & _).
      simpl. now rewrite IH.
Qed.

Lemma filterM_projectionGuard_null (elems : list value) :
  forallb (fun e => negb (isNull e)) elems = false ->
  filterM projectionGuard elems = Throw TypeError.
Proof.
  induction elems as [|e rest IH]; simpl; [discriminate|].
  intros H. apply andb_false_iff in H as [H|H].
  - destruct e; try discriminate H. reflexivity.
  - destruct (isNull e) eqn:He.
    + destruct e; try discriminate He. reflexivity.
    + destruct (projectionGuard_not_null e He) as (k & -> & _).
      simpl. now rewrite IH.
Qed.

(** The callback of [map] returns on every entry that passed the guard. *)
Lemma sanitizeAllocation_kept (a : value) :
  keepAllocation a = true -> sanitizeAllocation a = Ok (cleanAllocation a).
Proof.
  destruct a; try discriminate. intros _. reflexivity.
Qed.

Lemma mapM_sanitizeAllocation (elems : list value) :
  mapM sanitizeAllocation (List.filter keepAllocation elems)
  = Ok (map cleanAllocation (List.filter keepAllocation elems)).
Proof.
  induction elems as [|a rest IH]; simpl; [reflexivity|].
  destruct (keepAllocation a) eqn:Ha; [|exact IH].
  simpl. rewrite (sanitizeAllocation_kept a Ha). simpl. now rewrite IH.
Qed.

Lemma sanitizeAllocations_no_null (elems : list value) :
  forallb (fun e => negb (isNull e)) elems = true ->
  sanitizeAllocations elems
  = Ok (map cleanAllocation (List.filter keepAllocation elems)).
Proof.
  intros H. unfold sanitizeAllocations.
  rewrite (filterM_allocationGuard elems H). simpl.
  apply mapM_sanitizeAllocation.
Qed.

Lemma bind_Ok_inv {A B : Type} (r : result A) (k : A -> result B) (b : B) :
  bind r k = Ok b -> exists a, r = Ok a /\ k a = Ok b.
Proof. destruct r; simpl; [eauto | discriminate]. Qed.

Lemma filteredArray_projection (x : value) :
  noNullElement x = true ->
  exists kept, filteredArray projectionGuard x = Ok (VArray kept).
Proof.
  destruct x; simpl; eauto. intros H.
  rewrite (filterM_projectionGuard elems H). simpl. eauto.
Qed.

Lemma filteredArray_projection_null (x : value) :
  noNullElement x = false ->
  filteredArray projectionGuard x = Throw TypeError.
Proof.
  destruct x; simpl; try discriminate. intros H.
  now rewrite (filterM_projectionGuard_null elems H).
Qed.

Lemma filteredArray_object (x : value) :
  exists kept, filteredArray objectGuard x = Ok (VArray kept).
Proof.
  destruct x; simpl; eauto.
  rewrite filterM_objectGuard. simpl. eauto.
Qed.

Lemma allocations_no_null (x : value) :
  noNullElement x = true ->
  match x with
  | VArray elems => sane <- sanitizeAllocations elems ;; Ok (VArray sane)
  | _ => Ok (VArray [])
  end
  = Ok (allocationsOf x).
Proof.
  destruct x; simpl; try reflexivity. intros H.
  now rewrite (sanitizeAllocations_no_null elems H).
Qed.

Lemma allocations_null (x : value) :
  noNullElement x = false ->
  match x with
  | VArray elems => sane <- sanitizeAllocations elems ;; Ok (VArray sane)
  | _ => Ok (VArray [])
  end
  = Throw TypeError.
Proof.
  destruct x; simpl; try discriminate. intros H.
  unfold sanitizeAllocations. now rewrite (filterM_allocationGuard_null elems H).
Qed.

(** On a payload it accepts the sanitizer returns a plan, with these
    fields. *)
Lemma sanitize_returns (data : value) (summary : jsstring) :
  sanitizable data = true ->
  exists plan field pa,
    validateAndSanitizePlan data summary = Ok plan
    /\ get data "allocations" = Ok field
    /\ get data "portfolioAnalysis" = Ok pa
    /\ get plan "allocations" = Ok (allocationsOf field)
    /\ get plan "summary"
       = Ok (js_or (VString summary) (VString "No summary provided."))
    /\ get plan "sources" = Ok (VArray [])
    /\ get plan "portfolioAnalysis"
       = Ok (if typeof_object pa then pa else VUndefined)
    /\ isObject plan = true.
Proof.
  intros H. destruct data; try discriminate H;
    try (do 3 eexists; repeat split; reflexivity).
  simpl in H. apply andb_true_iff in H as [Ha Hp].
  unfold validateAndSanitizePlan. simpl get. simpl bind at 1.
  rewrite (allocations_no_null _ Ha).
  destruct (filteredArray_projection _ Hp) as (kp & ->).
  destruct (filteredArray_object (lookup_prop "secEvents" props)) as (ke & ->).
  destruct (filteredArray_object (lookup_prop "sectorTrends" props)) as (kt & ->).
  simpl. do 3 eexists; repeat split; reflexivity.
Qed.

(** On every other payload it throws a TypeError. *)
Lemma sanitize_throws (data : value) (summary : jsstring) :
  sanitizable data = false ->
  validateAndSanitizePlan data summary = Throw TypeError.
Proof.
  intros H. destruct data; try discriminate H; try reflexivity.
  simpl in H. unfold validateAndSanitizePlan. simpl get. simpl bind at 1.
  destruct (noNullElement (lookup_prop "allocations" props)) eqn:Ha.
  - simpl in H. rewrite (allocations_no_null _ Ha). simpl.
    now rewrite (filteredArray_projection_null _ H).
  - now rewrite (allocations_null _ Ha).
Qed.

(** C7. For every payload whose [allocations] field is not an array
    (missing, [null], an object, a string, a number), the sanitizer
    returns a plan whose allocation list is empty. The payload is one the
    sanitizer accepts ([sanitizable]: not [null] itself, no [null] among
    its projections). *)
Theorem non_array_allocations_empty
    (data : value) (summary : jsstring) (field : value) :
  get data "allocations" = Ok field ->
  isArray field = false ->
  sanitizable data = true ->
  exists plan,
    validateAndSanitizePlan data summary = Ok plan
    /\ get plan "allocations" = Ok (VArray []).
Proof.
  intros Hf Harr Hs.
  destruct (sanitize_returns data summary Hs)
    as (plan & field' & pa & Hplan & Hf' & _ & Hall & _).
  exists plan. split; [exact Hplan|]. rewrite Hall.
  rewrite Hf in Hf'. injection Hf' as <-.
  destruct field; try reflexivity. discriminate Harr.
Qed.

Lemma non_array_allocations_empty_witness :
  exists plan,
    validateAndSanitizePlan
      (VObject [("allocations" : jsstring, VString "sixty percent stocks")])
      "Plan." = Ok plan
    /\ get plan "allocations" = Ok (VArray []).
Proof.
  apply (non_array_allocations_empty _ _ (VString "sixty percent stocks"));
    reflexivity.
Defined.

Lemma objectOr_lacking (x d : value) :
  match x with
  | VObject _ => False
  | VArray _ => False
  | _ => True
  end ->
  objectOr x d = d.
Proof. destruct x; intros H; try contradiction; reflexivity. Qed.

Lemma js_or_truthy (x d : value) : truthy x = true -> js_or x d = x.
Proof. unfold js_or. now intros ->. Qed.

(** What the callback of [map] makes of an entry that passed the guard. *)
Lemma cleanAllocation_kept (a : value) :
  keepAllocation a = true ->
  get (cleanAllocation a) "ticker" = get a "ticker"
  /\ (lacksTechnicalAnalysis a = true ->
      get (cleanAllocation a) "technicalAnalysis"
      = Ok placeholderTechnicalAnalysis).
Proof.
  destruct a; try discriminate. simpl. intros Hk. split.
  - change (Ok (js_or (lookup_prop "ticker" props) (VString "N/A"))
            = Ok (lookup_prop "ticker" props)).
    now rewrite js_or_truthy.
  - intros Hl.
    change (Ok (objectOr (lookup_prop "technicalAnalysis" props)
                         placeholderTechnicalAnalysis)
            = Ok placeholderTechnicalAnalysis).
    rewrite objectOr_lacking; [reflexivity|].
    destruct (lookup_prop "technicalAnalysis" props); try exact I;
      discriminate Hl.
Qed.

(** C8. Every allocation entry of the payload that passes the guard has
    its sanitized counterpart, in the same order and with the same
    ticker, in the allocation list of the plan; where the entry has no
    technical-analysis record, the counterpart carries the fixed
    placeholder. *)
Theorem missing_technical_analysis_placeholder
    (data : value) (summary : jsstring) (elems : list value) :
  get data "allocations" = Ok (VArray elems) ->
  sanitizable data = true ->
  exists plan outs,
    validateAndSanitizePlan data summary = Ok plan
    /\ get plan "allocations" = Ok (VArray outs)
    /\ Forall2
         (fun a out =>
            get out "ticker" = get a "ticker"
            /\ (lacksTechnicalAnalysis a = true ->
                get out "technicalAnalysis" = Ok placeholderTechnicalAnalysis))
         (List.filter keepAllocation elems) outs.
Proof.
  intros Hf Hs.
  destruct (sanitize_returns data summary Hs)
    as (plan & field' & pa & Hplan & Hf' & _ & Hall & _).
  rewrite Hf in Hf'. injection Hf' as <-.
  exists plan, (map cleanAllocation (List.filter keepAllocation elems)).
  split; [exact Hplan|]. split; [exact Hall|].
  clear. induction elems as [|a rest IH]; simpl; [constructor|].
  destruct (keepAllocation a) eqn:Ha; [|exact IH].
  simpl. constructor; [|exact IH]. now apply cleanAllocation_kept.
Qed.

Lemma missing_technical_analysis_placeholder_witness :
  exists plan outs,
    validateAndSanitizePlan
      (VObject [("allocations" : jsstring,
                 VArray [VObject [("ticker" : jsstring, VString "VTI")];
                         VObject [("name" : jsstring, VString "no ticker")]])])
      "Plan." = Ok plan
    /\ get plan "allocations" = Ok (VArray outs)
    /\ Forall2
         (fun a out =>
            get out "ticker" = get a "ticker"
            /\ (lacksTechnicalAnalysis a = true ->
                get out "technicalAnalysis" = Ok placeholderTechnicalAnalysis))
         [VObject [("ticker" : jsstring, VString "VTI")]] outs.
Proof.
  apply (missing_technical_analysis_placeholder
           (VObject [("allocations" : jsstring,
                      VArray [VObject [("ticker" : jsstring, VString "VTI")];
                              VObject [("name" : jsstring, VString "no ticker")]])])
           "Plan."
           [VObject [("ticker" : jsstring, VString "VTI")];
            VObject [("name" : jsstring, VString "no ticker")]]);
    reflexivity.
Defined.

(** C1, at the failing inputs. The sanitizer throws on the payload
    [null] and on a payload with a [null] allocation entry; and where it
    returns, a field can hold a value of another type than the declared
    one, so that the plan is not of type [InvestmentPlan]: a number for
    [riskAnalysis], an array without the four lists for [swot]. *)
Theorem sanitizer_neither_total_nor_typed (summary : jsstring) :
  validateAndSanitizePlan VNull summary = Throw TypeError
  /\ validateAndSanitizePlan payloadNullAllocation summary = Throw TypeError
  /\ (exists plan risk,
        validateAndSanitizePlan payloadNumericRisk summary = Ok plan
        /\ get plan "riskAnalysis" = Ok risk
        /\ typeof risk = ("number" : jsstring)
        /\ conforms InvestmentPlan plan = false)
  /\ (exists plan swot,
        validateAndSanitizePlan payloadSwotArray summary = Ok plan
        /\ get plan "swot" = Ok swot
        /\ isArray swot = true
        /\ get swot "strengths" = Ok VUndefined
        /\ conforms InvestmentPlan plan = false).
Proof.
  split; [reflexivity|]. split; [reflexivity|]. split.
  - do 2 eexists. split; [reflexivity|]. repeat split; try reflexivity.
    destruct summary; reflexivity.
  - do 2 eexists. split; [reflexivity|]. repeat split; try reflexivity.
    destruct summary; reflexivity.
Qed.

(** On the empty payload every field takes its default, and the plan is
    of type [InvestmentPlan]. *)
Lemma defaults_conform (summary : jsstring) :
  exists plan,
    validateAndSanitizePlan (VObject []) summary = Ok plan
    /\ conforms InvestmentPlan plan = true.
Proof. eexists. split; [reflexivity|]. destruct summary; reflexivity. Qed.


(** The sanitizer never makes up a portfolio analysis: the field of the
    plan is [undefined] or the very value of the payload. *)
Lemma portfolioAnalysis_not_synthesized (data : value) (summary : jsstring) :
  sanitizable data = true ->
  exists plan pa,
    validateAndSanitizePlan data summary = Ok plan
    /\ get data "portfolioAnalysis" = Ok pa
    /\ (get plan "portfolioAnalysis" = Ok VUndefined
        \/ get plan "portfolioAnalysis" = Ok pa).
Proof.
  intros Hs.
  destruct (sanitize_returns data summary Hs)
    as (plan & field & pa & Hplan & _ & Hpa & _ & _ & _ & Hout & _).
  exists plan, pa. split; [exact Hplan|]. split; [exact Hpa|].
  rewrite Hout. destruct (typeof_object pa); auto.
Qed.

(** C10, at the failing inputs. A [null] element of [allocations], or of
    [projections], is not dropped: the sanitizer throws. *)
Theorem null_entry_not_dropped (summary : jsstring) :
  validateAndSanitizePlan payloadNullAmongAllocations summary = Throw TypeError
  /\ validateAndSanitizePlan payloadNullProjection summary = Throw TypeError.
Proof. split; reflexivity. Qed.

(** Apart from [null], the entries that fail the guards are dropped and
    the others kept, in order. *)
Lemma failing_entries_dropped (elems : list value) :
  forallb (fun e => negb (isNull e)) elems = true ->
  filterM allocationGuard elems = Ok (List.filter keepAllocation elems)
  /\ filterM projectionGuard elems = Ok (List.filter keepProjection elems).
Proof.
  intros H. split;
    [now apply filterM_allocationGuard | now apply filterM_projectionGuard].
Qed.

End SanitizerFacts.

Module StrFacts.
Import Str StrSpec.

Lemma starts_with_spec (pat s : jsstring) :
  starts_with pat s = true <-> exists post, s = pat ++ post.
Proof.
  revert s. induction pat as [|p pat IH]; intros s; simpl.
  - split; [intros _; now exists s | reflexivity].
  - destruct s as [|c s].
    + split; [discriminate | intros [post H]; discriminate H].
    + rewrite andb_true_iff, N.eqb_eq, IH. split.
      * intros [-> [post ->]]. now exists post.
      * intros [post H]. injection H as -> ->. split; [reflexivity | now exists post].
Qed.

Lemma occursAt_nil (pat s : jsstring) :
  occursAt pat s [] <-> starts_with pat s = true.
Proof. unfold occursAt. simpl. symmetry. apply starts_with_spec. Qed.

Lemma occursAt_cons (pat : jsstring) (c : N) (s pre : jsstring) :
  occursAt pat (c :: s) (c :: pre) <-> occursAt pat s pre.
Proof.
  unfold occursAt. split; intros [post H]; exists post.
  - simpl in H. now injection H.
  - simpl. now rewrite H.
Qed.

Lemma occursAt_head (pat : jsstring) (c : N) (s : jsstring) (d : N)
    (pre : jsstring) :
  occursAt pat (c :: s) (d :: pre) -> d = c.
Proof. intros [post H]. simpl in H. now injection H. Qed.

(** [find_first] gives the first occurrence. *)
Lemma find_first_Some (pat s : jsstring) (i : nat) :
  find_first pat s = Some i ->
  (exists pre, occursAt pat s pre /\ length pre = i)
  /\ forall pre, occursAt pat s pre -> (i <= length pre)%nat.
Proof.
  revert i. induction s as [|c s IH]; intros i H.
  - simpl in H. destruct (starts_with pat []) eqn:E; [|discriminate H].
    injection H as <-. split; [|intros; lia].
    exists []. split; [now apply occursAt_nil | reflexivity].
  - cbn [find_first] in H. destruct (starts_with pat (c :: s)) eqn:E.
    + injection H as <-. split; [|intros; lia].
      exists []. split; [now apply occursAt_nil | reflexivity].
    + destruct (find_first pat s) as [j|] eqn:F; [|discriminate H].
      injection H as <-. destruct (IH j eq_refl) as [(pre & Hocc & Hlen) Hmin].
      split.
      * exists (c :: pre). split; [now apply occursAt_cons | simpl; lia].
      * intros [|d pre'] Hp.
        -- apply occursAt_nil in Hp. congruence.
        -- pose proof (occursAt_head _ _ _ _ _ Hp) as ->.
           apply occursAt_cons, Hmin in Hp. simpl. lia.
Qed.

Lemma find_first_None (pat s : jsstring) :
  find_first pat s = None -> forall pre, ~ occursAt pat s pre.
Proof.
  induction s as [|c s IH]; intros H pre Hp.
  - simpl in H. destruct (starts_with pat []) eqn:E; [discriminate H|].
    destruct pre as [|d pre].
    + apply occursAt_nil in Hp. congruence.
    + destruct Hp as [post Hp]. discriminate Hp.
  - cbn [find_first] in H. destruct (starts_with pat (c :: s)) eqn:E;
      [discriminate H|].
    destruct (find_first pat s) as [j|] eqn:F; [discriminate H|].
    destruct pre as [|d pre].
    + apply occursAt_nil in Hp. congruence.
    + pose proof (occursAt_head _ _ _ _ _ Hp) as ->.
      apply occursAt_cons in Hp. now apply (IH eq_refl pre).
Qed.

Lemma find_last_None (pat s : jsstring) :
  find_last pat s = None -> forall pre, ~ occursAt pat s pre.
Proof.
  induction s as [|c s IH]; intros F pre Hp.
  - simpl in F. destruct (starts_with pat []) eqn:E; [discriminate F|].
    destruct pre as [|d pre].
    + apply occursAt_nil in Hp. congruence.
    + destruct Hp as [post Hp]. discriminate Hp.
  - cbn [find_last] in F. destruct (find_last pat s) eqn:G; [discriminate F|].
    destruct (starts_with pat (c :: s)) eqn:E; [discriminate F|].
    destruct pre as [|d pre].
    + apply occursAt_nil in Hp. congruence.
    + pose proof (occursAt_head _ _ _ _ _ Hp) as ->.
      apply occursAt_cons in Hp. now apply (IH eq_refl pre).
Qed.
(** [find_last] gives the last occurrence. *)
Lemma find_last_Some (pat s : jsstring) (i : nat) :
  find_last pat s = Some i ->
  (exists pre, occursAt pat s pre /\ length pre = i)
  /\ forall pre, occursAt pat s pre -> (length pre <= i)%nat.
Proof.
  revert i. induction s as [|c s IH]; intros i H.
  - simpl in H. destruct (starts_with pat []) eqn:E; [|discriminate H].
    injection H as <-. split.
    + exists []. split; [now apply occursAt_nil | reflexivity].
    + intros [|d pre] [post Hp]; [simpl; lia | discriminate Hp].
  - cbn [find_last] in H. destruct (find_last pat s) as [j|] eqn:F.
    + injection H as <-. destruct (IH j eq_refl) as [(pre & Hocc & Hlen) Hmax].
      split.
      * exists (c :: pre). split; [now apply occursAt_cons | simpl; lia].
      * intros [|d pre'] Hp; [simpl; lia|].
        pose proof (occursAt_head _ _ _ _ _ Hp) as ->.
        apply occursAt_cons, Hmax in Hp. simpl. lia.
    + destruct (starts_with pat (c :: s)) eqn:E; [|discriminate H].
      injection H as <-. split.
      * exists []. split; [now apply occursAt_nil | reflexivity].
      * intros [|d pre'] Hp; [simpl; lia|].
        pose proof (occursAt_head _ _ _ _ _ Hp) as ->.
        apply occursAt_cons in Hp. now destruct (find_last_None pat s F pre').
Qed.

Lemma app_same_length {A : Type} (a a' b b' : list A) :
  a ++ b = a' ++ b' -> length a = length a' -> a = a' /\ b = b'.
Proof.
  revert a'. induction a as [|x a IH]; intros [|y a'] H L;
    try discriminate L; simpl in *.
  - now split.
  - injection H as -> H. injection L as L.
    destruct (IH a' H L) as [-> ->]. now split.
Qed.

Lemma app_shorter_prefix {A : Type} (a a' b b' : list A) :
  a ++ b = a' ++ b' -> (length a <= length a')%nat ->
  exists m, a' = a ++ m /\ b = m ++ b'.
Proof.
  revert a'. induction a as [|x a IH]; intros a' H L; simpl in *.
  - exists a'. now split.
  - destruct a' as [|y a']; [simpl in L; lia|].
    simpl in H. injection H as -> H.
    destruct (IH a' H) as (m & -> & ->); [simpl in L; lia|].
    exists m. now split.
Qed.

Lemma skipn_exact {A : Type} (a b : list A) (n : nat) :
  length a = n -> skipn n (a ++ b) = b.
Proof.
  intros <-. induction a as [|x a IH]; [reflexivity | exact IH].
Qed.

Lemma firstn_exact {A : Type} (a b : list A) (n : nat) :
  length a = n -> firstn n (a ++ b) = a.
Proof.
  intros <-. induction a as [|x a IH]; [reflexivity | simpl; now rewrite IH].
Qed.

(** What [matchJsonBlock] returns is a match of the pattern, the
    leftmost one, and the longest at that place. *)
Lemma matchJsonBlock_Some (text group : jsstring) :
  matchJsonBlock text = Some group ->
  exists pre,
    matchesAt text pre group
    /\ find_first fenceOpen text = Some (length pre)
    /\ forall pre' group',
         matchesAt text pre' group' ->
         (length pre <= length pre')%nat
         /\ (length pre' = length pre -> (length group' <= length group)%nat).
Proof.
  unfold matchJsonBlock. intros H.
  destruct (find_first fenceOpen text) as [i|] eqn:F; [|discriminate H].
  destruct (find_first_Some _ _ _ F) as [(pre & [post0 Htext] & Hlen) Hmin].
  assert (Hrest : skipn (i + length fenceOpen) text = post0).
  { rewrite Htext, List.app_assoc. apply skipn_exact.
    rewrite List.length_app. lia. }
  rewrite Hrest in H.
  destruct (find_last fenceClose post0) as [j|] eqn:L; [|discriminate H].
  injection H as <-.
  destruct (find_last_Some _ _ _ L) as [(g & [post Hpost] & Hg) Hmax].
  assert (Hgroup : firstn j post0 = g)
    by (rewrite Hpost; now apply firstn_exact).
  rewrite Hgroup. exists pre. split; [|split].
  - exists post. now rewrite Htext, Hpost.
  - now rewrite Hlen.
  - intros pre' group' [post' Htext'].
    assert (Hle : (i <= length pre')%nat)
      by (apply Hmin; eexists; exact Htext').
    split; [lia|]. intros Heq.
    rewrite Htext in Htext'.
    apply app_same_length in Htext' as [_ Htext']; [|lia].
    apply List.app_inv_head in Htext'.
    rewrite Hg. apply Hmax. exists post'. exact Htext'.
Qed.

(** Where the pattern has a match, [matchJsonBlock] returns one. *)
Lemma matchJsonBlock_complete (text pre group : jsstring) :
  matchesAt text pre group -> exists group', matchJsonBlock text = Some group'.
Proof.
  intros [post Htext]. unfold matchJsonBlock.
  destruct (find_first fenceOpen text) as [i|] eqn:F.
  - destruct (find_first_Some _ _ _ F) as [(pre0 & [post0 Htext0] & Hlen) Hmin].
    assert (Hle : (i <= length pre)%nat)
      by (apply Hmin; eexists; exact Htext).
    assert (Hrest : skipn (i + length fenceOpen) text = post0).
    { rewrite Htext0, List.app_assoc. apply skipn_exact.
      rewrite List.length_app. lia. }
    rewrite Hrest.
    destruct (find_last fenceClose post0) as [j|] eqn:L; [eauto|].
    exfalso.
    assert (Hsplit : (pre0 ++ fenceOpen) ++ post0
                     = (pre ++ fenceOpen ++ group) ++ fenceClose ++ post).
    { rewrite <- !List.app_assoc. rewrite <- Htext0. exact Htext. }
    apply app_shorter_prefix in Hsplit as (m & _ & Hpost0).
    + apply (find_last_None _ _ L m). exists post. exact Hpost0.
    + rewrite !List.length_app. lia.
  - exfalso. apply (find_first_None _ _ F pre). eexists. exact Htext.
Qed.

(** The capture group of the pattern of line 190: [matchJsonBlock]
    returns [group] exactly when [text] has a match with that group
    which starts leftmost and, there, has the longest group. *)
Theorem matchJsonBlock_spec (text group : jsstring) :
  matchJsonBlock text = Some group <->
  exists pre,
    matchesAt text pre group
    /\ forall pre' group',
         matchesAt text pre' group' ->
         (length pre <= length pre')%nat
         /\ (length pre' = length pre -> (length group' <= length group)%nat).
Proof.
  split.
  - intros H. destruct (matchJsonBlock_Some text group H) as (pre & Hm & _ & Hx).
    exists pre. now split.
  - intros (pre & Hm & Hx).
    destruct (matchJsonBlock_complete text pre group Hm) as (g0 & H0).
    destruct (matchJsonBlock_Some text g0 H0) as (pre0 & Hm0 & _ & Hx0).
    destruct (Hx pre0 g0 Hm0) as [L1 G1]. destruct (Hx0 pre group Hm) as [L2 G2].
    assert (Hpre : length pre0 = length pre) by lia.
    assert (Hg : length g0 = length group)
      by (specialize (G1 Hpre); specialize (G2 (eq_sym Hpre)); lia).
    destruct Hm as [post Ht]. destruct Hm0 as [post0 Ht0].
    rewrite Ht in Ht0.
    apply app_same_length in Ht0 as [_ Ht0]; [|lia].
    apply List.app_inv_head in Ht0.
    apply app_same_length in Ht0 as [<- _]; [|lia].
    exact H0.
Qed.
Lemma trimStart_spec (s : jsstring) :
  exists ws,
    s = ws ++ trimStart s
    /\ forallb is_whitespace ws = true
    /\ match trimStart s with
       | c :: _ => is_whitespace c = false
       | [] => True
       end.
Proof.
  induction s as [|c s (ws & Hs & Hws & Hhead)]; [now exists []|].
  simpl. destruct (is_whitespace c) eqn:E.
  - exists (c :: ws). simpl. rewrite E, Hws. repeat split; [|exact Hhead].
    now rewrite <- Hs.
  - exists []. repeat split. exact E.
Qed.

Lemma forallb_rev_true {A : Type} (f : A -> bool) (l : list A) :
  forallb f l = true -> forallb f (rev l) = true.
Proof.
  rewrite !forallb_forall. intros H x Hx. apply H. now apply List.in_rev.
Qed.

(** [trim] removes a run of white space at each end, and nothing else. *)
Lemma trim_spec (s : jsstring) :
  exists before after,
    s = before ++ trim s ++ after
    /\ forallb is_whitespace before = true
    /\ forallb is_whitespace after = true
    /\ match trim s with
       | c :: _ => is_whitespace c = false
       | [] => True
       end
    /\ match rev (trim s) with
       | c :: _ => is_whitespace c = false
       | [] => True
       end.
Proof.
  destruct (trimStart_spec s) as (before & Hs & Hb & Hhead).
  destruct (trimStart_spec (rev (trimStart s))) as (after & Hr & Ha & Hlast).
  exists before, (rev after). unfold trim, trimEnd.
  assert (Hmid : trimStart s = rev (trimStart (rev (trimStart s))) ++ rev after).
  { rewrite <- List.rev_app_distr, <- Hr. now rewrite List.rev_involutive. }
  split; [now rewrite <- Hmid|]. split; [exact Hb|].
  split; [now apply forallb_rev_true|]. split.
  - destruct (rev (trimStart (rev (trimStart s)))) as [|c t] eqn:E; [exact I|].
    rewrite Hmid in Hhead. exact Hhead.
  - now rewrite List.rev_involutive.
Qed.

End StrFacts.

Module GeminiFacts.
Import Str Json Sanitizer SanitizerSpec SanitizerFacts Gemini GeminiSpec.

Lemma trimStart_whitespace (s : jsstring) :
  forallb is_whitespace s = true -> trimStart s = [].
Proof.
  induction s as [|c s IH]; simpl; [reflexivity|].
  intros H. apply andb_true_iff in H as [-> Hs]. now apply IH.
Qed.

Lemma trim_whitespace (s : jsstring) :
  forallb is_whitespace s = true -> trim s = [].
Proof.
  intros H. unfold trim. now rewrite (trimStart_whitespace s H).
Qed.

Section Verification.

Variable generateContent : Call -> result value.

Lemma verifyApiKey_cases (apiKey : value) :
  verifyApiKey generateContent apiKey = (Ok false, [])
  \/ (verifyApiKey generateContent apiKey
        = (Ok false, [(apiKey, verificationRequest)])
      /\ forall response,
           generateContent (apiKey, verificationRequest) = Ok response ->
           hasNonEmptyText response = false)
  \/ (verifyApiKey generateContent apiKey
        = (Ok true, [(apiKey, verificationRequest)])
      /\ exists response,
           generateContent (apiKey, verificationRequest) = Ok response
           /\ hasNonEmptyText response = true).
Proof.
  unfold verifyApiKey.
  destruct apiKey as [| |b|n|s|l|p]; try (left; reflexivity).
  - destruct b; left; reflexivity.
  - destruct n; left; reflexivity.
  - destruct s as [|c s]; [left; reflexivity|].
    cbn [truthy negb typeof orb].
    replace (jsstring_eqb "string" "string") with true by reflexivity.
    cbn [negb orb].
    destruct (length (trim (c :: s)) =? 0)%nat; [left; reflexivity|].
    right. unfold io_try, io_bind, io_lift, getClient, call. cbn [truthy negb].
    fold verificationRequest.
    destruct (generateContent (VString (c :: s), verificationRequest))
      as [response|e] eqn:Hg.
    + unfold hasNonEmptyText.
      destruct response as [| |b|n|t|l|p]; cbn.
      * left. split; [reflexivity|]. intros r [= <-]. reflexivity.
      * left. split; [reflexivity|]. intros r [= <-]. reflexivity.
      * destruct b; cbn; (left; split; [reflexivity|]; intros r [= <-]; reflexivity).
      * destruct n; cbn; (left; split; [reflexivity|]; intros r [= <-]; reflexivity).
      * destruct t; cbn; (left; split; [reflexivity|]; intros r [= <-]; reflexivity).
      * left; split; [reflexivity|]; intros r [= <-]; reflexivity.
      * destruct (lookup_prop "text" p) as [| |b|n|t|l|q] eqn:Ht; cbn;
          try (left; split; [reflexivity|]; intros r [= <-]; cbn; now rewrite Ht).
        destruct t as [|d t]; cbn.
        -- left; split; [reflexivity|]; intros r [= <-]; cbn; now rewrite Ht.
        -- right. split; [reflexivity|]. eexists. split; [reflexivity|].
           cbn. now rewrite Ht.
    + left. cbn. split; [reflexivity|]. intros r Hr. discriminate.
Qed.

(** C3. The credential check never throws; it rejects the empty string
    and every whitespace-only string without a network call; it accepts
    only when the service returned a response whose text is a non-empty
    string; it rejects when the call throws or the response has no such
    text; and it makes at most one call. *)
Theorem credential_verification (apiKey : value) :
  (forall s, apiKey = VString s -> forallb is_whitespace s = true ->
     verifyApiKey generateContent apiKey = (Ok false, []))
  /\ (fst (verifyApiKey generateContent apiKey) = Ok true
      \/ fst (verifyApiKey generateContent apiKey) = Ok false)
  /\ (fst (verifyApiKey generateContent apiKey) = Ok true ->
      exists response,
        generateContent (apiKey, verificationRequest) = Ok response
        /\ hasNonEmptyText response = true)
  /\ ((forall response,
         generateContent (apiKey, verificationRequest) = Ok response ->
         hasNonEmptyText response = false) ->
      fst (verifyApiKey generateContent apiKey) = Ok false)
  /\ (snd (verifyApiKey generateContent apiKey) = []
      \/ snd (verifyApiKey generateContent apiKey)
         = [(apiKey, verificationRequest)]).
Proof.
  split.
  { intros s -> Hs. unfold verifyApiKey.
    rewrite (trim_whitespace s Hs). simpl length.
    destruct s; reflexivity. }
  destruct (verifyApiKey_cases apiKey)
    as [H | [[H Hno] | [H (response & Hg & Ht)]]]; rewrite H; simpl.
  - repeat split; auto. discriminate.
  - repeat split; auto. discriminate.
  - repeat split; auto.
    + intros _. eauto.
    + intros Hall. specialize (Hall response Hg). congruence.
Qed.
End Verification.

Lemma credential_verification_witness :
  verifyApiKey (fun _ => Ok (VObject [("text" : jsstring, VString "pong")]))
               (VString "   ")
  = (Ok false, []).
Proof.
  apply (proj1 (credential_verification
                  (fun _ => Ok (VObject [("text" : jsstring, VString "pong")]))
                  (VString "   ")) "   "); reflexivity.
Defined.
Lemma lookup_set_prop_ne (k k' : jsstring) (v : value)
    (props : list (jsstring * value)) :
  jsstring_eqb k' k = false ->
  lookup_prop k' (set_prop k v props) = lookup_prop k' props.
Proof.
  intros Hne. induction props as [|[k0 v0] rest IH]; simpl.
  - now rewrite Hne.
  - destruct (jsstring_eqb k k0) eqn:Hk; simpl.
    + apply jsstring_eqb_eq in Hk. subst k0. now rewrite Hne.
    + destruct (jsstring_eqb k' k0); [reflexivity | exact IH].
Qed.

Lemma lookup_set_prop_eq (k : jsstring) (v : value)
    (props : list (jsstring * value)) :
  lookup_prop k (set_prop k v props) = v.
Proof.
  assert (Hrefl : jsstring_eqb k k = true) by now apply jsstring_eqb_eq.
  induction props as [|[k0 v0] rest IH]; simpl.
  - now rewrite Hrefl.
  - destruct (jsstring_eqb k k0) eqn:Hk; simpl.
    + now rewrite Hrefl.
    + now rewrite Hk.
Qed.

(** Assigning [sources] leaves the other fields of the plan as they are. *)
Lemma assign_sources (plan sources : value) :
  isObject plan = true ->
  exists plan',
    assign plan "sources" sources = Ok plan'
    /\ get plan' "sources" = Ok sources
    /\ get plan' "summary" = get plan "summary"
    /\ get plan' "allocations" = get plan "allocations"
    /\ get plan' "portfolioAnalysis" = get plan "portfolioAnalysis".
Proof.
  destruct plan; try discriminate. intros _. eexists. split; [reflexivity|].
  simpl. rewrite lookup_set_prop_eq.
  rewrite !lookup_set_prop_ne by reflexivity. repeat split; reflexivity.
Qed.

Lemma substring_prefix (s : jsstring) (i : nat) :
  substring s 0 (Z.of_nat i) = firstn i s.
Proof.
  unfold substring.
  replace (Z.to_nat (Z.min (Z.max 0 0) (Z.of_nat (length s)))) with 0%nat by lia.
  replace (Z.to_nat (Z.min (Z.max (Z.of_nat i) 0) (Z.of_nat (length s))))
    with (Nat.min i (length s)) by lia.
  rewrite Nat.min_0_l, Nat.max_0_l, Nat.sub_0_r. simpl skipn.
  destruct (Nat.le_ge_cases i (length s)) as [H|H].
  - now rewrite Nat.min_l.
  - rewrite Nat.min_r by exact H. rewrite List.firstn_all.
    symmetry. now apply List.firstn_all2.
Qed.

(** Without a match of the pattern the empty-prefix rule of line 189
    applies: [indexOf] is [-1] and the summary is empty. *)
Lemma substring_no_fence (s : jsstring) :
  substring s 0 (-1) = [].
Proof.
  unfold substring.
  replace (Z.to_nat (Z.min (Z.max 0 0) (Z.of_nat (length s)))) with 0%nat by lia.
  replace (Z.to_nat (Z.min (Z.max (-1) 0) (Z.of_nat (length s)))) with 0%nat by lia.
  reflexivity.
Qed.



Section Generation.

Variable generateContent : Call -> result value.
Variable UserProfile : Type.
Variable promptOf : UserProfile -> jsstring.

Lemma generate_with_response (profile : UserProfile) (apiKey response : value) :
  truthy apiKey = true ->
  generateContent (apiKey, generationRequest (promptOf profile)) = Ok response ->
  generateInvestmentStrategy generateContent UserProfile promptOf profile apiKey
  = (planOfResponse response, [(apiKey, generationRequest (promptOf profile))]).
Proof.
  intros Hk Hg. unfold generateInvestmentStrategy, getClient, io_lift, call.
  rewrite Hk. simpl. fold (generationRequest (promptOf profile)). rewrite Hg.
  simpl. destruct (planOfResponse response); reflexivity.
Qed.


(** C9. A response whose text is a narrative followed by a fenced block
    that parses to a payload with the allocation list
    [[{ticker: VTI, percentage: 60}]]: the plan is returned, its summary
    is the trimmed text before the fence, and its allocation list is the
    one entry with every other field at its default. *)
Theorem narrative_and_single_allocation
    (profile : UserProfile) (apiKey response : value)
    (text block : jsstring) (i : nat) (data : value) (sources : list value) :
  truthy apiKey = true ->
  generateContent (apiKey, generationRequest (promptOf profile)) = Ok response ->
  get response "text" = Ok (VString text) ->
  find_first fenceOpen text = Some i ->
  trim (firstn i text) <> [] ->
  matchJsonBlock text = Some block ->
  JSON_parse (trim block) = Ok data ->
  get data "allocations" = Ok (VArray [vtiEntry]) ->
  sanitizable data = true ->
  groundingSources response = Ok sources ->
  exists plan,
    fst (generateInvestmentStrategy generateContent UserProfile promptOf
                                    profile apiKey) = Ok plan
    /\ get plan "summary" = Ok (VString (trim (firstn i text)))
    /\ get plan "allocations" = Ok (VArray [vtiAllocation])
    /\ get plan "sources" = Ok (VArray sources).
Proof.
  intros Hk Hg Ht Hi Hnarr Hm Hp Hall Hs Hsrc.
  rewrite (generate_with_response profile apiKey response Hk Hg). simpl.
  unfold planOfResponse. rewrite Ht. simpl bind.
  destruct text as [|c text]; [now destruct i|]. cbn [truthy negb].
  rewrite Hm. destruct block as [|b block]; [discriminate Hp|].
  rewrite Hp. simpl try_catch. simpl bind. rewrite Hsrc. simpl bind.
  unfold indexOf. rewrite Hi. rewrite substring_prefix.
  destruct (sanitize_returns data (trim (firstn i (c :: text))) Hs)
    as (plan & field & pa & Hplan & Hf & _ & Hal & Hsum & _ & _ & Hobj).
  rewrite Hplan. simpl bind.
  destruct (assign_sources plan (VArray sources) Hobj)
    as (plan' & Has & Hsources & Hsummary & Hallocs & _).
  exists plan'. split; [exact Has|]. split; [|split].
  - rewrite Hsummary, Hsum. f_equal. unfold js_or.
    destruct (trim (firstn i (c :: text))); [contradiction | reflexivity].
  - rewrite Hallocs, Hal. rewrite Hall in Hf. injection Hf as <-. reflexivity.
  - exact Hsources.
Qed.

End Generation.



Lemma narrative_and_single_allocation_witness :
  exists plan,
    fst (generateInvestmentStrategy (fun _ => Ok vtiResponse)
           unit (fun _ => "prompt") tt (VString "key")) = Ok plan
    /\ get plan "summary" = Ok (VString "Your Financial Wellness Plan")
    /\ get plan "allocations" = Ok (VArray [vtiAllocation])
    /\ get plan "sources" = Ok (VArray []).
Proof.
  apply (narrative_and_single_allocation
           (fun _ => Ok vtiResponse) unit (fun _ => "prompt") tt (VString "key")
           vtiResponse vtiText
           (dq " {'allocations':[{'ticker':'VTI','percentage':60}]} ")
           29 (VObject [("allocations" : jsstring, VArray [vtiEntry])]) []);
    try reflexivity.
  vm_compute. discriminate.
Defined.

(** A block that is well-formed JSON is handed to the sanitizer whatever
    its shape: a number yields a plan with every list empty, and [null]
    makes the sanitizer throw its TypeError. *)
Lemma json_of_another_shape :
  (exists plan,
     planOfResponse numberBlockResponse = Ok plan
     /\ get plan "summary" = Ok (VString "Plan.")
     /\ get plan "allocations" = Ok (VArray [])
     /\ get plan "projections" = Ok (VArray []))
  /\ planOfResponse nullBlockResponse = Throw TypeError.
Proof.
  split; [|reflexivity]. eexists. split; [reflexivity|].
  repeat split; reflexivity.
Qed.

End GeminiFacts.

Module JsonFacts.
Import Json JsonSpec SanitizerFacts.

(** The numeric value of a few literals. *)
Example number_sixty :
  number_of_decimal false 60 0 = S754_finite false (60 * 2 ^ 47) (-47).
Proof. reflexivity. Qed.

Example number_tenth :
  number_of_decimal false 1 (-1) = S754_finite false 7205759403792794 (-56).
Proof. reflexivity. Qed.

Example number_tie_to_even :
  number_of_decimal false 9007199254740993 0
  = S754_finite false (2 ^ 52) 1.
Proof. reflexivity. Qed.

Example number_largest :
  number_of_decimal false 17976931348623157 292
  = S754_finite false (2 ^ 53 - 1) 971.
Proof. reflexivity. Qed.

Example number_overflow :
  number_of_decimal false 1 400 = S754_infinity false.
Proof. reflexivity. Qed.

Example number_smallest :
  number_of_decimal false 5 (-324) = S754_finite false 1 (-1074).
Proof. reflexivity. Qed.

Example number_underflow :
  number_of_decimal true 1 (-400) = S754_zero true.
Proof. reflexivity. Qed.

Lemma hex_value_digit (d : N) :
  (d < 16)%N -> hex_value (hex_digit d) = Some d.
Proof.
  intros Hd. unfold hex_digit, hex_value.
  destruct (N.ltb_spec d 10) as [H|H].
  - replace ((48 <=? 48 + d) && (48 + d <=? 57))%N with true.
    + f_equal. lia.
    + symmetry. apply andb_true_iff. split; apply N.leb_le; lia.
  - replace ((48 <=? 87 + d) && (87 + d <=? 57))%N with false.
    + replace ((97 <=? 87 + d) && (87 + d <=? 102))%N with true.
      * f_equal. lia.
      * symmetry. apply andb_true_iff. split; apply N.leb_le; lia.
    + symmetry. apply andb_false_iff. right. apply N.leb_gt. lia.
Qed.

Lemma hex_recombine (c : N) :
  (c < 65536)%N ->
  ((((c / 4096) mod 16 * 16 + (c / 256) mod 16) * 16 + (c / 16) mod 16) * 16
   + c mod 16 = c)%N.
Proof.
  intros Hc.
  assert (H256 : (c / 256 = c / 16 / 16)%N) by (now rewrite N.Div0.div_div).
  assert (H4096 : (c / 4096 = c / 16 / 16 / 16)%N)
    by (now rewrite !N.Div0.div_div).
  rewrite H256, H4096. clear H256 H4096.
  pose proof (N.Div0.div_mod c 16) as E1.
  pose proof (N.Div0.div_mod (c / 16) 16) as E2.
  pose proof (N.Div0.div_mod (c / 16 / 16) 16) as E3.
  pose proof (N.Div0.div_mod (c / 16 / 16 / 16) 16) as E4.
  assert (L1 := N.mod_lt c 16 ltac:(discriminate)).
  assert (L2 := N.mod_lt (c / 16) 16 ltac:(discriminate)).
  assert (L3 := N.mod_lt (c / 16 / 16) 16 ltac:(discriminate)).
  assert (L4 := N.mod_lt (c / 16 / 16 / 16) 16 ltac:(discriminate)).
  generalize dependent (c / 16 / 16 / 16 / 16)%N.
  generalize dependent ((c / 16 / 16 / 16) mod 16)%N.
  generalize dependent (c / 16 / 16 / 16)%N.
  generalize dependent ((c / 16 / 16) mod 16)%N.
  generalize dependent (c / 16 / 16)%N.
  generalize dependent ((c / 16) mod 16)%N.
  generalize dependent (c / 16)%N.
  generalize dependent (c mod 16)%N.
  intros. lia.
Qed.

Lemma hex4_escape (c : N) :
  (c < 65536)%N ->
  hex4 (hex_digit ((c / 4096) mod 16)) (hex_digit ((c / 256) mod 16))
       (hex_digit ((c / 16) mod 16)) (hex_digit (c mod 16)) = Some c.
Proof.
  intros Hc. unfold hex4.
  rewrite !hex_value_digit by (apply N.mod_lt; discriminate).
  f_equal. now apply hex_recombine.
Qed.

Lemma lex_string_escape (c : N) (tail : jsstring) :
  (c < 65536)%N ->
  lex_string (unicode_escape c ++ tail) = prepend c (lex_string tail).
Proof.
  intros Hc. unfold unicode_escape. cbn [app lex_string N.eqb Pos.eqb].
  now rewrite (hex4_escape c Hc).
Qed.
Lemma lex_string_raw (c : N) (tail : jsstring) :
  (c =? 34)%N = false -> (c =? 92)%N = false -> (c <? 32)%N = false ->
  lex_string (c :: tail) = prepend c (lex_string tail).
Proof. intros H1 H2 H3. simpl. now rewrite H1, H2, H3. Qed.

Lemma quote_body_cons (c : N) (rest : jsstring) :
  quote_body (c :: rest) =
  if (c =? 8)%N then 92%N :: 98%N :: quote_body rest
  else if (c =? 9)%N then 92%N :: 116%N :: quote_body rest
  else if (c =? 10)%N then 92%N :: 110%N :: quote_body rest
  else if (c =? 12)%N then 92%N :: 102%N :: quote_body rest
  else if (c =? 13)%N then 92%N :: 114%N :: quote_body rest
  else if (c =? 34)%N then 92%N :: 34%N :: quote_body rest
  else if (c =? 92)%N then 92%N :: 92%N :: quote_body rest
  else if (c <? 32)%N then unicode_escape c ++ quote_body rest
  else if is_high_surrogate c then
    match rest with
    | d :: rest' =>
        if is_low_surrogate d then c :: d :: quote_body rest'
        else unicode_escape c ++ quote_body rest
    | [] => unicode_escape c
    end
  else if is_low_surrogate c then unicode_escape c ++ quote_body rest
  else c :: quote_body rest.
Proof. reflexivity. Qed.

Lemma surrogate_raw (c : N) :
  is_high_surrogate c = true \/ is_low_surrogate c = true ->
  (c =? 34)%N = false /\ (c =? 92)%N = false /\ (c <? 32)%N = false
  /\ (c < 65536)%N.
Proof.
  unfold is_high_surrogate, is_low_surrogate.
  intros [H|H]; apply andb_true_iff in H as [H1 H2];
    apply N.leb_le in H1, H2;
    (repeat split; [apply N.eqb_neq | apply N.eqb_neq | apply N.ltb_ge | ]; lia).
Qed.

(** A quoted string lexes back to the string it quotes. *)
Lemma lex_string_quote_body (s rest : jsstring) :
  lex_string (quote_body s ++ 34%N :: rest) = Some (s, rest).
Proof.
  remember (length s) as n eqn:Hn.
  assert (Hle : (length s <= n)%nat) by lia. clear Hn.
  revert s Hle. induction n as [|n IH]; intros s Hle.
  { destruct s; [reflexivity | simpl in Hle; lia]. }
  destruct s as [|c s]; [reflexivity|]. simpl in Hle.
  assert (IHs : lex_string (quote_body s ++ 34%N :: rest) = Some (s, rest))
    by (apply IH; lia).
  rewrite quote_body_cons.
  destruct (N.eqb_spec c 8) as [->|H8]; [simpl; now rewrite IHs|].
  destruct (N.eqb_spec c 9) as [->|H9]; [simpl; now rewrite IHs|].
  destruct (N.eqb_spec c 10) as [->|H10]; [simpl; now rewrite IHs|].
  destruct (N.eqb_spec c 12) as [->|H12]; [simpl; now rewrite IHs|].
  destruct (N.eqb_spec c 13) as [->|H13]; [simpl; now rewrite IHs|].
  destruct (N.eqb_spec c 34) as [->|H34]; [simpl; now rewrite IHs|].
  destruct (N.eqb_spec c 92) as [->|H92]; [simpl; now rewrite IHs|].
  apply N.eqb_neq in H34, H92.
  destruct (N.ltb_spec c 32) as [H32|H32].
  { rewrite <- List.app_assoc, lex_string_escape by lia. now rewrite IHs. }
  apply N.ltb_ge in H32.
  destruct (is_high_surrogate c) eqn:Hhi.
  { destruct (surrogate_raw c (or_introl Hhi)) as (_ & _ & _ & Hc).
    destruct s as [|d s].
    - rewrite lex_string_escape by exact Hc. reflexivity.
    - destruct (is_low_surrogate d) eqn:Hlo.
      + destruct (surrogate_raw d (or_intror Hlo)) as (D1 & D2 & D3 & _).
        simpl app. rewrite lex_string_raw by assumption.
        rewrite lex_string_raw by assumption.
        rewrite IH by (simpl in Hle; lia). reflexivity.
      + rewrite <- List.app_assoc, lex_string_escape by exact Hc. now rewrite IHs. }
  destruct (is_low_surrogate c) eqn:Hlo.
  { destruct (surrogate_raw c (or_intror Hlo)) as (_ & _ & _ & Hc).
    rewrite <- List.app_assoc, lex_string_escape by exact Hc. now rewrite IHs. }
  simpl app. rewrite lex_string_raw by assumption. now rewrite IHs.
Qed.
Lemma value_nested_ind (P : value -> Prop) :
  P VUndefined -> P VNull -> (forall b, P (VBool b)) ->
  (forall n, P (VNumber n)) -> (forall s, P (VString s)) ->
  (forall elems, Forall P elems -> P (VArray elems)) ->
  (forall props, Forall (fun p => P (snd p)) props -> P (VObject props)) ->
  forall v, P v.
Proof.
  intros Hu Hn Hb Hnum Hs Ha Ho. fix IH 1. intros [| |b|n|s|elems|props].
  - exact Hu.
  - exact Hn.
  - apply Hb.
  - apply Hnum.
  - apply Hs.
  - apply Ha. induction elems as [|e elems IHe]; constructor.
    + apply IH.
    + exact IHe.
  - apply Ho. induction props as [|[k v] props IHp]; constructor.
    + apply IH.
    + exact IHp.
Qed.

(** ** Lexing the text of a value *)

Lemma lexes_nil : lexes [] [].
Proof. intros [|f] Hf; [inversion Hf | reflexivity]. Qed.

Lemma lexes_step (c : N) (t : token) (more : jsstring) (rest : jsstring)
    (ts : list token) :
  (forall f, lex (S f) (c :: more) =
             match lex f rest with Some ts' => Some (t :: ts') | None => None end) ->
  (length rest <= length more)%nat ->
  lexes rest ts -> lexes (c :: more) (t :: ts).
Proof.
  intros Hstep Hlen Hrest [|f] Hf; [inversion Hf|].
  rewrite Hstep. rewrite (Hrest f); [reflexivity|]. simpl in Hf. lia.
Qed.

Lemma lexes_lbrace rest ts : lexes rest ts -> lexes (123%N :: rest) (TLBrace :: ts).
Proof. apply lexes_step; [reflexivity | lia]. Qed.

Lemma lexes_rbrace rest ts : lexes rest ts -> lexes (125%N :: rest) (TRBrace :: ts).
Proof. apply lexes_step; [reflexivity | lia]. Qed.

Lemma lexes_lbracket rest ts : lexes rest ts -> lexes (91%N :: rest) (TLBracket :: ts).
Proof. apply lexes_step; [reflexivity | lia]. Qed.

Lemma lexes_rbracket rest ts : lexes rest ts -> lexes (93%N :: rest) (TRBracket :: ts).
Proof. apply lexes_step; [reflexivity | lia]. Qed.

Lemma lexes_colon rest ts : lexes rest ts -> lexes (58%N :: rest) (TColon :: ts).
Proof. apply lexes_step; [reflexivity | lia]. Qed.

Lemma lexes_comma rest ts : lexes rest ts -> lexes (44%N :: rest) (TComma :: ts).
Proof. apply lexes_step; [reflexivity | lia]. Qed.

Lemma lexes_null rest ts :
  lexes rest ts -> lexes (("null" : jsstring) ++ rest) (TNull :: ts).
Proof. apply lexes_step; [reflexivity | simpl; lia]. Qed.

Lemma lexes_true rest ts :
  lexes rest ts -> lexes (("true" : jsstring) ++ rest) (TTrue :: ts).
Proof. apply lexes_step; [reflexivity | simpl; lia]. Qed.

Lemma lexes_false rest ts :
  lexes rest ts -> lexes (("false" : jsstring) ++ rest) (TFalse :: ts).
Proof. apply lexes_step; [reflexivity | simpl; lia]. Qed.

Lemma lexes_quote (s : jsstring) rest ts :
  lexes rest ts -> lexes (quote s ++ rest) (TStr s :: ts).
Proof.
  unfold quote. simpl app. rewrite <- List.app_assoc. simpl app.
  apply lexes_step.
  - intros f. cbn [lex is_json_ws]. unfold next_token. cbn [N.eqb Pos.eqb].
    now rewrite lex_string_quote_body.
  - rewrite List.length_app. simpl. lia.
Qed.
Lemma spells_app a ta b tb :
  spells a ta -> spells b tb -> spells (a ++ b) (ta ++ tb).
Proof.
  intros Ha Hb rest ts H. rewrite <- !List.app_assoc. now apply Ha, Hb.
Qed.

Lemma spells_char (c : N) (t : token) :
  (forall rest ts, lexes rest ts -> lexes (c :: rest) (t :: ts)) ->
  spells [c] [t].
Proof. intros H rest ts Hr. now apply H. Qed.

Lemma spells_join_from (texts : list jsstring) (tokss : list (list token)) :
  Forall2 spells texts tokss ->
  forall p tp, spells p tp ->
  spells (join_comma (p :: texts))
         (tp ++ flat_map (fun ts => TComma :: ts) tokss).
Proof.
  induction 1 as [|q tq texts tokss Hq _ IH]; intros p tp Hp.
  - simpl. now rewrite List.app_nil_r.
  - change (join_comma (p :: q :: texts))
      with (p ++ 44%N :: join_comma (q :: texts)).
    simpl flat_map. apply spells_app; [exact Hp|].
    change (44%N :: join_comma (q :: texts))
      with ([44%N] ++ join_comma (q :: texts)).
    change (TComma :: tq ++ flat_map (fun ts => TComma :: ts) tokss)
      with ([TComma] ++ (tq ++ flat_map (fun ts => TComma :: ts) tokss)).
    apply spells_app; [apply spells_char, lexes_comma | now apply IH].
Qed.

Lemma spells_join (texts : list jsstring) (tokss : list (list token)) :
  Forall2 spells texts tokss ->
  spells (join_comma texts) (join_tokens tokss).
Proof.
  intros [|p tp texts' tokss' Hp H].
  - intros rest ts Hr. exact Hr.
  - now apply spells_join_from.
Qed.

Section Serialize.

Variable numberToString : number -> jsstring.

(** The text of a textual value spells its tokens. *)
Lemma serialize_spells (v : value) :
  textual v = true ->
  exists text, serialize numberToString v = Some text /\ spells text (tokens_of v).
Proof.
  induction v as [| |b|n|s|elems IH|props IH] using value_nested_ind;
    intros Ht; try discriminate Ht.
  - eexists. split; [reflexivity|]. intros rest ts. apply lexes_null.
  - destruct b; (eexists; split; [reflexivity|]); intros rest ts;
      [apply lexes_true | apply lexes_false].
  - eexists. split; [reflexivity|]. intros rest ts. apply lexes_quote.
  - eexists. split; [reflexivity|]. simpl in Ht.
    assert (Hall : Forall2 spells
              (map (fun e => match serialize numberToString e with
                             | Some text => text
                             | None => ("null" : jsstring)
                             end) elems)
              (map tokens_of elems)).
    { induction IH as [|e elems He _ IHl]; simpl; [constructor|].
      simpl in Ht. apply andb_true_iff in Ht as [Hte Htl].
      constructor; [|now apply IHl].
      destruct (He Hte) as (text & -> & Hsp). exact Hsp. }
    simpl tokens_of.
    change (91%N :: ?x ++ [93%N]) with ([91%N] ++ (x ++ [93%N])).
    change (TLBracket :: ?x ++ [TRBracket])
      with ([TLBracket] ++ (x ++ [TRBracket])).
    apply spells_app; [apply spells_char, lexes_lbracket|].
    apply spells_app; [now apply spells_join|].
    apply spells_char, lexes_rbracket.
  - eexists. split; [reflexivity|]. simpl in Ht.
    apply andb_true_iff in Ht as [Ht _].
    assert (Hall : Forall2 spells
              (flat_map (fun p : jsstring * value =>
                           match serialize numberToString (snd p) with
                           | Some text => [quote (fst p) ++ 58%N :: text]
                           | None => []
                           end) props)
              (map (fun p => TStr (fst p) :: TColon :: tokens_of (snd p)) props)).
    { induction IH as [|[k v] props Hv _ IHl]; [constructor|].
      simpl in Ht. apply andb_true_iff in Ht as [Htv Htl].
      cbn [snd fst] in Hv. destruct (Hv Htv) as (text & Hser & Hsp).
      cbn [flat_map map fst snd]. rewrite Hser. cbn [app].
      constructor; [|now apply IHl].
      change (TStr k :: TColon :: tokens_of v)
        with ([TStr k] ++ ([TColon] ++ tokens_of v)).
      change (58%N :: text) with ([58%N] ++ text).
      apply spells_app; [intros rest ts; apply lexes_quote|].
      apply spells_app; [apply spells_char, lexes_colon | exact Hsp]. }
    simpl tokens_of.
    change (123%N :: ?x ++ [125%N]) with ([123%N] ++ (x ++ [125%N])).
    change (TLBrace :: ?x ++ [TRBrace]) with ([TLBrace] ++ (x ++ [TRBrace])).
    apply spells_app; [apply spells_char, lexes_lbrace|].
    apply spells_app; [now apply spells_join|].
    apply spells_char, lexes_rbrace.
Qed.

End Serialize.
(** ** Parsing the tokens of a value *)

Lemma distinct_NoDup (keys : list jsstring) :
  distinct keys = true -> List.NoDup keys.
Proof.
  induction keys as [|k rest IH]; simpl; [constructor|].
  intros H. apply andb_true_iff in H as [Hk Hrest].
  constructor; [|now apply IH].
  intros Hin. apply negb_true_iff in Hk.
  assert (Hex : existsb (jsstring_eqb k) rest = true).
  { apply existsb_exists. exists k. split; [exact Hin|].
    now apply jsstring_eqb_eq. }
  congruence.
Qed.

Lemma set_prop_fresh (k : jsstring) (v : value)
    (props : list (jsstring * value)) :
  ~ In k (map fst props) -> set_prop k v props = props ++ [(k, v)].
Proof.
  induction props as [|[k' v'] rest IH]; simpl; [reflexivity|].
  intros Hin. destruct (jsstring_eqb k k') eqn:Hk.
  - apply jsstring_eqb_eq in Hk. subst. tauto.
  - rewrite IH; [reflexivity | tauto].
Qed.

Lemma fold_set_prop_distinct (members acc : list (jsstring * value)) :
  List.NoDup (map fst (acc ++ members)) ->
  fold_left (fun props m => set_prop (fst m) (snd m) props) members acc
  = acc ++ members.
Proof.
  revert acc. induction members as [|[k v] members IH]; intros acc Hnd; simpl.
  - now rewrite List.app_nil_r.
  - rewrite set_prop_fresh.
    + rewrite IH; rewrite <- List.app_assoc; [reflexivity | exact Hnd].
    + rewrite List.map_app in Hnd. simpl in Hnd.
      apply List.NoDup_remove_2 in Hnd. intros Hin. apply Hnd.
      apply List.in_or_app. now left.
Qed.

Lemma object_of_members_distinct (props : list (jsstring * value)) :
  distinct (map fst props) = true -> object_of_members props = VObject props.
Proof.
  intros H. unfold object_of_members. f_equal.
  apply (fold_set_prop_distinct props []). now apply distinct_NoDup.
Qed.

Lemma tokens_of_head (v : value) :
  textual v = true ->
  exists t ts, tokens_of v = t :: ts /\ t <> TRBracket.
Proof.
  destruct v as [| |b|n|s|elems|props]; try discriminate; intros _;
    try (do 2 eexists; split; [reflexivity | discriminate]).
  destruct b; do 2 eexists; (split; [reflexivity | discriminate]).
Qed.

Lemma parse_value_lbracket (f : nat) (t : token) (r : list token) :
  t <> TRBracket ->
  parse_value (S f) (TLBracket :: t :: r) =
  match parse_value f (t :: r) with
  | Some (v, r1) =>
      match parse_elements f r1 with
      | Some (vs, r2) => Some (VArray (v :: vs), r2)
      | None => None
      end
  | None => None
  end.
Proof. destruct t; intros H; try reflexivity. now destruct H. Qed.

Lemma parse_elements_tokens (more : list value) :
  Forall parses more ->
  forall rest f,
    (length (flat_map (fun ts => TComma :: ts) (map tokens_of more)
             ++ TRBracket :: rest) < f)%nat ->
    parse_elements f (flat_map (fun ts => TComma :: ts) (map tokens_of more)
                      ++ TRBracket :: rest)
    = Some (more, rest).
Proof.
  induction 1 as [|e more He _ IH]; intros rest [|f] Hf;
    try (inversion Hf; fail); simpl in *.
  - reflexivity.
  - rewrite <- List.app_assoc. rewrite He.
    + rewrite IH; [reflexivity|].
      rewrite <- List.app_assoc, List.length_app in Hf. lia.
    + rewrite <- List.app_assoc in Hf. lia.
Qed.

Lemma parse_members_tokens (more : list (jsstring * value)) :
  Forall (fun p => parses (snd p)) more ->
  forall rest f,
    (length (flat_map (fun ts => TComma :: ts)
               (map (fun p => TStr (fst p) :: TColon :: tokens_of (snd p)) more)
             ++ TRBrace :: rest) < f)%nat ->
    parse_members f
      (flat_map (fun ts => TComma :: ts)
         (map (fun p => TStr (fst p) :: TColon :: tokens_of (snd p)) more)
       ++ TRBrace :: rest)
    = Some (more, rest).
Proof.
  induction 1 as [|[k v] more Hv _ IH]; intros rest [|f] Hf;
    try (inversion Hf; fail); simpl in *.
  - reflexivity.
  - rewrite <- List.app_assoc. rewrite Hv.
    + rewrite IH; [reflexivity|].
      rewrite <- List.app_assoc, List.length_app in Hf. lia.
    + rewrite <- List.app_assoc in Hf. lia.
Qed.

Lemma parse_tokens (v : value) : textual v = true -> parses v.
Proof.
  induction v as [| |b|n|s|elems IH|props IH] using value_nested_ind;
    intros Ht; try discriminate Ht; intros rest [|f] Hf;
    try (inversion Hf; fail).
  - reflexivity.
  - destruct b; reflexivity.
  - reflexivity.
  - simpl in Ht.
    assert (Hall : Forall parses elems).
    { clear Hf. induction IH as [|e elems He _ IHl]; [constructor|].
      simpl in Ht. apply andb_true_iff in Ht as [Hte Htl].
      constructor; [now apply He | now apply IHl]. }
    destruct elems as [|e more]; [reflexivity|].
    simpl in Ht. apply andb_true_iff in Ht as [Hte _].
    destruct (tokens_of_head e Hte) as (t & ts & Hhead & Hnot).
    inversion Hall as [|? ? He Hmore]; subst.
    cbn [tokens_of map join_tokens app] in *.
    set (F := flat_map (fun ts0 => TComma :: ts0) (map tokens_of more)) in *.
    rewrite <- !List.app_assoc. cbn [app].
    assert (Hlen : (length (tokens_of e ++ (F ++ TRBracket :: rest)) < f)%nat)
      by (cbn [length] in Hf; rewrite !List.length_app in *;
          cbn [length] in *; lia).
    assert (Hlen' : (length (F ++ TRBracket :: rest) < f)%nat)
      by (rewrite List.length_app in Hlen; lia).
    pose proof (He _ _ Hlen) as Hparse. revert Hparse.
    rewrite Hhead. cbn [app]. intros Hparse.
    rewrite parse_value_lbracket by exact Hnot. rewrite Hparse.
    unfold F. now rewrite parse_elements_tokens.
  - simpl in Ht. apply andb_true_iff in Ht as [Ht Hdist].
    assert (Hall : Forall (fun p => parses (snd p)) props).
    { clear Hf Hdist. induction IH as [|[k v] props Hv _ IHl]; [constructor|].
      simpl in Ht. apply andb_true_iff in Ht as [Htv Htl].
      constructor; [now apply Hv | now apply IHl]. }
    destruct props as [|[k v] more]; [reflexivity|].
    inversion Hall as [|? ? Hv Hmore]; subst. cbn [snd] in Hv.
    cbn [tokens_of map join_tokens app fst snd] in *.
    set (F := flat_map (fun ts0 => TComma :: ts0)
                (map (fun p => TStr (fst p) :: TColon :: tokens_of (snd p)) more))
      in *.
    rewrite <- !List.app_assoc. cbn [app].
    assert (Hlen : (length (tokens_of v ++ (F ++ TRBrace :: rest)) < f)%nat)
      by (cbn [length] in Hf; rewrite !List.length_app in *;
          cbn [length] in *; lia).
    assert (Hlen' : (length (F ++ TRBrace :: rest) < f)%nat)
      by (rewrite List.length_app in Hlen; lia).
    cbn [parse_value]. rewrite (Hv _ _ Hlen).
    unfold F. rewrite parse_members_tokens by assumption.
    now rewrite object_of_members_distinct.
Qed.
Section RoundTrip.

Variable numberToString : number -> jsstring.

(** The text that [JSON.stringify] gives for a textual value is not
    empty, and [JSON.parse] reads the value back from it. *)
Theorem parse_stringify (v : value) :
  textual v = true ->
  exists text,
    JSON_stringify numberToString v = Some text
    /\ text <> []
    /\ JSON_parse text = Ok v.
Proof.
  intros Ht.
  destruct (serialize_spells numberToString v Ht) as (text & Hser & Hsp).
  exists text. split; [exact Hser|].
  specialize (Hsp [] [] lexes_nil). rewrite !List.app_nil_r in Hsp.
  assert (Hlex : lex (S (length text)) text = Some (tokens_of v))
    by (apply Hsp; lia).
  split.
  - intros ->. destruct (tokens_of_head v Ht) as (t & ts & Hhead & _).
    rewrite Hhead in Hlex. discriminate Hlex.
  - unfold JSON_parse. rewrite Hlex.
    pose proof (parse_tokens v Ht [] (S (length (tokens_of v)))) as Hp.
    rewrite List.app_nil_r in Hp. rewrite Hp; [reflexivity | lia].
Qed.

End RoundTrip.

(** ** Fuel *)

Ltac split_match H :=
  repeat match type of H with
         | context [match ?x with _ => _ end] =>
             destruct x eqn:?; try discriminate H
         end.

Lemma lex_string_shorter (s body rest : jsstring) :
  lex_string s = Some (body, rest) -> (length rest < length s)%nat.
Proof.
  remember (length s) as n eqn:Hn.
  assert (Hle : (length s <= n)%nat) by lia. clear Hn.
  revert s body rest Hle. induction n as [|n IH]; intros s body rest Hle H.
  { destruct s; [discriminate H | simpl in Hle; lia]. }
  destruct s as [|c s]; [discriminate H|]. simpl in H, Hle.
  unfold prepend in H. split_match H; subst; simpl in *;
    try (injection H as <- <-);
    try (match goal with
         | E : lex_string ?r = Some (_, _) |- _ =>
             apply IH in E; [simpl in *; lia | simpl in *; lia]
         end);
    try lia.
Qed.
Lemma take_digits_shorter (s : jsstring) (ds : list Z) (rest : jsstring) :
  take_digits s = (ds, rest) ->
  (length rest <= length s)%nat /\ (ds <> [] -> (length rest < length s)%nat).
Proof.
  revert ds rest. induction s as [|c s IH]; intros ds rest H; simpl in H.
  - injection H as <- <-. split; [lia | congruence].
  - destruct (is_digit c).
    + destruct (take_digits s) as [ds' rest'] eqn:E. injection H as <- <-.
      destruct (IH ds' rest' eq_refl) as [Hle _]. simpl. split; intros; lia.
    + injection H as <- <-. split; [simpl; lia | congruence].
Qed.

Lemma lex_digits_shorter (s : jsstring) (ds : list Z) (rest : jsstring) :
  lex_digits s = Some (ds, rest) -> (length rest < length s)%nat.
Proof.
  unfold lex_digits. intros H.
  destruct (take_digits s) as [ds' rest'] eqn:E.
  apply take_digits_shorter in E as [_ E].
  destruct ds'; [discriminate H|]. injection H as <- <-.
  apply E. discriminate.
Qed.

Lemma lex_int_shorter (s : jsstring) (ds : list Z) (rest : jsstring) :
  lex_int s = Some (ds, rest) -> (length rest < length s)%nat.
Proof.
  unfold lex_int. intros H. destruct s as [|c s]; [discriminate H|].
  destruct (c =? 48)%N; [injection H as <- <-; simpl; lia|].
  destruct (is_digit c) eqn:D; [|discriminate H].
  injection H as H. simpl take_digits in H. rewrite D in H.
  destruct (take_digits s) as [ds' rest'] eqn:E. injection H as <- <-.
  apply take_digits_shorter in E as [E _]. simpl. lia.
Qed.

Lemma lex_frac_shorter (s : jsstring) (ds : list Z) (rest : jsstring) :
  lex_frac s = Some (ds, rest) -> (length rest <= length s)%nat.
Proof.
  unfold lex_frac. intros H. destruct s as [|c s].
  - injection H as <- <-. lia.
  - destruct (c =? 46)%N.
    + apply lex_digits_shorter in H. simpl. lia.
    + injection H as <- <-. lia.
Qed.

Lemma lex_exp_shorter (s : jsstring) (e : Z) (rest : jsstring) :
  lex_exp s = Some (e, rest) -> (length rest <= length s)%nat.
Proof.
  unfold lex_exp. intros H. destruct s as [|c s].
  - injection H as <- <-. lia.
  - destruct ((c =? 101)%N || (c =? 69)%N).
    + destruct s as [|d s'].
      * destruct (lex_digits []) as [[ds r]|] eqn:E; [|discriminate H].
        apply lex_digits_shorter in E. simpl in E. lia.
      * destruct (d =? 43)%N; [|destruct (d =? 45)%N];
          match type of H with
          | context [lex_digits ?t] =>
              destruct (lex_digits t) as [[ds r]|] eqn:E; [|discriminate H]
          end;
          injection H as _ <-; apply lex_digits_shorter in E; simpl in *; lia.
    + injection H as <- <-. lia.
Qed.

Lemma lex_number_shorter (s : jsstring) (n : number) (rest : jsstring) :
  lex_number s = Some (n, rest) -> (length rest < length s)%nat.
Proof.
  unfold lex_number. intros H.
  destruct (match s with
            | c :: t => if (c =? 45)%N then (true, t) else (false, s)
            | [] => (false, s)
            end) as [neg s1] eqn:Hsign.
  assert (Hs1 : (length s1 <= length s)%nat).
  { destruct s as [|c t]; [injection Hsign as <- <-; lia|].
    destruct (c =? 45)%N; injection Hsign as <- <-; simpl; lia. }
  destruct (lex_int s1) as [[ints s2]|] eqn:Hi; [|discriminate H].
  destruct (lex_frac s2) as [[fracs s3]|] eqn:Hf; [|discriminate H].
  destruct (lex_exp s3) as [[e s4]|] eqn:He; [|discriminate H].
  injection H as _ <-.
  apply lex_int_shorter in Hi. apply lex_frac_shorter in Hf.
  apply lex_exp_shorter in He. lia.
Qed.

Lemma next_token_shorter (c : N) (rest : jsstring) (t : token)
    (rest' : jsstring) :
  next_token c rest = Some (t, rest') -> (length rest' <= length rest)%nat.
Proof.
  unfold next_token. intros H.
  repeat match type of H with
         | context [if ?b then _ else _] =>
             destruct b; [try (injection H as <- <-; lia)|]
         end;
    try (destruct (lex_string rest) as [[str r]|] eqn:E; [|discriminate H];
         injection H as _ <-; apply lex_string_shorter in E; lia);
    try (split_match H; subst; injection H as _ <-; simpl; lia).
  destruct (lex_number (c :: rest)) as [[n r]|] eqn:E; [|discriminate H].
  injection H as _ <-. apply lex_number_shorter in E. simpl in E. lia.
Qed.

(** The result of the lexer does not depend on the fuel, once above the
    length of the text: the fuel is never what makes a text fail. *)
Lemma lex_fuel (f : nat) :
  forall (s : jsstring) (ts : list token),
    lex f s = Some ts ->
    forall g, (length s < g)%nat -> lex g s = Some ts.
Proof.
  induction f as [|f IH]; intros s ts H g Hg; [discriminate H|].
  destruct g as [|g]; [lia|].
  destruct s as [|c rest]; [exact H|]. simpl in H, Hg |- *.
  destruct (is_json_ws c).
  - apply (IH _ _ H). lia.
  - destruct (next_token c rest) as [[t rest']|] eqn:E; [|discriminate H].
    apply next_token_shorter in E.
    destruct (lex f rest') as [ts'|] eqn:L; [|discriminate H].
    rewrite (IH _ _ L g); [exact H | lia].
Qed.
(** Each parser consumes tokens, and its result does not depend on the
    fuel once above the number of tokens. *)
Lemma parse_fuel (f : nat) :
  (forall ts v r,
     parse_value f ts = Some (v, r) ->
     (length r < length ts)%nat
     /\ forall g, (length ts < g)%nat -> parse_value g ts = Some (v, r))
  /\ (forall ts vs r,
        parse_elements f ts = Some (vs, r) ->
        (length r < length ts)%nat
        /\ forall g, (length ts < g)%nat -> parse_elements g ts = Some (vs, r))
  /\ (forall ts ms r,
        parse_members f ts = Some (ms, r) ->
        (length r < length ts)%nat
        /\ forall g, (length ts < g)%nat -> parse_members g ts = Some (ms, r)).
Proof.
  induction f as [|f (IHv & IHe & IHm)];
    [repeat split; intros; discriminate|].
  split; [|split].
  - intros ts v r H. simpl in H.
    destruct ts as [|t ts]; [discriminate H|].
    destruct t; try discriminate H;
      try (injection H as <- <-; split;
           [simpl; lia | intros [|g] Hg; [simpl in Hg; lia | reflexivity]]).
    + (* object *)
      destruct ts as [|t1 ts]; [discriminate H|].
      destruct t1; try discriminate H.
      * injection H as <- <-. split; [simpl; lia|].
        intros [|g] Hg; [simpl in Hg; lia | reflexivity].
      * destruct ts as [|t2 ts]; [discriminate H|].
        destruct t2; try discriminate H.
        destruct (parse_value f ts) as [[v1 r1]|] eqn:Ev; [|discriminate H].
        destruct (parse_members f r1) as [[ms r2]|] eqn:Em; [|discriminate H].
        injection H as <- <-.
        destruct (IHv _ _ _ Ev) as [Lv Fv]. destruct (IHm _ _ _ Em) as [Lm Fm].
        split; [simpl; lia|].
        intros [|g] Hg; [simpl in Hg; lia|]. simpl in Hg |- *.
        rewrite (Fv g) by lia. rewrite (Fm g) by lia. reflexivity.
    + (* array *)
      assert (Hgen :
        match parse_value f ts with
        | Some (v1, r1) =>
            match parse_elements f r1 with
            | Some (vs, r2) => Some (VArray (v1 :: vs), r2)
            | None => None
            end
        | None => None
        end = Some (v, r) ->
        (length r < length (TLBracket :: ts))%nat
        /\ forall g, (length (TLBracket :: ts) < S g)%nat ->
             match parse_value g ts with
             | Some (v1, r1) =>
                 match parse_elements g r1 with
                 | Some (vs, r2) => Some (VArray (v1 :: vs), r2)
                 | None => None
                 end
             | None => None
             end = Some (v, r)).
      { intros H'.
        destruct (parse_value f ts) as [[v1 r1]|] eqn:Ev; [|discriminate H'].
        destruct (parse_elements f r1) as [[vs r2]|] eqn:Ee; [|discriminate H'].
        injection H' as <- <-.
        destruct (IHv _ _ _ Ev) as [Lv Fv]. destruct (IHe _ _ _ Ee) as [Le Fe].
        split; [simpl in *; lia|].
        intros g Hg. simpl in Hg.
        rewrite (Fv g) by lia. rewrite (Fe g) by lia. reflexivity. }
      destruct ts as [|t1 ts].
      * destruct (Hgen H) as [L F]. split; [exact L|].
        intros [|g] Hg; [simpl in Hg; lia | exact (F g Hg)].
      * destruct t1;
          try (destruct (Hgen H) as [L F]; split; [exact L|];
               intros [|g] Hg; [simpl in Hg; lia | exact (F g Hg)]).
        injection H as <- <-. split; [simpl; lia|].
        intros [|g] Hg; [simpl in Hg; lia | reflexivity].
  - intros ts vs r H. simpl in H.
    destruct ts as [|t ts]; [discriminate H|].
    destruct t; try discriminate H.
    + injection H as <- <-. split; [simpl; lia|].
      intros [|g] Hg; [simpl in Hg; lia | reflexivity].
    + destruct (parse_value f ts) as [[v1 r1]|] eqn:Ev; [|discriminate H].
      destruct (parse_elements f r1) as [[vs' r2]|] eqn:Ee; [|discriminate H].
      injection H as <- <-.
      destruct (IHv _ _ _ Ev) as [Lv Fv]. destruct (IHe _ _ _ Ee) as [Le Fe].
      split; [simpl; lia|].
      intros [|g] Hg; [simpl in Hg; lia|]. simpl in Hg |- *.
      rewrite (Fv g) by lia. rewrite (Fe g) by lia. reflexivity.
  - intros ts ms r H. simpl in H.
    destruct ts as [|t ts]; [discriminate H|].
    destruct t; try discriminate H.
    + injection H as <- <-. split; [simpl; lia|].
      intros [|g] Hg; [simpl in Hg; lia | reflexivity].
    + destruct ts as [|t1 ts]; [discriminate H|].
      destruct t1; try discriminate H.
      destruct ts as [|t2 ts]; [discriminate H|].
      destruct t2; try discriminate H.
      destruct (parse_value f ts) as [[v1 r1]|] eqn:Ev; [|discriminate H].
      destruct (parse_members f r1) as [[ms' r2]|] eqn:Em; [|discriminate H].
      injection H as <- <-.
      destruct (IHv _ _ _ Ev) as [Lv Fv]. destruct (IHm _ _ _ Em) as [Lm Fm].
      split; [simpl; lia|].
      intros [|g] Hg; [simpl in Hg; lia|]. simpl in Hg |- *.
      rewrite (Fv g) by lia. rewrite (Fm g) by lia. reflexivity.
Qed.

(** [JSON_parse] accepts a text whenever some amount of fuel does: its
    own choice of fuel loses nothing. *)
Theorem JSON_parse_any_fuel (text : jsstring) (v : value) :
  (exists f g ts,
     lex f text = Some ts /\ parse_value g ts = Some (v, []))
  <-> JSON_parse text = Ok v.
Proof.
  unfold JSON_parse. split.
  - intros (f & g & ts & Hl & Hp).
    rewrite (lex_fuel f text ts Hl (S (length text))) by lia.
    destruct (parse_fuel g) as (Hv & _ & _).
    destruct (Hv ts v [] Hp) as [_ F].
    rewrite (F (S (length ts))) by lia. reflexivity.
  - intros H.
    destruct (lex (S (length text)) text) as [ts|] eqn:Hl; [|discriminate H].
    destruct (parse_value (S (length ts)) ts) as [[v' r]|] eqn:Hp;
      [|discriminate H].
    destruct r; [|discriminate H]. injection H as ->.
    exists (S (length text)), (S (length ts)), ts. split; assumption.
Qed.

End JsonFacts.

Module ChatFacts.
Import Str Json JsonSpec JsonFacts Chat ChatSpec.

Lemma greeting_message : message_value greetingMessage = greeting.
Proof. reflexivity. Qed.

Lemma textual_message (m : ChatMessage) : textual (message_value m) = true.
Proof.
  destruct m as [r t [srcs|]]; [|destruct r; reflexivity].
  assert (H : forallb textual (map source_value srcs) = true)
    by (induction srcs as [|s srcs IH]; [reflexivity | exact IH]).
  destruct r; simpl; rewrite H; reflexivity.
Qed.

Lemma textual_messages (ms : list ChatMessage) :
  forallb textual (map message_value ms) = true.
Proof.
  induction ms as [|m ms IH]; [reflexivity|].
  simpl map. cbn [forallb]. now rewrite textual_message, IH.
Qed.

Section Persistence.

Variable numberToString : number -> jsstring.

Lemma saveEffect_nil (st : Storage) : saveEffect numberToString [] st = st.
Proof. reflexivity. Qed.

(** What the save effect wrote is what a new panel loads. *)
Lemma loadHistory_saveEffect (msgs : list value) (st : Storage) :
  msgs <> [] ->
  forallb textual msgs = true ->
  loadHistory (saveEffect numberToString msgs st) = Some msgs.
Proof.
  intros Hne Ht.
  destruct (parse_stringify numberToString (VArray msgs) Ht)
    as (text & Hs & Hnil & Hp).
  unfold saveEffect. destruct msgs as [|m msgs]; [contradiction|].
  cbn [length Nat.ltb Nat.leb]. rewrite Hs.
  unfold loadHistory. rewrite lookup_insert_eq.
  destruct text as [|c text]; [contradiction|]. cbn [truthy].
  now rewrite Hp.
Qed.

(** The invariant of a mounted panel: local storage holds its messages. *)
Lemma loadHistory_saveEffect_any (msgs : list value) (st : Storage) :
  forallb textual msgs = true ->
  loadHistory st = Some msgs ->
  loadHistory (saveEffect numberToString msgs st) = Some msgs.
Proof.
  intros Ht Hl. destruct msgs as [|m msgs]; [exact Hl|].
  now apply loadHistory_saveEffect.
Qed.

Lemma appendAll_messages (ms : list value) (c : ChatState) (st : Storage) :
  forallb textual (messages c) = true ->
  forallb textual ms = true ->
  loadHistory st = Some (messages c) ->
  exists c' st',
    appendAll numberToString ms (c, st) = (c', st')
    /\ messages c' = messages c ++ ms
    /\ hasSession c' = hasSession c
    /\ loadHistory st' = Some (messages c').
Proof.
  revert c st. induction ms as [|m ms IH]; intros c st Hc Hms Hl.
  - exists c, st. rewrite List.app_nil_r. repeat split; assumption.
  - simpl in Hms. apply andb_true_iff in Hms as [Hm Hms].
    unfold appendAll. simpl fold_left. unfold appendMessage at 2.
    cbn [fst snd].
    assert (Ht : forallb textual (messages c ++ [m]) = true).
    { rewrite forallb_app, Hc. simpl. now rewrite Hm. }
    destruct (IH (mkChat (messages c ++ [m]) (hasSession c))
                 (saveEffect numberToString (messages c ++ [m]) st))
      as (c' & st' & Hrun & Hmsgs & Hsess & Hload).
    + exact Ht.
    + exact Hms.
    + apply loadHistory_saveEffect; [|exact Ht].
      intros H. now apply List.app_eq_nil in H as [_ H].
    + exists c', st'. split; [exact Hrun|]. simpl in Hmsgs, Hsess.
      split; [now rewrite Hmsgs, <- List.app_assoc|].
      split; [exact Hsess | exact Hload].
Qed.

(** C6. A chat panel starts from the history in local storage (the
    greeting on a first run); after any sequence of chat messages
    appended one by one, each append followed by the save effect, a panel
    mounted in a new session starts from the same messages, in the same
    order: the earlier history followed by the appended messages. *)
Theorem chat_history_round_trip
    (st0 : Storage) (history appended : list ChatMessage)
    (session session' : bool) :
  loadHistory st0 = Some (map message_value history) ->
  exists c0 st1 c st c' st',
    mount numberToString session st0 = Some (c0, st1)
    /\ appendAll numberToString (map message_value appended) (c0, st1) = (c, st)
    /\ messages c = map message_value (history ++ appended)
    /\ mount numberToString session' st = Some (c', st')
    /\ messages c' = map message_value (history ++ appended).
Proof.
  intros Hl. unfold mount at 1. rewrite Hl. rewrite saveEffect_nil.
  set (c0 := mkChat (map message_value history) session).
  set (st1 := saveEffect numberToString (map message_value history) st0).
  assert (Hl1 : loadHistory st1 = Some (messages c0)).
  { apply loadHistory_saveEffect_any; [apply textual_messages | exact Hl]. }
  destruct (appendAll_messages (map message_value appended) c0 st1)
    as (c & st & Hrun & Hmsgs & _ & Hload);
    [apply textual_messages | apply textual_messages | exact Hl1 |].
  simpl in Hmsgs. rewrite <- List.map_app in Hmsgs.
  exists c0, st1, c, st.
  exists (mkChat (messages c) session'),
         (saveEffect numberToString (messages c) st).
  split; [reflexivity|]. split; [exact Hrun|]. split; [exact Hmsgs|].
  split; [|exact Hmsgs].
  unfold mount. rewrite Hload, saveEffect_nil. reflexivity.
Qed.

(** The reply of the chat session to a message. *)
Variable sendMessage : jsstring -> result value.

Lemma appendMessage_persists (m : value) (c : ChatState) (st : Storage) :
  forallb textual (messages c) = true ->
  textual m = true ->
  loadHistory (snd (appendMessage numberToString m c st))
  = Some (messages (fst (appendMessage numberToString m c st)))
  /\ messages (fst (appendMessage numberToString m c st)) = messages c ++ [m]
  /\ forallb textual (messages (fst (appendMessage numberToString m c st)))
     = true.
Proof.
  intros Hc Hm. unfold appendMessage. cbn [fst snd messages].
  assert (Ht : forallb textual (messages c ++ [m]) = true).
  { rewrite forallb_app, Hc. simpl. now rewrite Hm. }
  split; [|split; [reflexivity | exact Ht]].
  apply loadHistory_saveEffect; [|exact Ht].
  intros H. now apply List.app_eq_nil in H as [_ H].
Qed.

(** A message sent in the panel: the question and the reply (or the
    apology) are appended, and local storage holds the new history,
    provided the reply is made of text. An input that is blank, or a
    panel without session, changes nothing. *)
Lemma handleSend_persists (input : jsstring) (c : ChatState) (st : Storage) :
  forallb textual (messages c) = true ->
  loadHistory st = Some (messages c) ->
  (forall reply m,
     sendMessage input = Ok reply -> modelMessage reply = Ok m ->
     textual m = true) ->
  let c' := fst (handleSend numberToString sendMessage input c st) in
  let st' := snd (handleSend numberToString sendMessage input c st) in
  loadHistory st' = Some (messages c')
  /\ (c' = c
      \/ exists answer,
           messages c'
           = messages c
             ++ [VObject [("role" : jsstring, VString "user");
                          ("text" : jsstring, VString input)];
                 answer]).
Proof.
  intros Hc Hl Hreply. unfold handleSend.
  destruct (negb (truthy (VString (trim input))) || negb (hasSession c));
    [split; [exact Hl | now left]|].
  set (userMsg := VObject [("role" : jsstring, VString "user");
                           ("text" : jsstring, VString input)]).
  destruct (appendMessage_persists userMsg c st Hc eq_refl)
    as (Hl1 & Hm1 & Ht1).
  destruct (appendMessage numberToString userMsg c st) as [c1 st1] eqn:E1.
  cbn [fst snd] in Hl1, Hm1, Ht1.
  assert (Hans : exists answer,
             try_catch (reply <- sendMessage input ;; modelMessage reply)
                       (fun _ => Ok apology) = Ok answer
             /\ textual answer = true).
  { destruct (sendMessage input) as [reply|e] eqn:Es; simpl.
    - destruct (modelMessage reply) as [m|e] eqn:Em; simpl.
      + exists m. split; [reflexivity | now apply (Hreply reply m)].
      + exists apology. now split.
    - exists apology. now split. }
  destruct Hans as (answer & -> & Hta).
  destruct (appendMessage_persists answer c1 st1 Ht1 Hta) as (Hl2 & Hm2 & _).
  split; [exact Hl2|]. right. exists answer.
  rewrite Hm2, Hm1, <- List.app_assoc. reflexivity.
Qed.
End Persistence.

Lemma chat_history_round_trip_witness :
  exists c0 st1 c st c' st',
    mount (fun _ => []) true ∅ = Some (c0, st1)
    /\ appendAll (fun _ => [])
         (map message_value [firstQuestion; firstAnswer]) (c0, st1) = (c, st)
    /\ messages c
       = map message_value ([greetingMessage] ++ [firstQuestion; firstAnswer])
    /\ mount (fun _ => []) true st = Some (c', st')
    /\ messages c'
       = map message_value ([greetingMessage] ++ [firstQuestion; firstAnswer]).
Proof.
  apply (chat_history_round_trip (fun _ => []) ∅ [greetingMessage]
           [firstQuestion; firstAnswer] true true).
  reflexivity.
Defined.

End ChatFacts.

Module AppFacts.
Import Json Gemini Chat ChatSpec App AppSpec.



End AppFacts.

(* ===================================================================== *)
(** * Further properties of the sanitizer *)
(* ===================================================================== *)

Module SanitizerLaws.
Import Types Sanitizer SanitizerSpec SanitizerFacts SanitizerShape.

(** Reads of a property from a property list that is written out. *)
Ltac read_props :=
  repeat match goal with
  | |- context [lookup_prop ?k ((?k', ?v) :: ?rest)] =>
      first [ change (lookup_prop k ((k', v) :: rest)) with v
            | change (lookup_prop k ((k', v) :: rest)) with (lookup_prop k rest) ]
  | |- context [lookup_prop ?k []] =>
      change (lookup_prop k []) with VUndefined
  end.

(** The conjuncts of a boolean conjunction, one goal each. *)
Ltac split_andb :=
  repeat match goal with
  | |- (_ && _) = true => apply andb_true_iff; split
  end.

Lemma filteredArray_projectionsOf (x : value) :
  noNullElement x = true ->
  filteredArray projectionGuard x = Ok (projectionsOf x).
Proof.
  destruct x; simpl; try reflexivity. intros H.
  now rewrite (filterM_projectionGuard elems H).
Qed.

Lemma filteredArray_objectsOf (x : value) :
  filteredArray objectGuard x = Ok (objectsOf x).
Proof.
  destruct x; simpl; try reflexivity. now rewrite filterM_objectGuard.
Qed.

(** The plan of a payload the sanitizer accepts. *)
Lemma sanitize_planOf (data : value) (summary : jsstring) :
  sanitizable data = true ->
  validateAndSanitizePlan data summary = Ok (planOf (propsOf data) summary).
Proof.
  intros H. destruct data; try discriminate H; try reflexivity.
  simpl in H. apply andb_true_iff in H as [Ha Hp].
  unfold validateAndSanitizePlan. simpl get. simpl bind at 1.
  rewrite (allocations_no_null _ Ha).
  rewrite (filteredArray_projectionsOf _ Hp).
  rewrite !filteredArray_objectsOf. reflexivity.
Qed.

Lemma sanitize_Ok_inv (data : value) (summary : jsstring) (plan : value) :
  validateAndSanitizePlan data summary = Ok plan ->
  sanitizable data = true /\ plan = planOf (propsOf data) summary.
Proof.
  intros H. destruct (sanitizable data) eqn:Hs.
  - split; [reflexivity|]. rewrite (sanitize_planOf data summary Hs) in H.
    now injection H as <-.
  - rewrite (sanitize_throws data summary Hs) in H. discriminate H.
Qed.

(** X1. The sanitizer returns a plan exactly on the payloads that are
    neither [null] nor [undefined] and have no [null] among the elements
    of [allocations] and of [projections]; on every other payload it
    throws, and what it throws is a TypeError. *)
Theorem sanitizer_domain (data : value) (summary : jsstring) :
  ((exists plan, validateAndSanitizePlan data summary = Ok plan)
   <-> sanitizable data = true)
  /\ (validateAndSanitizePlan data summary = Throw TypeError
      <-> sanitizable data = false).
Proof.
  destruct (sanitizable data) eqn:Hs.
  - rewrite (sanitize_planOf data summary Hs). repeat split;
      try discriminate; eauto.
  - rewrite (sanitize_throws data summary Hs). repeat split;
      try discriminate; try congruence.
    intros [plan H]. discriminate H.
Qed.

(** ** The shape of the plan *)

Lemma cleanAllocation_object (props : list (jsstring * value)) :
  cleanAllocation (VObject props)
  = VObject
      [ ("ticker" : jsstring, js_or (lookup_prop "ticker" props) (VString "N/A"));
        ("name" : jsstring, js_or (lookup_prop "name" props) (VString "N/A"));
        ("sector" : jsstring, js_or (lookup_prop "sector" props) (VString "N/A"));
        ("percentage" : jsstring,
           js_or (lookup_prop "percentage" props) (VNumber (S754_zero false)));
        ("type" : jsstring, js_or (lookup_prop "type" props) (VString "ETF"));
        ("rationale" : jsstring,
           js_or (lookup_prop "rationale" props)
                 (VString "No rationale provided."));
        ("accountType" : jsstring,
           js_or (lookup_prop "accountType" props) (VString "Brokerage"));
        ("dividendYield" : jsstring, lookup_prop "dividendYield" props);
        ("technicalAnalysis" : jsstring,
           objectOr (lookup_prop "technicalAnalysis" props)
                    placeholderTechnicalAnalysis);
        ("marketSentiment" : jsstring,
           objectOr (lookup_prop "marketSentiment" props)
                    placeholderMarketSentiment) ].
Proof. reflexivity. Qed.

Lemma truthy_js_or (x d : value) : truthy d = true -> truthy (js_or x d) = true.
Proof. intros Hd. unfold js_or. now destruct (truthy x) eqn:E. Qed.

Lemma isRecord_objectOr (x d : value) :
  isRecord d = true -> isRecord (objectOr x d) = true.
Proof. intros Hd. destruct x; try exact Hd; reflexivity. Qed.

Lemma isRecord_or_default (x d : value) :
  isRecord d = true ->
  isRecord (js_or (js_and (VBool (typeof_object x)) x) d) = true.
Proof. intros Hd. destruct x; try exact Hd; reflexivity. Qed.

Lemma truthyOrZero_js_or (x : value) :
  truthyOrZero (js_or x (VNumber (S754_zero false))) = true.
Proof.
  unfold js_or. destruct (truthy x) eqn:E; [|reflexivity].
  unfold truthyOrZero. now rewrite E.
Qed.

Lemma truthyOrEmpty_js_or (x : value) :
  truthyOrEmpty (js_or x (VString "")) = true.
Proof.
  unfold js_or. destruct (truthy x) eqn:E; [|reflexivity].
  unfold truthyOrEmpty. now rewrite E.
Qed.

Lemma shapedAllocation_clean (a : value) :
  keepAllocation a = true -> shapedAllocation (cleanAllocation a) = true.
Proof.
  destruct a; try discriminate. simpl keepAllocation. intros Hk.
  rewrite cleanAllocation_object. unfold shapedAllocation, propsOf.
  read_props.
  rewrite (js_or_truthy _ _ Hk), Hk.
  rewrite !truthy_js_or by reflexivity.
  rewrite !isRecord_objectOr by reflexivity.
  now rewrite truthyOrZero_js_or.
Qed.

Lemma forallb_map_filter {A B : Type} (keep : A -> bool) (f : A -> B)
    (p : B -> bool) (l : list A) :
  (forall a, keep a = true -> p (f a) = true) ->
  forallb p (map f (List.filter keep l)) = true.
Proof.
  intros H. induction l as [|a l IH]; simpl; [reflexivity|].
  destruct (keep a) eqn:E; [|exact IH]. simpl. now rewrite (H a E), IH.
Qed.

Lemma forallb_filter_same {A : Type} (keep : A -> bool) (l : list A) :
  forallb keep (List.filter keep l) = true.
Proof.
  induction l as [|a l IH]; simpl; [reflexivity|].
  destruct (keep a) eqn:E; [|exact IH]. simpl. now rewrite E, IH.
Qed.

Lemma shapedPlan_planOf (props : list (jsstring * value)) (summary : jsstring) :
  shapedPlan (planOf props summary) = true.
Proof.
  unfold shapedPlan, planOf, propsOf. read_props. split_andb.
  - reflexivity.
  - destruct summary; reflexivity.
  - apply truthyOrEmpty_js_or.
  - destruct (isArray (lookup_prop "actionableSteps" props)) eqn:E;
      [exact E | reflexivity].
  - now apply isRecord_or_default.
  - destruct (lookup_prop "allocations" props); try reflexivity.
    apply forallb_map_filter. exact shapedAllocation_clean.
  - destruct (lookup_prop "projections" props); try reflexivity.
    apply forallb_filter_same.
  - reflexivity.
  - now apply isRecord_or_default.
  - destruct (lookup_prop "secEvents" props); try reflexivity.
    apply forallb_filter_same.
  - destruct (lookup_prop "sectorTrends" props); try reflexivity.
    apply forallb_filter_same.
  - destruct (lookup_prop "portfolioAnalysis" props); reflexivity.
Qed.

(** X2. Whatever the payload, a plan the sanitizer returns has the shape
    the dashboard reads: the eleven properties of a plan, in order; a
    summary that is a non-empty string; arrays for the steps, the
    allocations, the projections, the sources (empty), the filings and
    the sector trends; records for the SWOT and the market analysis;
    allocations with their ten properties, none of the displayed ones
    empty, and records for the technical analysis and the sentiment;
    projections that are objects with a truthy year. *)
Theorem sanitized_plan_shape (data : value) (summary : jsstring) (plan : value) :
  validateAndSanitizePlan data summary = Ok plan ->
  shapedPlan plan = true.
Proof.
  intros H. apply sanitize_Ok_inv in H as [_ ->]. apply shapedPlan_planOf.
Qed.

Lemma sanitized_plan_shape_witness :
  shapedPlan
    (VObject
       [ ("summary" : jsstring, VString "Plan.");
         ("riskAnalysis" : jsstring, VString "");
         ("actionableSteps" : jsstring, VArray []);
         ("swot" : jsstring, defaultSwot);
         ("allocations" : jsstring, VArray [GeminiSpec.vtiAllocation]);
         ("projections" : jsstring, VArray []);
         ("sources" : jsstring, VArray []);
         ("marketAnalysis" : jsstring, defaultMarketAnalysis);
         ("secEvents" : jsstring, VArray []);
         ("sectorTrends" : jsstring, VArray []);
         ("portfolioAnalysis" : jsstring, VUndefined) ]) = true.
Proof.
  apply (sanitized_plan_shape
           (VObject [("allocations" : jsstring, VArray [GeminiSpec.vtiEntry])])
           "Plan.").
  reflexivity.
Defined.

(** ** Sanitizing twice *)

Lemma js_or_idem (x d : value) : js_or (js_or x d) d = js_or x d.
Proof.
  unfold js_or. destruct (truthy x) eqn:E; [now rewrite E|].
  now destruct (truthy d).
Qed.

Lemma objectOr_idem (x d : value) :
  isRecord d = true -> objectOr (objectOr x d) d = objectOr x d.
Proof.
  intros Hd. destruct x; try reflexivity;
    (change (objectOr d d = d); destruct d; try discriminate Hd; reflexivity).
Qed.

Lemma or_default_idem (x d : value) :
  isRecord d = true ->
  js_or (js_and (VBool (typeof_object
                          (js_or (js_and (VBool (typeof_object x)) x) d)))
                (js_or (js_and (VBool (typeof_object x)) x) d))
        d
  = js_or (js_and (VBool (typeof_object x)) x) d.
Proof.
  intros Hd. destruct x; try reflexivity;
    (change (js_or (js_and (VBool (typeof_object d)) d) d = d);
     destruct d; try discriminate Hd; reflexivity).
Qed.

Lemma cleanAllocation_clean (a : value) :
  keepAllocation a = true ->
  keepAllocation (cleanAllocation a) = true
  /\ cleanAllocation (cleanAllocation a) = cleanAllocation a.
Proof.
  destruct a; try discriminate. simpl keepAllocation. intros Hk.
  rewrite !cleanAllocation_object. split.
  - simpl keepAllocation. read_props. now rewrite (js_or_truthy _ _ Hk).
  - read_props. rewrite !js_or_idem.
    rewrite !objectOr_idem by reflexivity. reflexivity.
Qed.

Lemma filter_same {A : Type} (keep : A -> bool) (l : list A) :
  forallb keep l = true -> List.filter keep l = l.
Proof.
  induction l as [|a l IH]; simpl; [reflexivity|].
  intros H. apply andb_true_iff in H as [-> Hl]. now rewrite IH.
Qed.

Lemma map_same {A : Type} (f : A -> A) (l : list A) :
  Forall (fun a => f a = a) l -> map f l = l.
Proof. induction 1 as [|a l Ha _ IH]; simpl; [reflexivity|]. now rewrite Ha, IH. Qed.

Lemma allocationsOf_idem (x : value) :
  allocationsOf (allocationsOf x) = allocationsOf x.
Proof.
  destruct x; try reflexivity. simpl. f_equal.
  rewrite filter_same.
  - apply map_same. induction elems as [|a l IH]; simpl; [constructor|].
    destruct (keepAllocation a) eqn:E; [|exact IH].
    simpl. constructor; [|exact IH]. now apply cleanAllocation_clean.
  - apply forallb_map_filter. intros a Ha. now apply cleanAllocation_clean.
Qed.

Lemma projectionsOf_idem (x : value) :
  projectionsOf (projectionsOf x) = projectionsOf x.
Proof.
  destruct x; try reflexivity. simpl. f_equal.
  apply filter_same, forallb_filter_same.
Qed.

Lemma objectsOf_idem (x : value) : objectsOf (objectsOf x) = objectsOf x.
Proof.
  destruct x; try reflexivity. simpl. f_equal.
  apply filter_same, forallb_filter_same.
Qed.

Lemma keepAllocation_not_null (a : value) :
  keepAllocation a = true -> negb (isNull a) = true.
Proof. now destruct a. Qed.

Lemma keepProjection_not_null (p : value) :
  keepProjection p = true -> negb (isNull p) = true.
Proof. now destruct p. Qed.

Lemma forallb_weaken {A : Type} (p q : A -> bool) (l : list A) :
  (forall a, p a = true -> q a = true) ->
  forallb p l = true -> forallb q l = true.
Proof.
  intros H. rewrite !forallb_forall. intros Hp a Ha. now apply H, Hp.
Qed.

Lemma sanitizable_planOf (props : list (jsstring * value)) (summary : jsstring) :
  sanitizable (planOf props summary) = true.
Proof.
  unfold sanitizable, planOf. read_props. apply andb_true_iff. split.
  - destruct (lookup_prop "allocations" props); try reflexivity.
    simpl. apply forallb_map_filter. intros a Ha.
    apply keepAllocation_not_null. now apply cleanAllocation_clean.
  - destruct (lookup_prop "projections" props); try reflexivity.
    simpl. apply (forallb_weaken keepProjection);
      [exact keepProjection_not_null | apply forallb_filter_same].
Qed.

Lemma array_or_empty_idem (x : value) :
  (if isArray (if isArray x then x else VArray [])
   then (if isArray x then x else VArray []) else VArray [])
  = (if isArray x then x else VArray []).
Proof. destruct x; reflexivity. Qed.

Lemma object_or_undefined_idem (x : value) :
  (if typeof_object (if typeof_object x then x else VUndefined)
   then (if typeof_object x then x else VUndefined) else VUndefined)
  = (if typeof_object x then x else VUndefined).
Proof. destruct x; reflexivity. Qed.

Lemma planOf_planOf (props : list (jsstring * value)) (summary : jsstring) :
  planOf (propsOf (planOf props summary)) summary = planOf props summary.
Proof.
  unfold planOf at 2. unfold propsOf. unfold planOf at 1. read_props.
  rewrite js_or_idem, allocationsOf_idem, projectionsOf_idem, !objectsOf_idem.
  rewrite !or_default_idem by reflexivity.
  rewrite array_or_empty_idem, object_or_undefined_idem. reflexivity.
Qed.

(** X3. Sanitizing is idempotent: a plan the sanitizer returned is a
    payload it accepts, and sanitizing it again, with the same summary,
    returns it unchanged. *)
Theorem sanitizer_idempotent (data : value) (summary : jsstring) (plan : value) :
  validateAndSanitizePlan data summary = Ok plan ->
  validateAndSanitizePlan plan summary = Ok plan.
Proof.
  intros H. apply sanitize_Ok_inv in H as [_ ->].
  rewrite (sanitize_planOf _ _ (sanitizable_planOf (propsOf data) summary)).
  now rewrite planOf_planOf.
Qed.

Lemma sanitizer_idempotent_witness :
  validateAndSanitizePlan AppSpec.somePlan "Your plan." = Ok AppSpec.somePlan.
Proof.
  apply (sanitizer_idempotent (VObject []) "Your plan." AppSpec.somePlan).
  reflexivity.
Defined.

(** ** The filters of the filings and of the sector trends *)

Lemma typeof_object_not_primitive (v : value) :
  typeof_object v = negb (isPrimitive v).
Proof. destruct v; reflexivity. Qed.

Lemma filter_ext_bool {A : Type} (f g : A -> bool) (l : list A) :
  (forall a, f a = g a) -> List.filter f l = List.filter g l.
Proof.
  intros H. induction l as [|a l IH]; simpl; [reflexivity|].
  now rewrite H, IH.
Qed.

(** X4. The filters of [secEvents] and of [sectorTrends] (lines 86 and
    87) drop the entries that are strings, numbers, booleans or
    [undefined] and keep every other entry, in order: objects, arrays,
    and [null] as well, since [typeof null] is ['object']. *)
Theorem filings_and_trends_filter
    (data : value) (summary : jsstring) (plan : value)
    (events trends : list value) :
  validateAndSanitizePlan data summary = Ok plan ->
  get data "secEvents" = Ok (VArray events) ->
  get data "sectorTrends" = Ok (VArray trends) ->
  get plan "secEvents"
  = Ok (VArray (List.filter (fun e => negb (isPrimitive e)) events))
  /\ get plan "sectorTrends"
     = Ok (VArray (List.filter (fun e => negb (isPrimitive e)) trends))
  /\ (In VNull events -> exists kept,
        get plan "secEvents" = Ok (VArray kept) /\ In VNull kept).
Proof.
  intros H He Ht. apply sanitize_Ok_inv in H as [Hs ->].
  destruct data; try discriminate Hs; try discriminate He.
  simpl in He, Ht. injection He as He. injection Ht as Ht.
  unfold planOf, propsOf. simpl get. read_props. rewrite He, Ht. simpl objectsOf.
  rewrite !(filter_ext_bool typeof_object (fun e => negb (isPrimitive e)))
    by exact typeof_object_not_primitive.
  split; [reflexivity|]. split; [reflexivity|].
  intros Hin. eexists. split; [reflexivity|].
  apply List.filter_In. now split.
Qed.

Lemma filings_and_trends_filter_witness :
  exists plan,
    validateAndSanitizePlan
      (VObject [("secEvents" : jsstring, VArray [VNull; VString "10-K"]);
                ("sectorTrends" : jsstring, VArray [])]) "Plan." = Ok plan
    /\ get plan "secEvents" = Ok (VArray [VNull]).
Proof.
  eexists. split; [reflexivity|].
  apply (proj1 (filings_and_trends_filter
                  (VObject [("secEvents" : jsstring,
                             VArray [VNull; VString "10-K"]);
                            ("sectorTrends" : jsstring, VArray [])])
                  "Plan." _ [VNull; VString "10-K"] []
                  eq_refl eq_refl eq_refl)).
Defined.

(** ** Payloads of the declared types *)

Lemma conforms_interface (fields : list (jsstring * (ty * bool)))
    (props : list (jsstring * value)) :
  conforms (TyInterface fields) (VObject props)
  = forallb (fun field =>
               accepts (fst (snd field)) (snd (snd field))
                      (lookup_prop (fst field) props))
            fields.
Proof. reflexivity. Qed.

Lemma accepts_required (t : ty) (x : value) :
  accepts t false x = true -> accepts t true x = true.
Proof. destruct x; try discriminate; auto. Qed.

Lemma accepts_js_or (t : ty) (x d : value) :
  accepts t true x = true -> accepts t false d = true ->
  accepts t false (js_or x d) = true.
Proof.
  intros Hx Hd. unfold js_or.
  destruct (truthy x) eqn:E; [|exact Hd].
  destruct x; try discriminate E; exact Hx.
Qed.

Lemma accepts_objectOr (t : ty) (x d : value) :
  accepts t true x = true -> accepts t false d = true ->
  accepts t false (objectOr x d) = true.
Proof. intros Hx Hd. destruct x; try exact Hd; exact Hx. Qed.

Lemma accepts_or_default (t : ty) (x d : value) :
  accepts t true x = true -> accepts t false d = true ->
  accepts t false (js_or (js_and (VBool (typeof_object x)) x) d) = true.
Proof. intros Hx Hd. destruct x; try exact Hd; exact Hx. Qed.

Lemma accepts_array_or_empty (t : ty) (x : value) :
  accepts (TyArray t) true x = true ->
  accepts (TyArray t) false (if isArray x then x else VArray []) = true.
Proof. intros Hx. destruct x; try reflexivity; exact Hx. Qed.

Lemma forallb_filter_keeps {A : Type} (p keep : A -> bool) (l : list A) :
  forallb p l = true -> forallb p (List.filter keep l) = true.
Proof.
  rewrite !forallb_forall. intros H a Ha. apply H.
  now apply List.filter_In in Ha as [Ha _].
Qed.

Lemma accepts_projectionsOf (t : ty) (x : value) :
  accepts (TyArray t) true x = true ->
  accepts (TyArray t) false (projectionsOf x) = true.
Proof.
  intros Hx. destruct x; try reflexivity.
  simpl in *. now apply forallb_filter_keeps.
Qed.

Lemma accepts_objectsOf (t : ty) (x : value) :
  accepts (TyArray t) true x = true ->
  accepts (TyArray t) false (objectsOf x) = true.
Proof.
  intros Hx. destruct x; try reflexivity.
  simpl in *. now apply forallb_filter_keeps.
Qed.

Lemma accepts_object_or_undefined (t : ty) (x : value) :
  accepts t true x = true ->
  accepts t true (if typeof_object x then x else VUndefined) = true.
Proof. intros Hx. destruct x; try reflexivity; exact Hx. Qed.

(** The conjuncts of a boolean conjunction in a hypothesis. *)
Ltac split_andb_in H :=
  match type of H with
  | (_ && _) = true =>
      let H1 := fresh H in
      let H2 := fresh H in
      apply andb_true_iff in H as [H1 H2];
      split_andb_in H1; split_andb_in H2
  | _ => idtac
  end.

Lemma conforms_cleanAllocation (a : value) :
  conforms AllocationItem a = true ->
  conforms AllocationItem (cleanAllocation a) = true.
Proof.
  destruct a; try discriminate. intros H.
  rewrite cleanAllocation_object.
  unfold AllocationItem in *. rewrite conforms_interface in *.
  cbn [forallb required optional fst snd] in *.
  rewrite andb_true_r in *. split_andb_in H. read_props. split_andb.
  - apply accepts_js_or; [now apply accepts_required | reflexivity].
  - apply accepts_js_or; [now apply accepts_required | reflexivity].
  - apply accepts_js_or; [now apply accepts_required | reflexivity].
  - apply accepts_js_or; [now apply accepts_required | reflexivity].
  - apply accepts_js_or; [now apply accepts_required | reflexivity].
  - apply accepts_js_or; [now apply accepts_required | reflexivity].
  - apply accepts_js_or; [now apply accepts_required | reflexivity].
  - assumption.
  - apply accepts_objectOr; [now apply accepts_required | reflexivity].
  - apply accepts_objectOr; [now apply accepts_required | reflexivity].
Qed.

Lemma accepts_allocationsOf (x : value) :
  accepts (TyArray AllocationItem) true x = true ->
  accepts (TyArray AllocationItem) false (allocationsOf x) = true.
Proof.
  intros Hx. destruct x; try reflexivity.
  change (forallb (conforms AllocationItem) elems = true) in Hx.
  change (forallb (conforms AllocationItem)
                  (map cleanAllocation (List.filter keepAllocation elems))
          = true).
  rewrite forallb_forall in *. intros b Hb.
  apply List.in_map_iff in Hb as (a & <- & Ha).
  apply List.filter_In in Ha as [Ha _].
  apply conforms_cleanAllocation, Hx, Ha.
Qed.

Lemma interface_not_null (fields : list (jsstring * (ty * bool))) (a : value) :
  conforms (TyInterface fields) a = true -> negb (isNull a) = true.
Proof. now destruct a. Qed.

Lemma array_of_interface_noNull (fields : list (jsstring * (ty * bool)))
    (x : value) :
  accepts (TyArray (TyInterface fields)) true x = true ->
  noNullElement x = true.
Proof.
  intros Hx. destruct x; try reflexivity.
  change (forallb (conforms (TyInterface fields)) elems = true) in Hx.
  simpl. revert Hx. apply forallb_weaken. apply interface_not_null.
Qed.

(** X5. A payload in which every field that is given has its declared
    type (the schema of the prompt, lines 160-171, with the types of
    [types.ts]; any field may be missing) is accepted, and the plan
    returned is of the declared type [InvestmentPlan]. *)
Theorem typed_payload_gives_typed_plan (data : value) (summary : jsstring) :
  conforms Payload data = true ->
  exists plan,
    validateAndSanitizePlan data summary = Ok plan
    /\ conforms InvestmentPlan plan = true.
Proof.
  intros H. destruct data; try discriminate H.
  unfold Payload in H. rewrite conforms_interface in H.
  cbn [forallb required optional fst snd] in H.
  rewrite andb_true_r in H. split_andb_in H.
  assert (Hs : sanitizable (VObject props) = true).
  { simpl. apply andb_true_iff. split.
    - eapply array_of_interface_noNull. eassumption.
    - eapply array_of_interface_noNull. eassumption. }
  exists (planOf props summary). split; [now apply sanitize_planOf|].
  unfold InvestmentPlan, planOf. rewrite conforms_interface.
  cbn [forallb required optional fst snd]. rewrite andb_true_r.
  read_props. split_andb.
  - destruct summary; reflexivity.
  - now apply accepts_js_or.
  - now apply accepts_array_or_empty.
  - now apply accepts_or_default.
  - now apply accepts_allocationsOf.
  - now apply accepts_projectionsOf.
  - reflexivity.
  - now apply accepts_or_default.
  - now apply accepts_objectsOf.
  - now apply accepts_objectsOf.
  - now apply accepts_object_or_undefined.
Qed.

Lemma typed_payload_gives_typed_plan_witness :
  exists plan,
    validateAndSanitizePlan
      (VObject [("riskAnalysis" : jsstring, VString "Moderate.");
                ("actionableSteps" : jsstring,
                 VArray [VString "Build an emergency fund."])])
      "Plan." = Ok plan
    /\ conforms InvestmentPlan plan = true.
Proof.
  apply (typed_payload_gives_typed_plan
           (VObject [("riskAnalysis" : jsstring, VString "Moderate.");
                     ("actionableSteps" : jsstring,
                      VArray [VString "Build an emergency fund."])])
           "Plan.").
  reflexivity.
Defined.

End SanitizerLaws.

(* ===================================================================== *)
(** * Further properties of the gateway *)
(* ===================================================================== *)

Module GeminiLaws.
Import Str Json Sanitizer SanitizerSpec SanitizerFacts SanitizerShape.
Import SanitizerLaws StrSpec StrFacts Gemini GeminiSpec GeminiFacts GeminiShape.

(** ** What the reads of the gateway throw *)

Lemma get_throws (v : value) (k : jsstring) (e : exn) :
  get v k = Throw e -> e = TypeError.
Proof. destruct v; simpl; congruence. Qed.

Lemma get_opt_throws (v : value) (k : jsstring) (e : exn) :
  get_opt v k = Throw e -> e = TypeError.
Proof. destruct v; simpl; congruence. Qed.

Lemma get_opt_first_returns (v : value) : exists x, get_opt_first v = Ok x.
Proof.
  destruct v as [| | | |s|l|p]; simpl; eauto.
  - destruct s; eauto.
  - destruct l; eauto.
Qed.

Section Citations.

Variable mk : value -> value -> value.

Lemma sourceOfChunk_spec (chunk : value) :
  (sourceOfChunk mk chunk = Throw TypeError)
  \/ exists here,
       sourceOfChunk mk chunk = Ok here
       /\ Forall (cited mk) here /\ (length here <= 1)%nat.
Proof.
  unfold sourceOfChunk.
  destruct (get chunk "web") as [web|e] eqn:Hw; simpl.
  2:{ left. now rewrite (get_throws _ _ _ Hw). }
  destruct (get_opt web "uri") as [uri|e] eqn:Hu; simpl.
  2:{ left. now rewrite (get_opt_throws _ _ _ Hu). }
  destruct (truthy uri) eqn:Tu.
  2:{ right. exists []. repeat split; [constructor | simpl; lia]. }
  destruct (get_opt web "title") as [title|e] eqn:Ht; simpl.
  2:{ left. now rewrite (get_opt_throws _ _ _ Ht). }
  destruct (truthy title) eqn:Tt; right.
  - exists [mk uri title]. repeat split; [|simpl; lia].
    constructor; [|constructor]. now exists uri, title.
  - exists []. repeat split; [constructor | simpl; lia].
Qed.

Lemma sourcesOfChunks_spec (chunks : list value) :
  (sourcesOfChunks mk chunks = Throw TypeError)
  \/ exists sources,
       sourcesOfChunks mk chunks = Ok sources
       /\ Forall (cited mk) sources /\ (length sources <= length chunks)%nat.
Proof.
  induction chunks as [|chunk rest IH]; simpl.
  - right. exists []. repeat split; [constructor | simpl; lia].
  - destruct (sourceOfChunk_spec chunk) as [-> | (here & -> & Hh & Lh)];
      [now left|]. simpl.
    destruct IH as [-> | (more & -> & Hm & Lm)]; [now left|]. simpl.
    right. exists (here ++ more). repeat split.
    + now apply Forall_app.
    + rewrite List.length_app. lia.
Qed.

Lemma groundingSourcesWith_spec (response : value) :
  (groundingSourcesWith mk response = Throw TypeError)
  \/ exists sources,
       groundingSourcesWith mk response = Ok sources /\ Forall (cited mk) sources.
Proof.
  unfold groundingSourcesWith.
  destruct (get response "candidates") as [candidates|e] eqn:Hc; simpl.
  2:{ left. now rewrite (get_throws _ _ _ Hc). }
  destruct (get_opt_first_returns candidates) as (first & ->). simpl.
  destruct (get_opt first "groundingMetadata") as [metadata|e] eqn:Hm; simpl.
  2:{ left. now rewrite (get_opt_throws _ _ _ Hm). }
  destruct (get_opt metadata "groundingChunks") as [chunks|e] eqn:Hg; simpl.
  2:{ left. now rewrite (get_opt_throws _ _ _ Hg). }
  destruct (truthy chunks) eqn:T.
  2:{ right. exists []. split; [reflexivity | constructor]. }
  destruct chunks; try (now left).
  destruct (sourcesOfChunks_spec elems) as [-> | (sources & -> & Hs & _)];
    [now left | right; eauto].
Qed.

Lemma groundingSourcesWith_throws (response : value) (e : exn) :
  groundingSourcesWith mk response = Throw e -> e = TypeError.
Proof.
  intros H.
  destruct (groundingSourcesWith_spec response) as [E | (s & E & Hs)];
    rewrite E in H; [now injection H as <- | discriminate H].
Qed.


End Citations.


(** ** The outcome of a plan generation *)

Lemma groundingSources_cited (response : value) (sources : list value) :
  groundingSources response = Ok sources -> Forall (cited planSource) sources.
Proof.
  intros H. unfold groundingSources in H. fold planSource in H.
  destruct (groundingSourcesWith_spec planSource response)
    as [E | (s & E & Hs)];
    rewrite E in H; [discriminate H | now injection H as <-].
Qed.

Lemma hasKeys_set_prop_sources (props : list (jsstring * value))
    (summary : jsstring) (sources : value) :
  assign (planOf props summary) "sources" sources
  = Ok (VObject
          (set_prop "sources" sources (propsOf (planOf props summary)))).
Proof. reflexivity. Qed.

(** The keys of a plan. *)
Lemma planOfResponse_Ok_inv (response plan : value) :
  planOfResponse response = Ok plan ->
  exists text group data sources,
    get response "text" = Ok (VString text)
    /\ text <> []
    /\ matchJsonBlock text = Some group
    /\ JSON_parse (trim group) = Ok data
    /\ sanitizable data = true
    /\ groundingSources response = Ok sources
    /\ assign (planOf (propsOf data)
                      (trim (substring text 0 (indexOf text fenceOpen))))
              "sources" (VArray sources) = Ok plan.
Proof.
  unfold planOfResponse. intros H.
  destruct (get response "text") as [responseText|e] eqn:Ht; [|discriminate H].
  simpl bind in H.
  destruct (truthy responseText) eqn:T; [|discriminate H]. simpl negb in H.
  cbv iota in H.
  destruct responseText as [| | | |text| |]; try discriminate H.
  destruct (matchJsonBlock text) as [group|] eqn:Hm; [|discriminate H].
  destruct group as [|g group]; [discriminate H|].
  destruct (JSON_parse (trim (g :: group))) as [data|e] eqn:Hp;
    [|discriminate H].
  simpl try_catch in H. simpl bind in H.
  destruct (groundingSources response) as [sources|e] eqn:Hs; [|discriminate H].
  simpl bind in H.
  destruct (validateAndSanitizePlan data
              (trim (substring text 0 (indexOf text fenceOpen))))
    as [sane|e] eqn:Hv; [|discriminate H].
  simpl bind in H. apply sanitize_Ok_inv in Hv as [Hsan ->].
  exists text, (g :: group), data, sources.
  repeat split; try assumption.
  intros ->. discriminate T.
Qed.

(** X7. How a response is cut. When a plan is returned, the text of
    the response is a narrative, the opening fence, a block, the closing
    fence and a rest, where the opening fence is the first one of the
    text and the closing fence the last one behind it: no match of the
    pattern starts earlier, and none that starts there has a longer
    block. The block, trimmed, is the text that parsed as JSON; the
    summary of the plan is the narrative, trimmed, or the placeholder
    when that is empty; the rest is ignored. *)
Theorem response_cut_at_first_and_last_fence (response plan : value) :
  planOfResponse response = Ok plan ->
  exists narrative block rest data,
    get response "text"
    = Ok (VString (narrative ++ fenceOpen ++ block ++ fenceClose ++ rest))
    /\ (forall pre group,
          matchesAt (narrative ++ fenceOpen ++ block ++ fenceClose ++ rest)
                    pre group ->
          (length narrative <= length pre)%nat
          /\ (length pre = length narrative ->
              (length group <= length block)%nat))
    /\ JSON_parse (trim block) = Ok data
    /\ get plan "summary"
       = Ok (js_or (VString (trim narrative))
                   (VString "No summary provided.")).
Proof.
  intros H. apply planOfResponse_Ok_inv in H
    as (text & group & data & sources & Ht & _ & Hm & Hp & _ & _ & Hassign).
  destruct (matchJsonBlock_Some text group Hm)
    as (pre & [post Htext] & Hfirst & Hbest).
  exists pre, group, post, data. rewrite <- Htext.
  split; [exact Ht|]. split; [exact Hbest|]. split; [exact Hp|].
  unfold indexOf in Hassign. rewrite Hfirst, substring_prefix in Hassign.
  replace (firstn (length pre) text) with pre in Hassign.
  2:{ rewrite Htext. symmetry. apply firstn_exact. reflexivity. }
  rewrite hasKeys_set_prop_sources in Hassign. injection Hassign as <-.
  reflexivity.
Qed.

Lemma response_cut_at_first_and_last_fence_witness :
  exists narrative block rest data,
    get vtiResponse "text"
    = Ok (VString (narrative ++ fenceOpen ++ block ++ fenceClose ++ rest))
    /\ (forall pre group,
          matchesAt (narrative ++ fenceOpen ++ block ++ fenceClose ++ rest)
                    pre group ->
          (length narrative <= length pre)%nat
          /\ (length pre = length narrative ->
              (length group <= length block)%nat))
    /\ JSON_parse (trim block) = Ok data
    /\ get (match planOfResponse vtiResponse with
            | Ok plan => plan
            | Throw _ => VUndefined
            end) "summary"
       = Ok (js_or (VString (trim narrative))
                   (VString "No summary provided.")).
Proof.
  apply (response_cut_at_first_and_last_fence vtiResponse).
  reflexivity.
Defined.

Section Generation.

Variable generateContent : Call -> result value.
Variable UserProfile : Type.
Variable promptOf : UserProfile -> jsstring.

Lemma generation_requests_aux (profile : UserProfile) (apiKey : value) :
  snd (generateInvestmentStrategy generateContent UserProfile promptOf
         profile apiKey)
  = (if truthy apiKey
     then [(apiKey, generationRequest (promptOf profile))] else [])
  /\ (truthy apiKey = false ->
      fst (generateInvestmentStrategy generateContent UserProfile promptOf
         profile apiKey)
      = Throw (Error "API_KEY is missing. Please provide a valid key."))
  /\ (forall e,
        truthy apiKey = true ->
        generateContent (apiKey, generationRequest (promptOf profile))
        = Throw e ->
        fst (generateInvestmentStrategy generateContent UserProfile promptOf
         profile apiKey) = Throw e).
Proof.
  unfold generateInvestmentStrategy, getClient, io_lift, io_bind, call.
  fold (generationRequest (promptOf profile)).
  destruct (truthy apiKey) eqn:T; simpl.
  - destruct (generateContent (apiKey, generationRequest (promptOf profile)))
      as [response|e] eqn:Hg.
    + destruct (planOfResponse response); simpl.
      * repeat split; [discriminate | intros; discriminate].
      * repeat split; [discriminate | intros; discriminate].
    + repeat split; [discriminate|]. now intros e' _ [= <-].
  - repeat split. intros; discriminate.
Qed.

(** X8. A plan generation issues exactly one request when the
    credential is not empty: to the model [gemini-2.5-flash], with the
    prompt of the profile and the search tool, under that credential;
    and this whatever the service answers. With an empty credential it
    fails with the missing-key error and issues no request. An error
    thrown by the service is the error of the generation. *)
Theorem generation_requests (profile : UserProfile) (apiKey : value) :
  snd (generateInvestmentStrategy generateContent UserProfile promptOf
         profile apiKey)
  = (if truthy apiKey
     then [(apiKey, generationRequest (promptOf profile))] else [])
  /\ (truthy apiKey = false ->
      fst (generateInvestmentStrategy generateContent UserProfile promptOf
         profile apiKey)
      = Throw (Error "API_KEY is missing. Please provide a valid key."))
  /\ (forall e,
        truthy apiKey = true ->
        generateContent (apiKey, generationRequest (promptOf profile))
        = Throw e ->
        fst (generateInvestmentStrategy generateContent UserProfile promptOf
         profile apiKey) = Throw e).
Proof. apply generation_requests_aux. Qed.

(** X9. A plan generation whose request the service answers fails in
    four ways only: with the empty-response error, with one of the two
    malformed-response errors, or with a TypeError. The SyntaxError of
    the parser never reaches the caller. *)
Theorem generation_failures
    (profile : UserProfile) (apiKey response : value) (e : exn) :
  truthy apiKey = true ->
  generateContent (apiKey, generationRequest (promptOf profile)) = Ok response ->
  fst (generateInvestmentStrategy generateContent UserProfile promptOf
         profile apiKey) = Throw e ->
  e = emptyResponseError \/ e = noJsonBlockError \/ e = malformedJsonError
  \/ e = TypeError.
Proof.
  intros Hk Hg. rewrite (generate_with_response _ _ _ profile apiKey response Hk Hg).
  simpl fst. unfold planOfResponse. intros H.
  destruct (get response "text") as [responseText|e'] eqn:Ht.
  2:{ simpl in H. injection H as <-. right; right; right.
      exact (get_throws _ _ _ Ht). }
  simpl bind in H.
  destruct (truthy responseText) eqn:T; simpl negb in H; cbv iota in H.
  2:{ left. congruence. }
  destruct responseText as [| | | |text| |];
    try (right; right; right; congruence).
  destruct (matchJsonBlock text) as [group|] eqn:Hm.
  2:{ right; left. congruence. }
  destruct group as [|g group]; [right; left; congruence|].
  destruct (JSON_parse (trim (g :: group))) as [data|e'] eqn:Hp.
  2:{ simpl in H. right; right; left. congruence. }
  simpl try_catch in H. simpl bind in H.
  destruct (groundingSources response) as [sources|e'] eqn:Hs.
  2:{ simpl in H. injection H as <-. right; right; right.
      exact (groundingSourcesWith_throws _ _ _ Hs). }
  simpl bind in H.
  destruct (validateAndSanitizePlan data
              (trim (substring text 0 (indexOf text fenceOpen))))
    as [sane|e'] eqn:Hv.
  - apply sanitize_Ok_inv in Hv as [_ ->]. discriminate H.
  - simpl in H. injection H as <-. right; right; right.
    destruct (sanitizable data) eqn:Hsan.
    + rewrite (sanitize_planOf _ _ Hsan) in Hv. discriminate Hv.
    + rewrite (sanitize_throws _ _ Hsan) in Hv. congruence.
Qed.

Lemma generate_Ok_inv (profile : UserProfile) (apiKey plan : value) :
  fst (generateInvestmentStrategy generateContent UserProfile promptOf
         profile apiKey) = Ok plan ->
  exists response,
    truthy apiKey = true
    /\ generateContent (apiKey, generationRequest (promptOf profile))
       = Ok response
    /\ planOfResponse response = Ok plan.
Proof.
  intros H. destruct (truthy apiKey) eqn:Hk.
  - destruct (generateContent (apiKey, generationRequest (promptOf profile)))
      as [response|e] eqn:Hg.
    + rewrite (generate_with_response _ _ _ profile apiKey response Hk Hg) in H.
      exists response. now repeat split.
    + destruct (generation_requests_aux profile apiKey) as (_ & _ & Hthrow).
      rewrite (Hthrow e Hk Hg) in H. discriminate H.
  - destruct (generation_requests_aux profile apiKey) as (_ & Hmiss & _).
    rewrite (Hmiss Hk) in H. discriminate H.
Qed.

Lemma generated_plan_facts (profile : UserProfile) (apiKey plan : value) :
  fst (generateInvestmentStrategy generateContent UserProfile promptOf
         profile apiKey) = Ok plan ->
  exists response sources sane,
    generateContent (apiKey, generationRequest (promptOf profile)) = Ok response
    /\ groundingSources response = Ok sources
    /\ Forall (cited planSource) sources
    /\ hasKeys plan planKeys = true
    /\ get plan "sources" = Ok (VArray sources)
    /\ (exists s, get plan "summary" = Ok (VString s) /\ s <> [])
    /\ shapedPlan sane = true
    /\ forall k, jsstring_eqb k "sources" = false -> get plan k = get sane k.
Proof.
  intros H. apply generate_Ok_inv in H as (response & Hk & Hg & Hplan).
  apply planOfResponse_Ok_inv in Hplan
    as (text & group & data & sources & _ & _ & _ & _ & _ & Hs & Hassign).
  set (summary := trim (substring text 0 (indexOf text fenceOpen))) in *.
  exists response, sources, (planOf (propsOf data) summary).
  split; [exact Hg|]. split; [exact Hs|]. split.
  { exact (groundingSources_cited response sources Hs). }
  rewrite hasKeys_set_prop_sources in Hassign. injection Hassign as <-.
  split; [reflexivity|]. split.
  { reflexivity. }
  split.
  { cbn [get]. read_props.
    destruct summary as [|c rest]; eexists; (split; [reflexivity | discriminate]). }
  split; [apply shapedPlan_planOf|].
  intros k Hk'. cbn [get planOf lookup_prop]. now rewrite Hk'.
Qed.

(** X10. A plan that a generation returns is an object with the eleven
    properties of a plan, in order; its summary is a non-empty string;
    its sources are the citations of the response, each with its URL and
    its title, whatever the payload of the model gave as [sources]; and
    its other properties are those of a plan as the sanitizer shapes
    it. *)
Theorem generated_plan (profile : UserProfile) (apiKey plan : value) :
  fst (generateInvestmentStrategy generateContent UserProfile promptOf
         profile apiKey) = Ok plan ->
  exists response sources sane,
    generateContent (apiKey, generationRequest (promptOf profile)) = Ok response
    /\ groundingSources response = Ok sources
    /\ Forall (cited planSource) sources
    /\ hasKeys plan planKeys = true
    /\ get plan "sources" = Ok (VArray sources)
    /\ (exists s, get plan "summary" = Ok (VString s) /\ s <> [])
    /\ shapedPlan sane = true
    /\ forall k, jsstring_eqb k "sources" = false -> get plan k = get sane k.
Proof. apply generated_plan_facts. Qed.

End Generation.

Lemma generation_requests_witness :
  fst (generateInvestmentStrategy (fun _ => Ok vtiResponse)
         unit (fun _ => "prompt") tt (VString ""))
  = Throw (Error "API_KEY is missing. Please provide a valid key.").
Proof.
  apply (proj1 (proj2 (generation_requests (fun _ => Ok vtiResponse)
                         unit (fun _ => "prompt") tt (VString "")))).
  reflexivity.
Defined.

Lemma generation_failures_witness :
  emptyResponseError = emptyResponseError
  \/ emptyResponseError = noJsonBlockError
  \/ emptyResponseError = malformedJsonError
  \/ emptyResponseError = TypeError.
Proof.
  apply (generation_failures (fun _ => Ok emptyTextResponse)
           unit (fun _ => "prompt") tt (VString "key") emptyTextResponse
           emptyResponseError); reflexivity.
Defined.

Lemma generated_plan_witness :
  exists response sources sane,
    Ok (VObject [("text" : jsstring, VString "Your plan. ```json {} ```")])
    = Ok response
    /\ groundingSources response = Ok sources
    /\ Forall (cited planSource) sources
    /\ hasKeys AppSpec.somePlan planKeys = true
    /\ get AppSpec.somePlan "sources" = Ok (VArray sources)
    /\ (exists s, get AppSpec.somePlan "summary" = Ok (VString s) /\ s <> [])
    /\ shapedPlan sane = true
    /\ forall k, jsstring_eqb k "sources" = false ->
                get AppSpec.somePlan k = get sane k.
Proof.
  apply (generated_plan
           (fun _ => Ok (VObject [("text" : jsstring,
                                   VString "Your plan. ```json {} ```")]))
           unit (fun _ => "prompt") tt (VString "key") AppSpec.somePlan).
  reflexivity.
Defined.

End GeminiLaws.

(* ===================================================================== *)
(** * Properties of the credential dialog *)
(* ===================================================================== *)

Module ModalFacts.
Import Str StrFacts Gemini GeminiSpec GeminiFacts Chat App AppShape Modal.

Lemma trimStart_fixed (s : jsstring) :
  match s with
  | c :: _ => is_whitespace c = false
  | [] => True
  end ->
  trimStart s = s.
Proof. destruct s as [|c s]; [reflexivity|]. simpl. now intros ->. Qed.

(** Trimming a trimmed string changes nothing. *)
Lemma trim_trim (s : jsstring) : trim (trim s) = trim s.
Proof.
  destruct (trim_spec s) as (_ & _ & _ & _ & _ & Hhead & Hlast).
  unfold trim at 1. rewrite (trimStart_fixed _ Hhead).
  unfold trimEnd. rewrite (trimStart_fixed _ Hlast).
  apply List.rev_involutive.
Qed.

Section Dialog.

Variable generateContent : Call -> result value.

(** The check of a credential that is trimmed and not empty issues its
    request. *)
Lemma verifyApiKey_trimmed (s : jsstring) :
  trim s <> [] ->
  (verifyApiKey generateContent (VString (trim s))
   = (Ok false, [(VString (trim s), verificationRequest)])
   /\ forall response,
        generateContent (VString (trim s), verificationRequest) = Ok response ->
        hasNonEmptyText response = false)
  \/ (verifyApiKey generateContent (VString (trim s))
      = (Ok true, [(VString (trim s), verificationRequest)])
      /\ exists response,
           generateContent (VString (trim s), verificationRequest) = Ok response
           /\ hasNonEmptyText response = true).
Proof.
  intros Hne.
  destruct (verifyApiKey_cases generateContent (VString (trim s)))
    as [H | [H | H]]; [exfalso | now left | now right].
  unfold verifyApiKey in H. rewrite trim_trim in H.
  destruct (trim s) as [|c t] eqn:E; [contradiction|].
  cbn [truthy negb typeof orb length Nat.eqb] in H.
  replace (jsstring_eqb "string" "string") with true in H by reflexivity.
  cbn [negb orb] in H.
  unfold io_try, io_bind, io_lift, getClient, call in H. cbn [truthy negb] in H.
  destruct (generateContent
              (VString (c :: t), mkRequest "gemini-2.5-flash" "validation test" false))
    as [r|e]; [|discriminate H].
  destruct (truthy r); [|discriminate H].
  destruct (get r "text") as [[| | | |x| |]|e]; simpl in H; discriminate H.
Qed.

(** X11. The dialog stores a credential only after the service has
    answered the check of that credential with a non-empty text, and what
    it stores, in the state of the application and in local storage, is
    the input without the white space around it. On a blank input it
    reports that the key cannot be empty and issues no request; on any
    other input it issues exactly one request, the check of the trimmed
    input; and when the check fails it reports the key as invalid and
    leaves the application as it was. *)
Theorem dialog_stores_verified_key (m : ModalState) (s : AppState) :
  let out := handleSave generateContent m s in
  (trim (key m) = [] ->
   out = ((mkModal (key m) (Some ("API Key cannot be empty." : jsstring))
                   (isLoading m), s), []))
  /\ (trim (key m) <> [] ->
      snd out = [(VString (trim (key m)), verificationRequest)]
      /\ ((snd (fst out) = handleApiKeySave (trim (key m)) s
           /\ apiKey (snd (fst out)) = Some (trim (key m))
           /\ localStorage (snd (fst out)) !! API_KEY = Some (trim (key m))
           /\ hasApiKey (snd (fst out)) = true
           /\ exists response,
                generateContent (VString (trim (key m)), verificationRequest)
                = Ok response
                /\ hasNonEmptyText response = true)
          \/ (snd (fst out) = s
              /\ fst (fst out)
                 = mkModal (key m)
                     (Some ("Invalid API Key. Please check the key and try again."
                            : jsstring))
                     false))).
Proof.
  cbv zeta. unfold handleSave. split.
  - intros ->. reflexivity.
  - intros Hne.
    destruct (trim (key m)) as [|c t] eqn:E; [contradiction|].
    cbn [truthy negb]. rewrite <- E in *.
    destruct (verifyApiKey_trimmed (key m) Hne)
      as [[-> Hno] | [-> (response & Hg & Ht)]]; cbn [fst snd].
    + split; [reflexivity|]. right. now split.
    + split; [reflexivity|]. left. split; [reflexivity|].
      split; [reflexivity|]. split; [apply lookup_insert_eq|].
      split; [|eauto]. unfold hasApiKey. simpl. now rewrite E.
Qed.

End Dialog.

Lemma dialog_stores_verified_key_witness :
  snd (handleSave (fun _ => Ok (VObject [("text" : jsstring, VString "pong")]))
         (mkModal "  my key " None false) (freshApp ∅))
  = [(VString "my key", verificationRequest)].
Proof.
  apply (proj2 (dialog_stores_verified_key
                  (fun _ => Ok (VObject [("text" : jsstring, VString "pong")]))
                  (mkModal "  my key " None false) (freshApp ∅))).
  vm_compute. discriminate.
Defined.

(** X12. The credential survives a reload of the page exactly until it
    is cleared: a page loaded after a non-empty credential was saved
    starts with that credential, and a page loaded after the credential
    was cleared starts without one, on the dialog. A reload keeps nothing
    else: no plan, no error. *)
Theorem credential_survives_reload (s : AppState) (key : jsstring) :
  (key <> [] ->
   apiKey (reload (handleApiKeySave key s)) = Some key
   /\ hasApiKey (reload (handleApiKeySave key s)) = true)
  /\ apiKey (reload (handleApiKeyClear s)) = None
  /\ hasApiKey (reload (handleApiKeyClear s)) = false
  /\ plan (reload (handleApiKeySave key s)) = None
  /\ App.error (reload (handleApiKeySave key s)) = None.
Proof.
  unfold reload, loadApiKey, freshApp, handleApiKeySave, handleApiKeyClear,
    resetApp. cbn [localStorage].
  rewrite lookup_insert_eq, lookup_delete_eq.
  split; [|split; [reflexivity | split; [reflexivity|]]].
  - intros Hne. destruct key as [|c t]; [contradiction|]. now split.
  - destruct key; split; reflexivity.
Qed.

Lemma credential_survives_reload_witness :
  apiKey (reload (handleApiKeySave "my key" (freshApp ∅))) = Some ("my key" : jsstring).
Proof.
  apply (proj1 (credential_survives_reload (freshApp ∅) "my key")).
  discriminate.
Defined.

End ModalFacts.

(* ===================================================================== *)
(** * Properties of the screen *)
(* ===================================================================== *)

Module ScreenFacts.
Import Str Sanitizer SanitizerShape SanitizerLaws Gemini GeminiSpec GeminiShape.
Import GeminiLaws Chat App AppShape Screen.

Section Session.

Variable numberToString : number -> jsstring.
Variable engineMessage : exn -> jsstring.
Variable sendMessage : jsstring -> result value.







(** The text of the banner is never empty. *)
Lemma errorMessage_not_empty (e : exn) : errorMessage engineMessage e <> [].
Proof.
  unfold errorMessage.
  destruct (find_first "[400 bad request]" (messageOf engineMessage e));
    discriminate.
Qed.

(** X14. A generation on screen. From a state with a credential, the
    submitted form shows the dashboard as loading and hides the form and
    the introduction. When the request fails, the banner shows the
    message above a dashboard that is no longer loading, over the empty
    plan, and the form stays hidden; Start Over then clears the error
    and shows the introduction and the form again. *)
Theorem failed_generation_on_screen (s : AppState) (e : exn) :
  hasApiKey s = true ->
  let pending := fst (handleGenerateStart s) in
  let failed := handleGenerateSettle engineMessage (Throw e) pending in
  view pending = Ok (MainPage false None true (Some true))
  /\ view failed
     = Ok (MainPage false (Some (errorMessage engineMessage e)) true (Some false))
  /\ plan failed = Some (VObject [])
  /\ view (resetApp failed) = Ok (MainPage true None false None).
Proof.
  intros Hk. cbv zeta. unfold handleGenerateStart. rewrite Hk. cbn [negb fst].
  unfold view, handleGenerateSettle, resetApp, hasApiKey, planTruthy,
    errorTruthy in *.
  cbn [apiKey plan loading App.error]. rewrite Hk. cbn [negb].
  pose proof (errorMessage_not_empty e) as Hne.
  destruct (errorMessage engineMessage e) as [|c t] eqn:E; [contradiction|].
  repeat split.
Qed.

Variable generateContent : Call -> result value.
Variable UserProfile : Type.
Variable promptOf : UserProfile -> jsstring.

Lemma generated_plan_keyCount (profile : UserProfile) (apiKey plan : value) :
  fst (generateInvestmentStrategy generateContent UserProfile promptOf
         profile apiKey) = Ok plan ->
  truthy plan = true /\ keyCount plan = 11%nat.
Proof.
  intros H.
  apply generate_Ok_inv in H as (response & _ & _ & H).
  apply planOfResponse_Ok_inv in H
    as (text & group & data & sources & _ & _ & _ & _ & _ & _ & H).
  rewrite hasKeys_set_prop_sources in H. injection H as <-. now split.
Qed.

(** X15. A generated plan opens the chat panel. While the request is
    pending the plan is the empty object and the panel is not rendered;
    once a plan that the gateway returned is installed, the dashboard is
    shown, not loading, without error banner, and the condition of the
    panel ([Object.keys(plan).length > 2], [StrategyView.tsx], line 360)
    holds on the overview tab, since the plan has eleven properties. *)
Theorem generated_plan_opens_chat
    (s : AppState) (profile : UserProfile) (key : jsstring) (plan : value) :
  apiKey s = Some key ->
  key <> [] ->
  fst (generateInvestmentStrategy generateContent UserProfile promptOf
         profile (VString key)) = Ok plan ->
  let pending := fst (handleGenerateStart s) in
  let done := handleGenerateSettle engineMessage (Ok plan) pending in
  chatVisible true pending = false
  /\ chatVisible true done = true
  /\ chatVisible false done = false
  /\ view done = Ok (MainPage false None true (Some false)).
Proof.
  intros Hs Hne Hplan. cbv zeta.
  destruct (generated_plan_keyCount profile (VString key) plan Hplan)
    as [Ht Hn].
  assert (Hk : hasApiKey s = true).
  { unfold hasApiKey. rewrite Hs. now destruct key. }
  unfold handleGenerateStart. rewrite Hk. cbn [negb fst].
  unfold chatVisible, view, handleGenerateSettle, hasApiKey, planTruthy,
    errorTruthy in *.
  cbn [apiKey App.plan loading App.error]. rewrite Hs in *. rewrite Hk, Ht, Hn.
  repeat split.
Qed.

(** X16. Resetting the credential does not cancel a pending generation.
    After the reset the dialog is on screen and the plan is cleared; when
    the request then settles, its plan is installed all the same, behind
    the dialog; and once a key is saved again the dashboard shows that
    plan without a new generation. *)
Theorem reset_does_not_cancel_generation
    (s : AppState) (generated : value) (key : jsstring) :
  hasApiKey s = true ->
  truthy generated = true ->
  key <> [] ->
  let pending := fst (handleGenerateStart s) in
  let cleared := handleApiKeyClear pending in
  let settled := handleGenerateSettle engineMessage (Ok generated) cleared in
  view cleared = Ok DialogPage
  /\ App.plan cleared = None
  /\ view settled = Ok DialogPage
  /\ App.plan settled = Some generated
  /\ view (handleApiKeySave key settled)
     = Ok (MainPage false None true (Some false)).
Proof.
  intros Hk Ht Hne. cbv zeta. unfold handleGenerateStart. rewrite Hk.
  cbn [negb fst].
  unfold view, handleGenerateSettle, handleApiKeyClear, handleApiKeySave,
    resetApp, hasApiKey, planTruthy, errorTruthy.
  cbn [apiKey App.plan loading App.error]. rewrite Ht.
  destruct key as [|c t]; [contradiction|]. repeat split.
Qed.

End Session.

Lemma generated_plan_opens_chat_witness :
  chatVisible true
    (handleGenerateSettle (fun _ => "TypeError") (Ok AppSpec.somePlan)
       (fst (handleGenerateStart (handleApiKeySave "key" (freshApp ∅)))))
  = true.
Proof.
  apply (generated_plan_opens_chat (fun _ => "TypeError")
           (fun _ => Ok (VObject [("text" : jsstring,
                                   VString "Your plan. ```json {} ```")]))
           unit (fun _ => "prompt")
           (handleApiKeySave "key" (freshApp ∅)) tt "key" AppSpec.somePlan);
    [reflexivity | discriminate | reflexivity].
Defined.

Lemma reset_does_not_cancel_generation_witness :
  App.plan
    (handleGenerateSettle (fun _ => "TypeError") (Ok AppSpec.somePlan)
       (handleApiKeyClear
          (fst (handleGenerateStart (handleApiKeySave "key" (freshApp ∅))))))
  = Some AppSpec.somePlan.
Proof.
  apply (reset_does_not_cancel_generation (fun _ => "TypeError")
           (handleApiKeySave "key" (freshApp ∅)) AppSpec.somePlan "key");
    [reflexivity | reflexivity | discriminate].
Defined.

Lemma failed_generation_on_screen_witness :
  view (handleGenerateSettle (fun _ => "TypeError") (Throw emptyResponseError)
          (fst (handleGenerateStart
                  (handleApiKeySave "my key" (freshApp ∅)))))
  = Ok (MainPage false
          (Some (errorMessage (fun _ => "TypeError") emptyResponseError))
          true (Some false)).
Proof.
  apply (failed_generation_on_screen (fun _ => "TypeError")
           (handleApiKeySave "my key" (freshApp ∅)) emptyResponseError).
  reflexivity.
Defined.

End ScreenFacts.

(* ===================================================================== *)
(** * Properties of the advisory chat session *)
(* ===================================================================== *)

Module AdvisorFacts.
Import Str Json JsonFacts Sanitizer SanitizerSpec SanitizerShape SanitizerLaws.
Import Gemini GeminiSpec GeminiShape GeminiLaws Chat ChatFacts.
Import Advisor AdvisorShape.

Section Text.

Variable numberToString : number -> jsstring.

Lemma toString_array (elems : list value) :
  toString numberToString (VArray elems)
  = (parts <- elementTexts numberToString elems ;; Ok (join "," parts)).
Proof. reflexivity. Qed.

(** What can be spelt out is converted without error. *)
Lemma toString_plain (v : value) :
  plain v = true -> exists s, toString numberToString v = Ok s.
Proof.
  induction v as [| |b|n|s|elems IH|props _] using value_nested_ind;
    intros Hp; try (eexists; reflexivity).
  - destruct b; eexists; reflexivity.
  - rewrite toString_array. simpl in Hp.
    assert (H : exists parts, elementTexts numberToString elems = Ok parts).
    { induction IH as [|e rest He _ IHrest]; [now exists []|].
      simpl in Hp. apply andb_true_iff in Hp as [Hpe Hprest].
      destruct (IHrest Hprest) as (ps & Hps).
      destruct (He Hpe) as (p & Hpe').
      cbn [elementTexts]. rewrite Hps.
      destruct e; cbn [elementText]; try rewrite Hpe'; eexists; reflexivity. }
    destruct H as (parts & ->). eexists. reflexivity.
  - simpl in Hp. cbn [toString].
    destruct (hasOwn "toString" props); [discriminate Hp|].
    eexists. reflexivity.
Qed.

Lemma elementTexts_plain (elems : list value) :
  forallb plain elems = true ->
  exists parts, elementTexts numberToString elems = Ok parts.
Proof.
  induction elems as [|e rest IH]; [now exists []|].
  simpl. intros Hp. apply andb_true_iff in Hp as [Hpe Hprest].
  destruct (IH Hprest) as (ps & ->).
  destruct (toString_plain e Hpe) as (p & Hpe').
  destruct e; cbn [elementText]; try rewrite Hpe'; eexists; reflexivity.
Qed.

Lemma allocationLines_plain (elems : list value) :
  forallb isObject elems = true ->
  forallb plainAllocation elems = true ->
  exists lines, allocationLines numberToString elems = Ok lines.
Proof.
  induction elems as [|a rest IH]; [now exists []|].
  simpl. intros Ho Hp.
  apply andb_true_iff in Ho as [Hoa Horest].
  apply andb_true_iff in Hp as [Hpa Hprest].
  destruct (IH Horest Hprest) as (lines & ->).
  destruct a; try discriminate Hoa.
  unfold plainAllocation in Hpa. cbn [propsOf] in Hpa.
  apply andb_true_iff in Hpa as [Ht Hpc].
  destruct (toString_plain _ Ht) as (t & Ht').
  destruct (toString_plain _ Hpc) as (p & Hpc').
  unfold allocationLine. cbn [get bind]. rewrite Ht'. cbn [bind].
  rewrite Hpc'. eexists. reflexivity.
Qed.

(** The session of a plan whose properties are as a generated plan has
    them. *)
Lemma createAdvisorChat_returns
    (props : list (jsstring * value)) (apiKey : value) (history : list value)
    (summary : jsstring) (allocations steps : list value) :
  truthy apiKey = true ->
  lookup_prop "summary" props = VString summary ->
  plain (lookup_prop "riskAnalysis" props) = true ->
  lookup_prop "allocations" props = VArray allocations ->
  forallb isObject allocations = true ->
  forallb plainAllocation allocations = true ->
  lookup_prop "actionableSteps" props = VArray steps ->
  forallb plain steps = true ->
  exists text,
    createAdvisorChat numberToString (VObject props) apiKey history
    = Ok (apiKey, mkChatConfig "gemini-2.5-flash" text true history).
Proof.
  intros Hk Hs Hr Ha Hao Hap Hst Hsp.
  unfold createAdvisorChat, getClient. rewrite Hk. cbn [negb bind get].
  rewrite Hs. cbn [toString bind].
  destruct (toString_plain _ Hr) as (r & ->). cbn [bind].
  rewrite Ha. destruct (allocationLines_plain _ Hao Hap) as (lines & ->).
  cbn [bind]. rewrite Hst. unfold joinOf.
  destruct (elementTexts_plain _ Hsp) as (parts & ->). cbn [bind].
  eexists. reflexivity.
Qed.

Lemma shapedAllocation_isObject (a : value) :
  shapedAllocation a = true -> isObject a = true.
Proof. destruct a; try discriminate; reflexivity. Qed.

Variable generateContent : Call -> result value.
Variable UserProfile : Type.
Variable promptOf : UserProfile -> jsstring.

(** X17. The session of a generated plan. For a plan that the gateway
    returned and whose risk analysis, tickers, percentages and steps can
    be spelt out (none is an object with a property named [toString]),
    and for a credential that is not empty, creating the chat session
    succeeds: the session is for the model [gemini-2.5-flash], with the
    search tool and with the history it was given. With an empty
    credential it fails with the missing-key error. *)
Theorem session_of_generated_plan
    (profile : UserProfile) (key plan apiKey : value) (history : list value) :
  fst (generateInvestmentStrategy generateContent UserProfile promptOf
         profile key) = Ok plan ->
  speakable plan = true ->
  (truthy apiKey = true ->
   exists text,
     createAdvisorChat numberToString plan apiKey history
     = Ok (apiKey, mkChatConfig "gemini-2.5-flash" text true history))
  /\ (truthy apiKey = false ->
      createAdvisorChat numberToString plan apiKey history
      = Throw (Error "API_KEY is missing. Please provide a valid key.")).
Proof.
  intros Hgen Hsp. split.
  2:{ intros Hk. unfold createAdvisorChat, getClient. now rewrite Hk. }
  intros Hk.
  destruct (generated_plan_facts generateContent UserProfile promptOf
              profile key plan Hgen)
    as (response & sources & sane & _ & _ & _ & Hkeys & _ & (s & Hsum & _)
        & Hshape & Hsame).
  destruct plan as [| | | | | |props]; try discriminate Hkeys.
  destruct sane as [| | | | | |saneProps]; try discriminate Hshape.
  pose proof (Hsame "allocations" eq_refl) as Hal. cbn [get] in Hal.
  injection Hal as Hal.
  unfold speakable in Hsp. cbn [propsOf] in Hsp. split_andb_in Hsp.
  unfold shapedPlan in Hshape. cbn [propsOf] in Hshape. split_andb_in Hshape.
  cbn [get] in Hsum. injection Hsum as Hsum.
  destruct (lookup_prop "allocations" props) as [| | | | |allocations|] eqn:Ea;
    try discriminate.
  destruct (lookup_prop "actionableSteps" props) as [| | | | |steps|] eqn:Es;
    try discriminate.
  apply (createAdvisorChat_returns props apiKey history s allocations steps);
    try assumption; try reflexivity.
  rewrite <- Hal in *. cbn [arrayOf] in *.
  eapply forallb_weaken; [exact shapedAllocation_isObject | eassumption].
Qed.

End Text.

Lemma session_of_generated_plan_witness :
  exists text,
    createAdvisorChat (fun _ => []) AppSpec.somePlan (VString "key") []
    = Ok (VString "key", mkChatConfig "gemini-2.5-flash" text true []).
Proof.
  apply (proj1 (session_of_generated_plan (fun _ => [])
                  (fun _ => Ok (VObject [("text" : jsstring,
                                          VString "Your plan. ```json {} ```")]))
                  unit (fun _ => "prompt") tt (VString "key")
                  AppSpec.somePlan (VString "key") []
                  eq_refl eq_refl)).
  reflexivity.
Defined.

Section Mount.

Variable numberToString : number -> jsstring.



End Mount.


End AdvisorFacts.

(* ===================================================================== *)
(** * Further properties of the chat panel and of local storage *)
(* ===================================================================== *)

Module ChatLaws.
Import Str Json JsonSpec JsonFacts Gemini GeminiFacts Chat ChatSpec ChatFacts.
Import ChatShape App AppShape Screen.

Section Panel.

Variable numberToString : number -> jsstring.

(** The save effect writes the one key of the chat history. *)
Lemma saveEffect_frame (msgs : list value) (st : Storage) (k : jsstring) :
  k <> CHAT_KEY -> saveEffect numberToString msgs st !! k = st !! k.
Proof.
  intros Hk. unfold saveEffect.
  destruct (0 <? length msgs)%nat; [|reflexivity].
  destruct (JSON_stringify numberToString (VArray msgs));
    now apply lookup_insert_ne.
Qed.

Lemma saveEffect_keeps (msgs : list value) (st : Storage) :
  is_Some (st !! CHAT_KEY) ->
  is_Some (saveEffect numberToString msgs st !! CHAT_KEY).
Proof.
  intros H. unfold saveEffect.
  destruct (0 <? length msgs)%nat; [|exact H].
  destruct (JSON_stringify numberToString (VArray msgs));
    rewrite lookup_insert_eq; eauto.
Qed.

Lemma unreadable_greeting (st : Storage) :
  unreadable st -> loadHistory st = Some [greeting].
Proof.
  unfold loadHistory, unreadable.
  intros [-> | [-> | (text & e & -> & Hp)]]; try reflexivity.
  destruct text; [reflexivity|]. cbn [truthy]. now rewrite Hp.
Qed.

(** X19. A history that cannot be read is replaced by the greeting.
    When local storage holds no chat history, or an empty text, or a text
    that is not JSON, the mounted panel shows the greeting alone, and its
    save effect writes that history over what was stored, so that the
    next panel reads the greeting back. No other key of local storage is
    touched. *)
Theorem unreadable_history_is_replaced (session : bool) (st : Storage) :
  unreadable st ->
  exists st',
    mount numberToString session st = Some (mkChat [greeting] session, st')
    /\ loadHistory st' = Some [greeting]
    /\ forall k, k <> CHAT_KEY -> st' !! k = st !! k.
Proof.
  intros H. unfold mount. rewrite (unreadable_greeting st H).
  rewrite saveEffect_nil. eexists. split; [reflexivity|]. split.
  - apply loadHistory_saveEffect; [discriminate | reflexivity].
  - intros k Hk. now apply saveEffect_frame.
Qed.

Variable sendMessage : jsstring -> result value.

Lemma appendMessage_messages (m : value) (c : ChatState) (st : Storage) :
  appendMessage numberToString m c st
  = (mkChat (messages c ++ [m]) (hasSession c),
     saveEffect numberToString (messages c ++ [m]) st).
Proof. reflexivity. Qed.

(** X20. A message sent in the panel. With a session and an input that
    is not blank, the message of the user is appended, and after it
    exactly one message of the model: the reply of the session, with its
    text and its citations, or, when the session throws or its reply
    cannot be read, the fixed apology. The send never fails. A blank
    input, or a panel without session, changes nothing. *)
Theorem send_appends_question_and_answer
    (input : jsstring) (c : ChatState) (st : Storage) :
  ((trim input = [] \/ hasSession c = false) ->
   handleSend numberToString sendMessage input c st = (c, st))
  /\ (trim input <> [] -> hasSession c = true ->
      exists answer,
        fst (handleSend numberToString sendMessage input c st)
        = mkChat (messages c ++ [userMessage input; answer]) true
        /\ (forall e, sendMessage input = Throw e -> answer = apology)
        /\ (forall reply,
              sendMessage input = Ok reply ->
              modelMessage reply = Ok answer
              \/ (exists e, modelMessage reply = Throw e) /\ answer = apology)).
Proof.
  unfold handleSend. split.
  - intros [-> | ->]; [reflexivity|]. now rewrite orb_true_r.
  - intros Hne Hs. rewrite Hs.
    destruct (trim input) as [|ch t] eqn:E; [contradiction|].
    cbn [truthy negb orb]. fold (userMessage input).
    rewrite appendMessage_messages.
    destruct (sendMessage input) as [reply|e] eqn:Hsend; cbn [bind try_catch].
    + destruct (modelMessage reply) as [m|e] eqn:Hm; cbn [try_catch].
      * exists m. rewrite appendMessage_messages. cbn [fst messages hasSession].
        rewrite Hs, <- List.app_assoc. split; [reflexivity|].
        split; [discriminate|]. intros r [= <-]. now left.
      * exists apology. rewrite appendMessage_messages.
        cbn [fst messages hasSession].
        rewrite Hs, <- List.app_assoc. split; [reflexivity|].
        split; [discriminate|]. intros r [= <-]. right. eauto.
    + exists apology. rewrite appendMessage_messages.
      cbn [fst messages hasSession].
      rewrite Hs, <- List.app_assoc. split; [reflexivity|].
      split; [reflexivity | discriminate].
Qed.

(** X21. The history on screen is the history in local storage. If
    local storage holds the messages of the panel, it still does after a
    message is sent, whether the send goes ahead, fails or is ignored:
    a panel mounted then would show the same messages. This holds for
    messages made of text, such as every message the panel itself builds
    from a reply whose text and citations are strings. *)
Theorem send_is_persisted (input : jsstring) (c : ChatState) (st : Storage) :
  forallb textual (messages c) = true ->
  loadHistory st = Some (messages c) ->
  (forall reply m,
     sendMessage input = Ok reply -> modelMessage reply = Ok m ->
     textual m = true) ->
  loadHistory (snd (handleSend numberToString sendMessage input c st))
  = Some (messages (fst (handleSend numberToString sendMessage input c st)))
  /\ forallb textual
       (messages (fst (handleSend numberToString sendMessage input c st)))
     = true.
Proof.
  intros Hc Hl Hreply. unfold handleSend.
  destruct (negb (truthy (VString (trim input))) || negb (hasSession c));
    [now split|].
  set (question := VObject [("role" : jsstring, VString "user");
                            ("text" : jsstring, VString input)]).
  destruct (appendMessage_persists numberToString question c st Hc eq_refl)
    as (Hl1 & _ & Ht1).
  destruct (appendMessage numberToString question c st) as [c1 st1].
  cbn [fst snd] in Hl1, Ht1.
  assert (Hans : exists answer,
             try_catch (reply <- sendMessage input ;; modelMessage reply)
                       (fun _ => Ok apology) = Ok answer
             /\ textual answer = true).
  { destruct (sendMessage input) as [reply|e] eqn:Es; simpl.
    - destruct (modelMessage reply) as [m|e] eqn:Em; simpl.
      + exists m. split; [reflexivity | now apply (Hreply reply m)].
      + exists apology. now split.
    - exists apology. now split. }
  destruct Hans as (answer & -> & Hta).
  destruct (appendMessage_persists numberToString answer c1 st1 Ht1 Hta)
    as (Hl2 & _ & Ht2).
  now split.
Qed.

Lemma handleSend_frame (input : jsstring) (c : ChatState) (st : Storage)
    (k : jsstring) :
  k <> CHAT_KEY ->
  snd (handleSend numberToString sendMessage input c st) !! k = st !! k.
Proof.
  intros Hk. unfold handleSend.
  destruct (negb (truthy (VString (trim input))) || negb (hasSession c));
    [reflexivity|].
  rewrite appendMessage_messages.
  destruct (try_catch _ _) as [m|e]; [rewrite appendMessage_messages|];
    cbn [snd]; now rewrite !saveEffect_frame.
Qed.

Lemma handleSend_keeps (input : jsstring) (c : ChatState) (st : Storage) :
  is_Some (st !! CHAT_KEY) ->
  is_Some (snd (handleSend numberToString sendMessage input c st) !! CHAT_KEY).
Proof.
  intros H. unfold handleSend.
  destruct (negb (truthy (VString (trim input))) || negb (hasSession c));
    [exact H|].
  rewrite appendMessage_messages.
  destruct (try_catch _ _) as [m|e]; [rewrite appendMessage_messages|];
    cbn [snd]; now repeat apply saveEffect_keeps.
Qed.

Variable engineMessage : exn -> jsstring.

Lemma step_storage (s : AppState) (e : Event) :
  (is_Some (localStorage s !! CHAT_KEY) ->
   is_Some (localStorage (step numberToString engineMessage sendMessage s e)
            !! CHAT_KEY))
  /\ forall k, k <> API_KEY -> k <> CHAT_KEY ->
       localStorage (step numberToString engineMessage sendMessage s e) !! k
       = localStorage s !! k.
Proof.
  destruct e as [key| | |outcome| |overview|input]; cbn [step].
  - split; [|intros k Hk _; now apply lookup_insert_ne].
    cbn [handleApiKeySave localStorage]. now rewrite lookup_insert_ne.
  - split; [|intros k Hk _; now apply lookup_delete_ne].
    cbn [handleApiKeyClear resetApp localStorage].
    now rewrite lookup_delete_ne.
  - unfold handleGenerateStart. destruct (negb (hasApiKey s)); now split.
  - destruct outcome; now split.
  - now split.
  - unfold render. destruct (chatVisible overview s); [|now split].
    destruct (chat s); [now split|].
    unfold mount. destruct (loadHistory (localStorage s)); [|now split].
    cbn [localStorage]. split.
    + intros H. now repeat apply saveEffect_keeps.
    + intros k _ Hk. now rewrite !saveEffect_frame.
  - unfold sendChat. destruct (chat s) as [c|]; [|now split].
    destruct (handleSend numberToString sendMessage input c (localStorage s))
      as [c' st'] eqn:E.
    cbn [localStorage].
    replace st' with (snd (handleSend numberToString sendMessage input c
                                      (localStorage s))) by now rewrite E.
    split.
    + apply handleSend_keeps.
    + intros k _ Hk. now apply handleSend_frame.
Qed.

(** X22. Nothing removes the stored chat history. Over every sequence
    of events of a session (saved keys, key resets, submitted forms,
    settled requests, restarts, renders, chat messages), a chat history
    in local storage stays in local storage, and the keys of local
    storage other than the credential and the chat history keep their
    values. *)
Theorem chat_history_is_never_removed (s : AppState) (events : list Event) :
  (is_Some (localStorage s !! CHAT_KEY) ->
   is_Some (localStorage
              (run numberToString engineMessage sendMessage events s)
            !! CHAT_KEY))
  /\ forall k, k <> API_KEY -> k <> CHAT_KEY ->
       localStorage (run numberToString engineMessage sendMessage events s) !! k
       = localStorage s !! k.
Proof.
  revert s. induction events as [|e events IH]; intros s; [now split|].
  cbn [run fold_left]. fold (run numberToString engineMessage sendMessage events).
  destruct (IH (step numberToString engineMessage sendMessage s e))
    as [Hkeep Hframe].
  destruct (step_storage s e) as [Hkeep1 Hframe1]. split.
  - intros H. now apply Hkeep, Hkeep1.
  - intros k Hk1 Hk2. now rewrite Hframe, Hframe1.
Qed.

End Panel.

Lemma chat_history_is_never_removed_witness :
  is_Some
    (localStorage
       (run (fun _ => []) (fun _ => "TypeError") (fun _ => Throw TypeError)
            [ClearKey; Render true; SaveKey "second key"; StartOver]
            AppSpec.afterConversation)
     !! CHAT_KEY).
Proof.
  apply (proj1 (chat_history_is_never_removed (fun _ => [])
                  (fun _ => Throw TypeError) (fun _ => "TypeError")
                  AppSpec.afterConversation
                  [ClearKey; Render true; SaveKey "second key"; StartOver])).
  vm_compute. eauto.
Defined.

Lemma send_is_persisted_witness :
  loadHistory
    (snd (handleSend (fun _ => [])
            (fun _ => Ok (VObject [("text" : jsstring,
                                    VString "Bonds dampen the swings.")]))
            "What about bonds?" (mkChat [greeting] true)
            (saveEffect (fun _ => []) [greeting] ∅)))
  = Some
      (messages
         (fst (handleSend (fun _ => [])
                 (fun _ => Ok (VObject [("text" : jsstring,
                                         VString "Bonds dampen the swings.")]))
                 "What about bonds?" (mkChat [greeting] true)
                 (saveEffect (fun _ => []) [greeting] ∅)))).
Proof.
  apply (send_is_persisted (fun _ => [])
           (fun _ => Ok (VObject [("text" : jsstring,
                                   VString "Bonds dampen the swings.")]))
           "What about bonds?" (mkChat [greeting] true)
           (saveEffect (fun _ => []) [greeting] ∅)).
  - reflexivity.
  - vm_compute. reflexivity.
  - intros reply m [= <-] [= <-]. reflexivity.
Defined.

Lemma unreadable_history_is_replaced_witness :
  exists st',
    mount (fun _ => []) true
          (<[CHAT_KEY := ("not JSON" : jsstring)]> (∅ : Storage))
    = Some (mkChat [greeting] true, st')
    /\ loadHistory st' = Some [greeting].
Proof.
  destruct (unreadable_history_is_replaced (fun _ => []) true
              (<[CHAT_KEY := ("not JSON" : jsstring)]> (∅ : Storage)))
    as (st' & Hm & Hl & _).
  - right; right. exists ("not JSON" : jsstring), SyntaxError.
    split; reflexivity.
  - exists st'. now split.
Defined.

Lemma send_appends_question_and_answer_witness :
  exists answer,
    fst (handleSend (fun _ => []) (fun _ => Throw (Error "offline"))
           "What about bonds?" (mkChat [greeting] true) ∅)
    = mkChat ([greeting] ++ [userMessage "What about bonds?"; answer]) true
    /\ answer = apology.
Proof.
  destruct (proj2 (send_appends_question_and_answer (fun _ => [])
                     (fun _ => Throw (Error "offline"))
                     "What about bonds?" (mkChat [greeting] true) ∅))
    as (answer & Hm & Ha & _); [vm_compute; discriminate | reflexivity |].
  exists answer. split; [exact Hm|]. now apply (Ha (Error "offline")).
Defined.

End ChatLaws.

(* ===================================================================== *)
(** * Properties of the profile form *)
(* ===================================================================== *)

Module FormFacts.
Import SanitizerFacts Advisor Form.










End FormFacts.

(* ===================================================================== *)
(** * Properties of the prompt *)
(* ===================================================================== *)

Module PromptFacts.
Import Str Json GeminiFacts Advisor Form Prompt PromptShape.





End PromptFacts.
